(** * frontend-owasp: the client-side authentication protocol

    A shallow embedding of the parts of the single-page application that
    carry behaviour: the axios instance of [src/lib/api.ts] with its
    response interceptor, the token helpers of [src/lib/cookieUtils.ts],
    the service layer [authService], the React [AuthProvider] (session
    probe, login, register, logout, refresh timer), the legacy mocked
    auth context, and the two sensitive-data masking functions.

    Conventions.
    - A JS string is a [string]; one character stands for one UTF-16
      code unit.
    - A JSON body is a [Json] value; [JUndefined] is JS [undefined].
    - An [async] function is a computation in the monad [M]: it threads
      the browser state, resolves or rejects, and carries fuel because
      the interceptor recursion of [api.ts] has no static bound.
    - The backend is an arbitrary deterministic state machine [serve].
    - Library functions whose tables or algorithms are not part of the
      repository ([String.prototype.toUpperCase], [decodeURIComponent],
      [bcryptjs]) are parameters.
    - Operations run one at a time, each to completion; a render commit
      follows the state change at once.
    - [console.log] / [console.error] output is not part of the state. *)

From Stdlib Require Import String Ascii List ZArith Bool Lia DecimalString.
Import ListNotations.

Local Open Scope string_scope.
Local Open Scope Z_scope.

(* ================================================================= *)
(** ** JavaScript values *)

Module Js.

(** [s.substring(a, b)] for non-negative arguments: both indices are
    clamped to the length and swapped when out of order. *)
Definition substring (a b : nat) (s : string) : string :=
  let len := String.length s in
  let a' := Nat.min a len in
  let b' := Nat.min b len in
  String.substring (Nat.min a' b') (Nat.max a' b' - Nat.min a' b') s.

(** [s.slice(k)]: a negative [k] counts from the end. *)
Definition slice (k : Z) (s : string) : string :=
  let len := Z.of_nat (String.length s) in
  let from := if k <? 0 then Z.max (len + k) 0 else Z.min k len in
  String.substring (Z.to_nat from) (Z.to_nat (len - from)) s.

(** [s.charAt(i)]: the empty string when out of range. *)
Definition charAt (i : nat) (s : string) : string :=
  String.substring i 1 s.

(** ['c'.repeat(n)]. *)
Fixpoint repeat (c : string) (n : nat) : string :=
  match n with
  | O => ""
  | S n' => c ++ repeat c n'
  end.

Definition upper_ascii (c : ascii) : ascii :=
  let n := nat_of_ascii c in
  if (Nat.leb 97 n && Nat.leb n 122)%bool then ascii_of_nat (n - 32) else c.

(** What [s.toUpperCase()] returns for a string of ASCII code units:
    [a] to [z] become [A] to [Z], everything else stays.  Outside
    ASCII the runtime follows the Unicode case tables (one letter may
    even become two), which is why the operations below take the
    runtime's function as a parameter; this one stands in for it in
    runs on concrete ASCII text. *)
Fixpoint asciiToUpperCase (s : string) : string :=
  match s with
  | EmptyString => EmptyString
  | String c r => String (upper_ascii c) (asciiToUpperCase r)
  end.

(** [s.split(sep)] for a one-character separator: never empty. *)
Fixpoint split (sep : ascii) (s : string) : list string :=
  match s with
  | EmptyString => [EmptyString]
  | String c r =>
      if Ascii.eqb c sep then EmptyString :: split sep r
      else match split sep r with
           | [] => [String c EmptyString]
           | h :: t => String c h :: t
           end
  end.

(** Template-literal rendering of an integral id. *)
Definition ofNumber (n : Z) : string :=
  NilZero.string_of_int (Z.to_int n).

Definition truthyStr (s : string) : bool :=
  negb (String.eqb s "").

#[warnings="-register-all"] Inductive Json : Type :=
| JUndefined
| JNull
| JBool (b : bool)
| JNum (n : Z)
| JStr (s : string)
| JObj (fields : list (string * Json)).

Definition truthy (j : Json) : bool :=
  match j with
  | JUndefined | JNull => false
  | JBool b => b
  | JNum n => negb (n =? 0)
  | JStr s => truthyStr s
  | JObj _ => true
  end.

(** [a || b]. *)
Definition or (a b : Json) : Json := if truthy a then a else b.

Fixpoint assoc (k : string) (fs : list (string * Json)) : option Json :=
  match fs with
  | [] => None
  | (k', v) :: r => if String.eqb k k' then Some v else assoc k r
  end.

(** [k in j]; [None] is the TypeError raised on a non-object. *)
Definition hasKey (k : string) (j : Json) : option bool :=
  match j with
  | JObj fs => Some (match assoc k fs with Some _ => true | None => false end)
  | _ => None
  end.

(** [j.k]; [None] is the TypeError raised on [undefined] and [null]. *)
Definition get (k : string) (j : Json) : option Json :=
  match j with
  | JUndefined | JNull => None
  | JObj fs => Some (match assoc k fs with Some v => v | None => JUndefined end)
  | _ => Some JUndefined
  end.

(** [j?.k]. *)
Definition optGet (k : string) (j : Json) : Json :=
  match get k j with Some v => v | None => JUndefined end.

(** [j === n] for a number literal [n]. *)
Definition isNum (n : Z) (j : Json) : bool :=
  match j with JNum m => m =? n | _ => false end.

End Js.
Import Js(Json, JUndefined, JNull, JBool, JNum, JStr, JObj).

(* ================================================================= *)
(** ** Sensitive-data masking (the current and the legacy editor) *)

Module SensitiveDataManager.

(** The editor bound to the backend: values short enough to be fully
    covered by the kept prefix and suffix are returned as they are. *)
Definition maskSensitiveValue (value type : string) : string :=
  if String.eqb type "iban" then
    if (String.length value <=? 8)%nat then value
    else Js.substring 0 8 value ++ " **** **** **** " ++ Js.slice (-4) value
  else if String.eqb type "fiscal_code" then
    if (String.length value <=? 6)%nat then value
    else Js.substring 0 3 value ++ "***" ++ Js.slice (-3) value
  else Js.repeat "*" (Nat.min (String.length value) 16).

End SensitiveDataManager.

Module LegacySensitiveDataManager.

(** The editor over hard-coded mock data: no length guard, and the
    fiscal code goes under the tag [codice_fiscale]. *)
Definition maskSensitiveValue (value type : string) : string :=
  if String.eqb type "iban" then
    Js.substring 0 8 value ++ " **** **** **** " ++ Js.slice (-4) value
  else if String.eqb type "codice_fiscale" then
    Js.substring 0 3 value ++ "***" ++ Js.slice (-3) value
  else Js.repeat "*" (Nat.min (String.length value) 16).

End LegacySensitiveDataManager.

(* ================================================================= *)
(** ** HTTP data *)

Inductive Method : Type := GET | POST | PUT | DELETE | PATCH.

(** A request configuration after axios merged the instance defaults
    with the arguments of the call.  [_retry] is the interceptor's own
    mark; it is absent ([false]) on a fresh request. *)
Record Config : Type := mkConfig {
  baseURL : string;
  timeout : Z;
  headers : list (string * string);
  withCredentials : bool;
  method : Method;
  url : string;
  data : Json;
  params : list (string * Json);
  _retry : bool
}.

Record Response : Type := mkResponse {
  status : Z;
  body : Json;
  config : Config
}.

(** What the transport hands back for one request. *)
Inductive Raw : Type :=
| Answer (status : Z) (body : Json)
| NoAnswer.

(** The rejection value of the axios chain: [error.config] and
    [error.response] (absent on a network failure or a timeout). *)
Record AxiosError : Type := mkAxiosError {
  errConfig : Config;
  errResponse : option Response
}.

(** Anything a [throw] or a rejected promise can carry. *)
Inductive Thrown : Type :=
| Axios (e : AxiosError)
| Plain (v : Json)
| JsError (message : string).

Inductive Outcome (A : Type) : Type :=
| Resolved (a : A)
| Rejected (e : Thrown).
Arguments Resolved {A} a.
Arguments Rejected {A} e.

(** The axios instance of [api.ts]: the request it builds when the
    call brings nothing of its own but [params]. *)
Definition apiDefaults (m : Method) (u : string) (d : Json)
    (ps : list (string * Json)) : Config :=
  {| baseURL := "http://localhost:8080/v1";
     timeout := 10000;
     headers := [("Content-Type", "application/json")];
     withCredentials := true;
     method := m; url := u; data := d; params := ps;
     _retry := false |}.

(** The [config?: AxiosRequestConfig] argument that every entry of
    [apiMethods] hands on to axios.  Kept are [params], the one field
    the repository's callers pass, and the three settings of the
    instance a call can replace; an absent field is [None]. *)
Record AxiosRequestConfig : Type := mkAxiosRequestConfig {
  cfgBaseURL : option string;
  cfgTimeout : option Z;
  cfgWithCredentials : option bool;
  cfgParams : list (string * Json)
}.

(** A call without the [config] argument. *)
Definition noConfig : AxiosRequestConfig :=
  {| cfgBaseURL := None; cfgTimeout := None; cfgWithCredentials := None;
     cfgParams := [] |}.

(** [{ params }]. *)
Definition onlyParams (ps : list (string * Json)) : AxiosRequestConfig :=
  {| cfgBaseURL := None; cfgTimeout := None; cfgWithCredentials := None;
     cfgParams := ps |}.

Definition orDefault {A} (given : option A) (default : A) : A :=
  match given with
  | Some a => a
  | None => default
  end.

(** axios' [mergeConfig]: a field of the call's config wins over the
    instance default; method, url and body are those of the call. *)
Definition mergeConfig (m : Method) (u : string) (d : Json)
    (cfg : AxiosRequestConfig) : Config :=
  let instance := apiDefaults m u d (cfgParams cfg) in
  {| baseURL := orDefault (cfgBaseURL cfg) (baseURL instance);
     timeout := orDefault (cfgTimeout cfg) (timeout instance);
     headers := headers instance;
     withCredentials :=
       orDefault (cfgWithCredentials cfg) (withCredentials instance);
     method := m; url := u; data := d; params := cfgParams cfg;
     _retry := false |}.

(** [originalRequest._retry = true]. *)
Definition markRetry (c : Config) : Config :=
  {| baseURL := baseURL c; timeout := timeout c; headers := headers c;
     withCredentials := withCredentials c; method := method c;
     url := url c; data := data c; params := params c;
     _retry := true |}.

(** axios' default [validateStatus]: 2xx resolves, anything else rejects
    with the response attached; no answer rejects without one. *)
Definition settle (c : Config) (r : Raw) : Response + AxiosError :=
  match r with
  | Answer st b =>
      let resp := {| status := st; body := b; config := c |} in
      if (200 <=? st) && (st <? 300) then inl resp
      else inr {| errConfig := c; errResponse := Some resp |}
  | NoAnswer => inr {| errConfig := c; errResponse := None |}
  end.

(** [error.response?.status === n]. *)
Definition statusIs (n : Z) (e : AxiosError) : bool :=
  match errResponse e with
  | Some r => status r =? n
  | None => false
  end.

(** The value of [error.response] when ['response' in error] holds,
    seen as JSON.  An axios error without a response has no such key
    (axios 1.x sets it only when there is one). *)
Definition responseOf (e : Thrown) : option Json :=
  match e with
  | Axios a =>
      match errResponse a with
      | Some r => Some (JObj [("status", JNum (status r)); ("data", body r)])
      | None => None
      end
  | Plain (JObj fs) => Js.assoc "response" fs
  | Plain _ => None
  | JsError _ => None
  end.

(* ================================================================= *)
(** ** Users and mock data ([src/lib/mockData.ts]) *)

Record User : Type := mkUser {
  id : Z;
  email : string;
  name : string;
  surname : string;
  totpEnabled : bool
}.

Definition defaultMockUser : User :=
  {| id := 1; email := "mario.rossi@example.com"; name := "Mario";
     surname := "Rossi"; totpEnabled := false |}.

Definition createMockUser (email name surname : string) : User :=
  if Js.truthyStr email && Js.truthyStr name && Js.truthyStr surname then
    {| id := 1; email := email; name := name; surname := surname;
       totpEnabled := false |}
  else defaultMockUser.

Definition getMockAuthenticatedUser : User := defaultMockUser.

Definition mockUsers : list User :=
  [ {| id := 1; email := "mario.rossi@example.com"; name := "Mario";
       surname := "Rossi"; totpEnabled := false |};
    {| id := 2; email := "giulia.bianchi@example.com"; name := "Giulia";
       surname := "Bianchi"; totpEnabled := true |};
    {| id := 3; email := "luca.verdi@example.com"; name := "Luca";
       surname := "Verdi"; totpEnabled := false |} ].

Definition findMockUserByEmail (e : string) : option User :=
  find (fun u => String.eqb (email u) e) mockUsers.

Section Naming.

(** [String.prototype.toUpperCase] of the JS runtime, taken as given:
    it follows the Unicode case tables and may change the length of
    its argument. *)
Variable toUpperCase : string -> string.

(** [part ? part.charAt(0).toUpperCase() + part.slice(1) : fallback],
    where [part] is [nameParts[i]] and may be missing. *)
Definition capitalised (part : option string) (fallback : string) : string :=
  match part with
  | Some p =>
      if Js.truthyStr p
      then toUpperCase (Js.charAt 0 p) ++ Js.slice 1 p
      else fallback
  | None => fallback
  end.

(** The user shown after a successful login. *)
Definition loginUser (e : string) (totpCode : option string) : User :=
  let userData :=
    match findMockUserByEmail e with
    | Some u => u
    | None =>
        let nameParts := Js.split "." (hd "" (Js.split "@" e)) in
        createMockUser e
          (capitalised (nth_error nameParts 0) "User")
          (capitalised (nth_error nameParts 1) "Unknown")
    end in
  match totpCode with
  | Some c =>
      if Js.truthyStr c
      then {| id := id userData; email := email userData;
              name := name userData; surname := surname userData;
              totpEnabled := true |}
      else userData
  | None => userData
  end.

End Naming.

(* ================================================================= *)
(** ** Error normalisation ([src/lib/apiConstants.ts]) *)

Record APIError : Type := mkAPIError {
  apiStatus : Json;
  apiMessage : Json
}.

(** [handleAPIError]; [None] is a TypeError raised while reading a
    malformed [response]. *)
Definition handleAPIError (error : Thrown) : option APIError :=
  match responseOf error with
  | Some response =>
      match Js.get "status" response, Js.get "data" response with
      | Some st, Some d =>
          match Js.get "message" d, Js.get "error" d with
          | Some m, Some e =>
              Some {| apiStatus := st;
                      apiMessage := Js.or (Js.or m e) (JStr "An error occurred") |}
          | _, _ => None
          end
      | _, _ => None
      end
  | None =>
      Some {| apiStatus := JNum 0;
              apiMessage := JStr "Network error or unknown error occurred" |}
  end.

(* ================================================================= *)
(** ** Timers and the effect slot of the provider *)

Inductive Callback : Type := CallRefreshToken.

Record Interval : Type := mkInterval {
  handle : nat;
  delay : Z;
  since : Z;
  callback : Callback
}.

Record Timers : Type := mkTimers {
  clock : Z;
  nextHandle : nat;
  intervals : list Interval
}.

(** What React remembers of the [useEffect(..., [isAuthenticated])]
    hook: the dependency it last ran with and the cleanup it returned
    (the handle to pass to [clearInterval]). *)
Record EffectSlot : Type := mkEffectSlot {
  deps : option bool;
  cleanup : option nat
}.

Definition setInterval (cb : Callback) (ms : Z) (t : Timers) : nat * Timers :=
  (nextHandle t,
   {| clock := clock t;
      nextHandle := S (nextHandle t);
      intervals := intervals t ++
        [{| handle := nextHandle t; delay := ms; since := clock t;
            callback := cb |}] |}).

Definition clearInterval (h : nat) (t : Timers) : Timers :=
  {| clock := clock t;
     nextHandle := nextHandle t;
     intervals := filter (fun iv => negb (Nat.eqb (handle iv) h)) (intervals t) |}.

(** Time passes. *)
Definition advance (ms : Z) (t : Timers) : Timers :=
  {| clock := clock t + ms; nextHandle := nextHandle t;
     intervals := intervals t |}.

(** An interval fires at every positive multiple of its delay after
    its registration. *)
Definition isDue (at_ : Z) (iv : Interval) : bool :=
  (since iv <? at_) && ((at_ - since iv) mod delay iv =? 0).

Definition dueAt (at_ : Z) (t : Timers) : list Callback :=
  map callback (filter (isDue at_) (intervals t)).

(** The body of the refresh effect:
    [if (!isAuthenticated) return; const interval = setInterval(...);
     return () => clearInterval(interval)]. *)
Definition refreshEffectBody (isAuthenticated : bool) (t : Timers)
    : option nat * Timers :=
  if negb isAuthenticated then (None, t)
  else
    let (interval, t') := setInterval CallRefreshToken (14 * 60 * 1000) t in
    (Some interval, t').

Definition depsChanged (old : option bool) (now : bool) : bool :=
  match old with
  | None => true
  | Some b => negb (Bool.eqb b now)
  end.

(** One commit of the hook for the rendered value of
    [isAuthenticated]: when the dependency changed (or on mount), the
    previous cleanup runs and then the effect body. *)
Definition commitEffect (isAuthenticated : bool) (e : EffectSlot) (t : Timers)
    : EffectSlot * Timers :=
  if depsChanged (deps e) isAuthenticated then
    let t1 := match cleanup e with
              | Some h => clearInterval h t
              | None => t
              end in
    let (c, t2) := refreshEffectBody isAuthenticated t1 in
    ({| deps := Some isAuthenticated; cleanup := c |}, t2)
  else (e, t).

(* ================================================================= *)
(** ** The legacy, fully mocked auth context *)

Module LegacyAuthContext.

(** [verify2FA]: synchronous, no request; accepts the single code
    [123456]. *)
Definition verify2FA (code : string) : bool := String.eqb code "123456".

End LegacyAuthContext.

(* ================================================================= *)
(** ** Client-side hashing ([src/lib/passwordSecurity.ts]) *)

Section PasswordSecurity.

(** [bcryptjs] is an external package: salt generation and hashing
    are taken as given, and as succeeding. *)
Variable genSalt : Z -> string.
Variable bcryptHash : string -> string -> string.

Definition SALT_ROUNDS : Z := 12.

Definition hashPassword (password : string) : string :=
  bcryptHash password (genSalt SALT_ROUNDS).

End PasswordSecurity.

(* ================================================================= *)
(** ** The running page *)

Record AuthState : Type := mkAuthState {
  user : option User;
  isAuthenticated : bool;
  isLoading : bool
}.

Inductive ToastKind : Type := ToastSuccess | ToastError.

Record LoginResult : Type := mkLoginResult {
  success : bool;
  requiresTOTP : option bool;
  error : option Json
}.

(** The five entry points of [apiMethods] with their arguments. *)
Inductive ApiCall : Type :=
| CallGet (u : string) (config : AxiosRequestConfig)
| CallPost (u : string) (d : Json) (config : AxiosRequestConfig)
| CallPut (u : string) (d : Json) (config : AxiosRequestConfig)
| CallDelete (u : string) (config : AxiosRequestConfig)
| CallPatch (u : string) (d : Json) (config : AxiosRequestConfig).

(** The [config] argument of a call. *)
Definition configOf (call : ApiCall) : AxiosRequestConfig :=
  match call with
  | CallGet _ config | CallPost _ _ config | CallPut _ _ config
  | CallDelete _ config | CallPatch _ _ config => config
  end.

(** The request configuration axios builds for a call. *)
Definition requestOf (call : ApiCall) : Config :=
  match call with
  | CallGet u config => mergeConfig GET u JUndefined config
  | CallPost u d config => mergeConfig POST u d config
  | CallPut u d config => mergeConfig PUT u d config
  | CallDelete u config => mergeConfig DELETE u JUndefined config
  | CallPatch u d config => mergeConfig PATCH u d config
  end.

Section Client.

(** The backend: any state machine answering one request at a time. *)
Variable World : Type.
Variable serve : World -> Config -> Raw * World.

(** [String.prototype.toUpperCase] of the JS runtime. *)
Variable toUpperCase : string -> string.

(** Everything an operation can observe or change: the backend, the
    requests that left the browser (oldest first), the cookie jar as
    scripts see it, the provider's [useState] cells and the toasts
    shown. *)
Record St : Type := mkSt {
  backend : World;
  sent : list Config;
  cookie : string;
  auth : AuthState;
  toasts : list (ToastKind * Json)
}.

(** An [async] computation; [None] means the fuel ran out. *)
Definition M (A : Type) : Type := St -> option (Outcome A * St).

Definition ret {A} (a : A) : M A := fun s => Some (Resolved a, s).

Definition throw {A} (e : Thrown) : M A := fun s => Some (Rejected e, s).

Definition diverge {A} : M A := fun _ => None.

Definition bind {A B} (m : M A) (k : A -> M B) : M B :=
  fun s =>
    match m s with
    | None => None
    | Some (Resolved a, s') => k a s'
    | Some (Rejected e, s') => Some (Rejected e, s')
    end.

(** [await] under a [try]: the outcome is handed to the continuation
    instead of unwinding. *)
Definition attempt {A} (m : M A) : M (Outcome A) :=
  fun s =>
    match m s with
    | None => None
    | Some (o, s') => Some (Resolved o, s')
    end.

(** [try { m } catch (e) { h e }]. *)
Definition tryCatch {A} (m : M A) (h : Thrown -> M A) : M A :=
  bind (attempt m)
       (fun o => match o with
                 | Resolved a => ret a
                 | Rejected e => h e
                 end).

(** [try { m } finally { f }]: a rejection of [f] replaces the
    outcome of [m]. *)
Definition finally {A} (m : M A) (f : M unit) : M A :=
  bind (attempt m)
       (fun o => bind f (fun _ => match o with
                                  | Resolved a => ret a
                                  | Rejected e => throw e
                                  end)).

(** A synchronous step that raises a TypeError when it has no value. *)
Definition orTypeError {A} (o : option A) : M A :=
  match o with
  | Some a => ret a
  | None => throw (JsError "TypeError")
  end.

Notation "x <- m ;; k" := (bind m (fun x => k))
  (at level 61, m at next level, right associativity).
Notation "m ;;; k" := (bind m (fun _ => k))
  (at level 61, right associativity).

Definition setAuth (f : AuthState -> AuthState) : M unit :=
  fun s => Some (Resolved tt,
    {| backend := backend s; sent := sent s; cookie := cookie s;
       auth := f (auth s); toasts := toasts s |}).

Definition setUser (u : option User) : M unit :=
  setAuth (fun a => {| user := u; isAuthenticated := isAuthenticated a;
                       isLoading := isLoading a |}).

Definition setIsAuthenticated (b : bool) : M unit :=
  setAuth (fun a => {| user := user a; isAuthenticated := b;
                       isLoading := isLoading a |}).

Definition setIsLoading (b : bool) : M unit :=
  setAuth (fun a => {| user := user a; isAuthenticated := isAuthenticated a;
                       isLoading := b |}).

Definition toast (k : ToastKind) (msg : Json) : M unit :=
  fun s => Some (Resolved tt,
    {| backend := backend s; sent := sent s; cookie := cookie s;
       auth := auth s; toasts := toasts s ++ [(k, msg)] |}).

(** The transport: the request leaves the browser and the backend
    answers. *)
Definition dispatch (c : Config) : M Raw :=
  fun s =>
    let (r, w) := serve (backend s) c in
    Some (Resolved r,
      {| backend := w; sent := sent s ++ [c]; cookie := cookie s;
         auth := auth s; toasts := toasts s |}).

(* --------------------------------------------------------------- *)
(** *** [tokenUtils] ([src/lib/cookieUtils.ts]) *)

Definition tokenUtils_isAuthenticated : M bool := ret false.

Definition tokenUtils_getAuthToken : M (option string) := ret None.

Definition tokenUtils_getRefreshToken : M (option string) := ret None.

Definition tokenUtils_clearAuthTokens : M unit := ret tt.

(* --------------------------------------------------------------- *)
(** *** The axios instance and its interceptors ([src/lib/api.ts]) *)

(** Request interceptor: the configuration goes through unchanged. *)
Definition requestInterceptor (c : Config) : Config := c.

(** [api.post(url, data, config)] over a given way to run a request. *)
Definition postWith (request : Config -> M Response)
    (u : string) (d : Json) (config : AxiosRequestConfig) : M Response :=
  request (mergeConfig POST u d config).

(** [authService.refreshToken], as the interceptor imports it. *)
Definition refreshTokenWith (request : Config -> M Response) : M Json :=
  response <- postWith request "/auth/refresh" JUndefined noConfig ;;
  ret (body response).

(** [originalRequest._retry = true] on the object that [error.config]
    and [error.response.config] both point to. *)
Definition markRetryError (e : AxiosError) : AxiosError :=
  {| errConfig := markRetry (errConfig e);
     errResponse :=
       option_map (fun r => {| status := status r; body := body r;
                               config := markRetry (config r) |})
                  (errResponse e) |}.

Definition onFulfilled (response : Response) : M Response := ret response.

(** The rejection handler of the response interceptor.  The refresh
    is awaited inside the [try]; the re-issued request is returned
    without [await], so its rejection does not reach the [catch]. *)
Definition onRejected (request : Config -> M Response)
    (error : AxiosError) : M Response :=
  let originalRequest := errConfig error in
  if statusIs 401 error && negb (_retry originalRequest) then
    let error' := markRetryError error in
    refreshed <- attempt (refreshTokenWith request) ;;
    match refreshed with
    | Resolved _ => request (errConfig error')
    | Rejected refreshError =>
        tokenUtils_clearAuthTokens ;;;
        throw (Axios error')
    end
  else
    (* a 500 is only written to the console *)
    throw (Axios error).

(** [api(config)]: one pass through the chain; [fuel] bounds the
    nesting of interceptor-issued requests. *)
Fixpoint api (fuel : nat) (c : Config) {struct fuel} : M Response :=
  match fuel with
  | O => diverge
  | S fuel' =>
      raw <- dispatch (requestInterceptor c) ;;
      match settle (requestInterceptor c) raw with
      | inl response => onFulfilled response
      | inr error => onRejected (api fuel') error
      end
  end.

Definition apiMethods_get (fuel : nat) (u : string)
    (config : AxiosRequestConfig) : M Response :=
  api fuel (mergeConfig GET u JUndefined config).

Definition apiMethods_post (fuel : nat) (u : string) (d : Json)
    (config : AxiosRequestConfig) : M Response :=
  postWith (api fuel) u d config.

Definition apiMethods_put (fuel : nat) (u : string) (d : Json)
    (config : AxiosRequestConfig) : M Response :=
  api fuel (mergeConfig PUT u d config).

Definition apiMethods_delete (fuel : nat) (u : string)
    (config : AxiosRequestConfig) : M Response :=
  api fuel (mergeConfig DELETE u JUndefined config).

Definition apiMethods_patch (fuel : nat) (u : string) (d : Json)
    (config : AxiosRequestConfig) : M Response :=
  api fuel (mergeConfig PATCH u d config).

(** One call through the [apiMethods] object. *)
Definition apiMethods (fuel : nat) (call : ApiCall) : M Response :=
  match call with
  | CallGet u config => apiMethods_get fuel u config
  | CallPost u d config => apiMethods_post fuel u d config
  | CallPut u d config => apiMethods_put fuel u d config
  | CallDelete u config => apiMethods_delete fuel u config
  | CallPatch u d config => apiMethods_patch fuel u d config
  end.

(* --------------------------------------------------------------- *)
(** *** [authService] *)

Definition authService_refreshToken (fuel : nat) : M Json :=
  refreshTokenWith (api fuel).

(** [login]: 422 turns into a normal value, 423 into a thrown body,
    anything else is thrown again as caught. *)
Definition authService_login (fuel : nat) (credentials : Json) : M Json :=
  posted <- attempt (apiMethods_post fuel "/auth/login" credentials noConfig) ;;
  match posted with
  | Resolved response => ret (body response)
  | Rejected error =>
      match responseOf error with
      | Some response =>
          if Js.isNum 422 (Js.optGet "status" response) then
            orTypeError (Js.get "data" response)
          else if Js.isNum 423 (Js.optGet "status" response) then
            locked <- orTypeError (Js.get "data" response) ;;
            throw (Plain locked)
          else throw error
      | None => throw error
      end
  end.

Definition authService_register (fuel : nat) (userData : Json) : M Json :=
  response <- apiMethods_post fuel "/auth/register" userData noConfig ;;
  ret (body response).

Definition authService_logout (fuel : nat) : M Json :=
  response <- apiMethods_post fuel "/auth/logout" JUndefined noConfig ;;
  ret (body response).

Definition authService_twoFactor_verify (fuel : nat) (userId : Z)
    (request : Json) : M Json :=
  response <- apiMethods_post fuel
                ("/users/" ++ Js.ofNumber userId ++ "/2fa/verify") request noConfig ;;
  ret (body response).

Definition authService_twoFactor_totp_verify (fuel : nat) (userId : Z)
    (code : string) : M Json :=
  response <- apiMethods_post fuel
                ("/users/" ++ Js.ofNumber userId ++ "/totp/verify")
                (JObj [("totp_code", JStr code)]) noConfig ;;
  ret (body response).

Definition authService_verifyAuth (fuel : nat) : M bool :=
  probed <- attempt (apiMethods_post fuel "/auth/refresh" JUndefined noConfig) ;;
  match probed with
  | Resolved _ => ret true
  | Rejected _ => ret false
  end.

(* --------------------------------------------------------------- *)
(** *** [AuthProvider] *)

(** The mount effect. *)
Definition checkAuth (fuel : nat) : M unit :=
  setIsLoading true ;;;
  finally
    (tryCatch
       (isValid <- authService_verifyAuth fuel ;;
        setIsAuthenticated isValid ;;;
        if isValid then setUser (Some getMockAuthenticatedUser)
        else setUser None)
       (fun _ => setIsAuthenticated false ;;; setUser None))
    (setIsLoading false).

Definition loginRequest (email password : string)
    (totpCode : option string) : Json :=
  JObj [("email", JStr email);
        ("password", JStr password);
        ("totp_code", match totpCode with
                      | Some c => JStr c
                      | None => JUndefined
                      end)].

Definition login (fuel : nat) (email password : string)
    (totpCode : option string) : M LoginResult :=
  tryCatch
    (let credentials := loginRequest email password totpCode in
     result <- authService_login fuel credentials ;;
     present <- orTypeError (Js.hasKey "totp_required" result) ;;
     if present && Js.truthy (Js.optGet "totp_required" result) then
       ret {| success := false; requiresTOTP := Some true;
              error := Some (JStr "TOTP code required") |}
     else
       setIsAuthenticated true ;;;
       setUser (Some (loginUser toUpperCase email totpCode)) ;;;
       toast ToastSuccess (JStr "Login completato con successo") ;;;
       ret {| success := true; requiresTOTP := None; error := None |})
    (fun caught =>
       apiError <- orTypeError (handleAPIError caught) ;;
       if Js.isNum 423 (apiStatus apiError) then
         ret {| success := false; requiresTOTP := None;
                error := Some (JStr
                  "Account temporarily locked due to too many failed attempts") |}
       else
         ret {| success := false; requiresTOTP := None;
                error := Some (Js.or (apiMessage apiError)
                                     (JStr "Login failed")) |}).

Definition registerRequest (email password name surname : string) : Json :=
  JObj [("email", JStr email); ("password", JStr password);
        ("name", JStr name); ("surname", JStr surname)].

Definition register (fuel : nat) (email password name surname : string)
    : M bool :=
  tryCatch
    (let registerData := registerRequest email password name surname in
     _ <- authService_register fuel registerData ;;
     let userData := createMockUser email name surname in
     loginResult <- login fuel email password None ;;
     if success loginResult then
       toast ToastSuccess
         (JStr "Registrazione e accesso completati con successo!") ;;;
       ret true
     else
       setUser (Some userData) ;;;
       setIsAuthenticated true ;;;
       toast ToastSuccess (JStr "Registrazione completata con successo!") ;;;
       ret true)
    (fun caught =>
       apiError <- orTypeError (handleAPIError caught) ;;
       toast ToastError
         (Js.or (apiMessage apiError)
                (JStr "Errore durante la registrazione")) ;;;
       ret false).

Definition logout (fuel : nat) : M unit :=
  finally
    (tryCatch (_ <- authService_logout fuel ;; ret tt)
              (fun _ => ret tt))
    (setUser None ;;;
     setIsAuthenticated false ;;;
     tokenUtils_clearAuthTokens ;;;
     toast ToastSuccess (JStr "Logged out successfully")).

Definition refreshToken (fuel : nat) : M bool :=
  tryCatch
    (_ <- authService_refreshToken fuel ;; ret true)
    (fun _ =>
       setUser None ;;;
       setIsAuthenticated false ;;;
       tokenUtils_clearAuthTokens ;;;
       ret false).

(* --------------------------------------------------------------- *)
(** *** The mounted provider: page state, effect slot and timers *)

Record App : Type := mkApp {
  page : St;
  slot : EffectSlot;
  timers : Timers
}.

(** React commits the refresh effect after a render. *)
Definition commit (a : App) : App :=
  let (e, t) := commitEffect (isAuthenticated (auth (page a)))
                             (slot a) (timers a) in
  {| page := page a; slot := e; timers := t |}.

(** First render: [user = null], [isAuthenticated = false],
    [isLoading = true], nothing sent, no timer. *)
Definition mount (w : World) (jar : string) : App :=
  commit
    {| page := {| backend := w; sent := []; cookie := jar;
                  auth := {| user := None; isAuthenticated := false;
                             isLoading := true |};
                  toasts := [] |};
       slot := {| deps := None; cleanup := None |};
       timers := {| clock := 0; nextHandle := 0; intervals := [] |} |}.

(** What an interval callback runs. *)
Definition runCallback (fuel : nat) (cb : Callback) : M bool :=
  match cb with
  | CallRefreshToken => refreshToken fuel
  end.

(** The provider over time: it is mounted, operations complete and
    are followed by a render, and time passes in between. *)
Inductive reachable : App -> Prop :=
| reach_mount : forall w jar, reachable (mount w jar)
| reach_op : forall a (A : Type) (op : M A) o s',
    reachable a ->
    op (page a) = Some (o, s') ->
    reachable (commit {| page := s'; slot := slot a; timers := timers a |})
| reach_wait : forall a ms,
    reachable a ->
    0 <= ms ->
    reachable {| page := page a; slot := slot a;
                 timers := advance ms (timers a) |}.

(** The requests an operation added to the log. *)
Definition newlySent (before after : St) : list Config :=
  skipn (List.length (sent before)) (sent after).

End Client.

Arguments mkSt {World}.
Arguments backend {World}.
Arguments sent {World}.
Arguments cookie {World}.
Arguments auth {World}.
Arguments toasts {World}.
Arguments mkApp {World}.
Arguments page {World}.
Arguments slot {World}.
Arguments timers {World}.
Arguments ret {World A}.
Arguments throw {World A}.
Arguments bind {World A B}.
Arguments attempt {World A}.
Arguments tryCatch {World A}.
Arguments finally {World A}.
Arguments api {World}.
Arguments onRejected {World}.
Arguments refreshTokenWith {World}.
Arguments postWith {World}.
Arguments dispatch {World}.
Arguments apiMethods {World}.
Arguments apiMethods_get {World}.
Arguments apiMethods_post {World}.
Arguments apiMethods_put {World}.
Arguments apiMethods_delete {World}.
Arguments apiMethods_patch {World}.
Arguments tokenUtils_isAuthenticated {World}.
Arguments tokenUtils_getAuthToken {World}.
Arguments tokenUtils_getRefreshToken {World}.
Arguments tokenUtils_clearAuthTokens {World}.
Arguments authService_refreshToken {World}.
Arguments authService_login {World}.
Arguments authService_register {World}.
Arguments authService_logout {World}.
Arguments authService_twoFactor_verify {World}.
Arguments authService_twoFactor_totp_verify {World}.
Arguments authService_verifyAuth {World}.
Arguments checkAuth {World}.
Arguments login {World}.
Arguments register {World}.
Arguments logout {World}.
Arguments refreshToken {World}.
Arguments commit {World}.
Arguments mount {World}.
Arguments runCallback {World}.
Arguments reachable {World}.
Arguments newlySent {World}.

(** A backend that plays a fixed script, whatever it is asked; it stops
    answering when the script is over. *)
Definition scripted (w : list Raw) (_ : Config) : Raw * list Raw :=
  match w with
  | [] => (NoAnswer, [])
  | r :: w' => (r, w')
  end.

(** A backend that answers every request with the same status. *)
Definition always (st : Z) (w : unit) (_ : Config) : Raw * unit :=
  (Answer st JNull, w).

Definition freshPage {World} (w : World) : St World :=
  {| backend := w; sent := []; cookie := "";
     auth := {| user := None; isAuthenticated := false; isLoading := true |};
     toasts := [] |}.

(* ================================================================= *)
(** ** Text tests used by the validators *)

Module Text.

Definition inRange (lo hi : nat) (c : ascii) : bool :=
  (Nat.leb lo (nat_of_ascii c) && Nat.leb (nat_of_ascii c) hi)%bool.

Definition isLower (c : ascii) : bool := inRange 97 122 c.
Definition isUpper (c : ascii) : bool := inRange 65 90 c.
Definition isDigit (c : ascii) : bool := inRange 48 57 c.
Definition isAlnum (c : ascii) : bool := isLower c || isUpper c || isDigit c.

(** Line terminators, which [.] does not match. *)
Definition isLineEnd (c : ascii) : bool :=
  Nat.eqb (nat_of_ascii c) 10 || Nat.eqb (nat_of_ascii c) 13.

(** [/[class]/.test(s)]: some code unit of [s] is in the class. *)
Definition test (class : ascii -> bool) (s : string) : bool :=
  existsb class (list_ascii_of_string s).

(** [/^[class]*$/]-style check: every code unit is in the class. *)
Definition all (class : ascii -> bool) (s : string) : bool :=
  forallb class (list_ascii_of_string s).

(** [hay.includes(needle)]. *)
Fixpoint includes (needle hay : string) : bool :=
  String.prefix needle hay ||
  match hay with
  | EmptyString => false
  | String _ rest => includes needle rest
  end.

Definition lower_ascii (c : ascii) : ascii :=
  if isUpper c then ascii_of_nat (nat_of_ascii c + 32) else c.

(** [s.toLowerCase()] on the ASCII range; other code units are kept. *)
Fixpoint toLowerCase (s : string) : string :=
  match s with
  | EmptyString => EmptyString
  | String c r => String (lower_ascii c) (toLowerCase r)
  end.

(** [/a|b|.../i.test(s)] for literal lower-case alternatives. *)
Definition includesAnyCI (needles : list string) (s : string) : bool :=
  existsb (fun n => includes n (toLowerCase s)) needles.

(** [/(.)\1{2,}/.test(s)]: a code unit other than a line terminator
    three times in a row. *)
Fixpoint hasTripleRepeat (s : string) : bool :=
  match s with
  | String a ((String b (String c _)) as rest) =>
      (negb (isLineEnd a) && Ascii.eqb a b && Ascii.eqb b c)
      || hasTripleRepeat rest
  | _ => false
  end.

Definition count (bs : list bool) : nat :=
  List.length (filter (fun b => b) bs).

End Text.

(* ================================================================= *)
(** ** Password strength ([src/lib/passwordSecurity.ts]) *)

Module PasswordStrength.

Record Checks : Type := mkChecks {
  length : bool;
  lowercase : bool;
  uppercase : bool;
  numbers : bool;
  special : bool;
  noCommonPatterns : bool
}.

Inductive Strength : Type := VeryWeak | Weak | Medium | Strong.

Record Report : Type := mkReport {
  isValid : bool;
  score : nat;
  checks : Checks;
  strength : Strength;
  suggestions : list string
}.

(** The character class of the [special] check: the double quote and
    nineteen punctuation marks. *)
Definition isSpecial (c : ascii) : bool :=
  existsb (Ascii.eqb c)
    (ascii_of_nat 34 :: list_ascii_of_string "!@#$%^&*(),.?:{}|<>").

Definition commonPatterns : list string :=
  ["123456"; "password"; "qwerty"; "abc123"].

(** [[a && 'text', ...].filter(Boolean)]. *)
Definition keepFailed (items : list (bool * string)) : list string :=
  map snd (filter (fun it => negb (fst it)) items).

Definition validatePasswordStrength (password : string) : Report :=
  let minLength := 8%nat in
  let cs :=
    {| length := Nat.leb minLength (String.length password);
       lowercase := Text.test Text.isLower password;
       uppercase := Text.test Text.isUpper password;
       numbers := Text.test Text.isDigit password;
       special := Text.test isSpecial password;
       noCommonPatterns := negb (Text.includesAnyCI commonPatterns password) |} in
  let sc := Text.count [length cs; lowercase cs; uppercase cs; numbers cs;
                        special cs; noCommonPatterns cs] in
  {| isValid := Nat.leb 4 sc && length cs;
     score := sc;
     checks := cs;
     strength := if Nat.ltb sc 2 then VeryWeak
                 else if Nat.ltb sc 3 then Weak
                 else if Nat.ltb sc 5 then Medium
                 else Strong;
     suggestions :=
       keepFailed
         [(length cs, "Usa almeno 8 caratteri");
          (lowercase cs, "Aggiungi lettere minuscole");
          (uppercase cs, "Aggiungi lettere maiuscole");
          (numbers cs, "Aggiungi numeri");
          (special cs, "Aggiungi caratteri speciali");
          (noCommonPatterns cs,
           "Evita pattern comuni (123456, password, ecc.)")] |}.

End PasswordStrength.

(* ================================================================= *)
(** ** The other password meters *)

Module SecurityValidation.

(** [isPasswordStrong] of [src/lib/apiConstants.ts], with
    [PASSWORD_REQUIREMENTS] as declared: every requirement is on. *)
Definition isPasswordStrong (password : string) : bool :=
  if Nat.ltb (String.length password) 8 then false
  else if negb (Text.test Text.isUpper password) then false
  else if negb (Text.test Text.isLower password) then false
  else if negb (Text.test Text.isDigit password) then false
  else if negb (Text.test (fun c => negb (Text.isAlnum c)) password) then false
  else true.

Definition isTOTPCodeValid (code : string) : bool :=
  Nat.eqb (String.length code) 6 && Text.all Text.isDigit code.

Definition weakPasswords : list string :=
  ["password"; "123456"; "123456789"; "qwerty"; "abc123";
   "password123"; "admin"; "letmein"; "welcome"; "monkey"].

Definition isPasswordWeak (password : string) : bool :=
  existsb (fun weak => Text.includes (Text.toLowerCase weak)
                                     (Text.toLowerCase password))
          weakPasswords.

Definition sensitiveFields : list string :=
  ["password"; "token"; "secret"; "iban"; "fiscalCode"; "creditCard"].

(** [obj[k] = v] on an object that has the key: the entry keeps its
    place. *)
Fixpoint setField (k : string) (v : Json) (fs : list (string * Json))
    : list (string * Json) :=
  match fs with
  | [] => []
  | (k', v') :: r =>
      if String.eqb k k' then (k', v) :: r else (k', v') :: setField k v r
  end.

(** [sanitizeForLogging]: the copy [{ ...data }] with each listed
    field that is present overwritten. *)
Definition sanitizeForLogging (data : list (string * Json))
    : list (string * Json) :=
  fold_left
    (fun sanitized field =>
       match Js.assoc field sanitized with
       | Some _ => setField field (JStr "[REDACTED]") sanitized
       | None => sanitized
       end)
    sensitiveFields data.

End SecurityValidation.

Module PasswordChangeForm.

Inductive Level : Type := weak | medium | strong.

Definition strengthScore (password : string) : nat :=
  Text.count [Nat.leb 8 (String.length password);
              Nat.leb 12 (String.length password);
              Text.test Text.isLower password;
              Text.test Text.isUpper password;
              Text.test Text.isDigit password;
              Text.test (fun c => negb (Text.isAlnum c)) password].

Definition calculatePasswordStrength (password : string) : Level :=
  let score := strengthScore password in
  if Nat.leb score 2 then weak
  else if Nat.leb score 4 then medium
  else strong.

End PasswordChangeForm.

Module RegisterForm.

(** [getPasswordStrength(password).score]: [0] for the empty string,
    else the number of the five checks that pass. *)
Definition passwordScore (password : string) : nat :=
  if negb (Js.truthyStr password) then 0%nat
  else Text.count [Nat.leb 8 (String.length password);
                   Text.test Text.isLower password;
                   Text.test Text.isUpper password;
                   Text.test Text.isDigit password;
                   Text.test PasswordStrength.isSpecial password].

Definition isPasswordValid (password : string) : bool :=
  Nat.leb 3 (passwordScore password).

End RegisterForm.

Module SecurityServiceValidation.

Record Report : Type := mkReport {
  score : nat;
  feedback : list string;
  isStrong : bool
}.

(** [/^.*(123|abc|qwe|password).*$/i.test(s)]: the anchors and [.]
    confine the match to a string without line terminators. *)
Definition hasCommonPattern (password : string) : bool :=
  negb (Text.test Text.isLineEnd password) &&
  Text.includesAnyCI ["123"; "abc"; "qwe"; "password"] password.

(** One [if (ok) score += 1; else feedback.push(msg)] step; a step
    without message only scores. *)
Definition step (ok : bool) (msg : option string) (acc : nat * list string)
    : nat * list string :=
  if ok then (S (fst acc), snd acc)
  else match msg with
       | Some m => (fst acc, (snd acc ++ [m])%list)
       | None => acc
       end.

Definition checkPasswordStrength (password : string) : Report :=
  let acc := (0%nat, @nil string) in
  let acc := step (Nat.leb 8 (String.length password))
               (Some "Password should be at least 8 characters long") acc in
  let acc := step (Nat.leb 12 (String.length password)) None acc in
  let acc := step (Text.test Text.isLower password)
               (Some "Include lowercase letters") acc in
  let acc := step (Text.test Text.isUpper password)
               (Some "Include uppercase letters") acc in
  let acc := step (Text.test Text.isDigit password)
               (Some "Include numbers") acc in
  let acc := step (Text.test (fun c => negb (Text.isAlnum c)) password)
               (Some "Include special characters") acc in
  let acc := step (negb (Text.hasTripleRepeat password))
               (Some "Avoid repeating characters") acc in
  let acc := step (negb (hasCommonPattern password))
               (Some "Avoid common patterns") acc in
  {| score := fst acc; feedback := snd acc;
     isStrong := Nat.leb 6 (fst acc) |}.

End SecurityServiceValidation.

(* ================================================================= *)
(** ** Client-side rate limiting ([RateLimiter], [src/lib/apiConstants.ts]) *)

Module RateLimiter.

Record Attempt : Type := mkAttempt {
  count : Z;
  resetTime : Z
}.

(** The limiter object: its two constructor arguments and its
    [Map] from keys to attempt records. *)
Record Limiter : Type := mkLimiter {
  maxAttempts : Z;
  windowMs : Z;
  attempts : list (string * Attempt)
}.

Definition create (maxAttempts windowMs : Z) : Limiter :=
  {| maxAttempts := maxAttempts; windowMs := windowMs; attempts := [] |}.

(** [Map.get]. *)
Fixpoint get (key : string) (m : list (string * Attempt)) : option Attempt :=
  match m with
  | [] => None
  | (k, a) :: r => if String.eqb key k then Some a else get key r
  end.

(** [Map.set]: an existing key keeps its place, a new one goes last. *)
Fixpoint set (key : string) (a : Attempt) (m : list (string * Attempt))
    : list (string * Attempt) :=
  match m with
  | [] => [(key, a)]
  | (k, a') :: r =>
      if String.eqb key k then (k, a) :: r else (k, a') :: set key a r
  end.

(** [Map.delete]. *)
Fixpoint delete (key : string) (m : list (string * Attempt))
    : list (string * Attempt) :=
  match m with
  | [] => []
  | (k, a) :: r =>
      if String.eqb key k then r else (k, a) :: delete key r
  end.

Definition withAttempts (l : Limiter) (m : list (string * Attempt)) : Limiter :=
  {| maxAttempts := maxAttempts l; windowMs := windowMs l; attempts := m |}.

(** [isAllowed(key)] at clock reading [now]. *)
Definition isAllowed (key : string) (now : Z) (l : Limiter) : bool * Limiter :=
  match get key (attempts l) with
  | None =>
      (true, withAttempts l
               (set key {| count := 1; resetTime := now + windowMs l |}
                    (attempts l)))
  | Some attempt =>
      if now >? resetTime attempt then
        (true, withAttempts l
                 (set key {| count := 1; resetTime := now + windowMs l |}
                      (attempts l)))
      else if count attempt >=? maxAttempts l then (false, l)
      else
        (true, withAttempts l
                 (set key {| count := count attempt + 1;
                             resetTime := resetTime attempt |}
                      (attempts l)))
  end.

Definition getRemainingAttempts (key : string) (now : Z) (l : Limiter) : Z :=
  match get key (attempts l) with
  | None => maxAttempts l
  | Some attempt =>
      if now >? resetTime attempt then maxAttempts l
      else Z.max 0 (maxAttempts l - count attempt)
  end.

Definition clearAttempts (key : string) (l : Limiter) : Limiter :=
  withAttempts l (delete key (attempts l)).

(** A burst of [isAllowed(key)] calls at the given clock readings:
    the answers, in order, and the limiter afterwards. *)
Fixpoint burst (key : string) (times : list Z) (l : Limiter)
    : list bool * Limiter :=
  match times with
  | [] => ([], l)
  | now :: rest =>
      let (ok, l1) := isAllowed key now l in
      let (oks, l2) := burst key rest l1 in
      (ok :: oks, l2)
  end.

End RateLimiter.

(* ================================================================= *)
(** ** More of the service layer and of the provider *)

Record OpResult : Type := mkOpResult {
  ok : bool;
  failure : option Json
}.

Section Services.

Context {World : Type}.
Variable serve : World -> Config -> Raw * World.

Local Notation "x <- m ;; k" := (bind m (fun x => k))
  (at level 61, m at next level, right associativity).
Local Notation "m ;;; k" := (bind m (fun _ => k))
  (at level 61, right associativity).

(** Reading the provider's cells as the current render sees them. *)
Definition getAuth : M World AuthState :=
  fun s => Some (Resolved (auth s), s).

(** [authService.changePassword]. *)
Definition authService_changePassword (fuel : nat) (request : Json)
    : M World Json :=
  response <- apiMethods_post serve fuel "/auth/change-password" request noConfig ;;
  ret (body response).

(** [authService.getCurrentUser]: a placeholder that only throws. *)
Definition authService_getCurrentUser : M World Json :=
  throw (JsError "getCurrentUser API not implemented yet").

Definition authService_getSensitiveData (fuel : nat) (userId : Z)
    : M World Json :=
  response <- apiMethods_get serve fuel
                ("/users/" ++ Js.ofNumber userId ++ "/sensitive") noConfig ;;
  ret (body response).

Definition authService_saveSensitiveData (fuel : nat) (userId : Z)
    (request : Json) : M World Json :=
  response <- apiMethods_post serve fuel
                ("/users/" ++ Js.ofNumber userId ++ "/sensitive") request noConfig ;;
  ret (body response).

Definition authService_updateSensitiveData (fuel : nat) (userId : Z)
    (request : Json) : M World Json :=
  response <- apiMethods_put serve fuel
                ("/users/" ++ Js.ofNumber userId ++ "/sensitive") request noConfig ;;
  ret (body response).

Definition authService_twoFactor_totp_getQRCode (fuel : nat) (userId : Z)
    : M World Json :=
  response <- apiMethods_get serve fuel
                ("/users/" ++ Js.ofNumber userId ++ "/totp/qr") noConfig ;;
  ret (body response).

Definition authService_twoFactor_totp_enable (fuel : nat) (userId : Z)
    (code : string) : M World Json :=
  response <- apiMethods_post serve fuel
                ("/users/" ++ Js.ofNumber userId ++ "/totp/enable")
                (JObj [("totp_code", JStr code)]) noConfig ;;
  ret (body response).

Definition authService_twoFactor_totp_disable (fuel : nat) (userId : Z)
    (code : string) : M World Json :=
  response <- apiMethods_post serve fuel
                ("/users/" ++ Js.ofNumber userId ++ "/totp/disable")
                (JObj [("code", JStr code)]) noConfig ;;
  ret (body response).

(** [securityService.terminateAllSessions]. *)
Definition securityService_terminateAllSessions (fuel : nat) (userId : Z)
    : M World unit :=
  _ <- apiMethods_post serve fuel
         ("/users/" ++ Js.ofNumber userId ++ "/security/sessions/terminate-all")
         JUndefined noConfig ;;
  ret tt.

(** [securityService.checkDeviceTrust]: the [trusted] field of the
    answer, [false] on any failure. *)
Definition securityService_checkDeviceTrust (fuel : nat) : M World Json :=
  tryCatch
    (response <- apiMethods_get serve fuel "/security/device-trust" noConfig ;;
     orTypeError World (Js.get "trusted" (body response)))
    (fun _ => ret (JBool false)).

(** [logoutFromAllDevices] of the provider. *)
Definition logoutFromAllDevices (fuel : nat) : M World unit :=
  seen <- getAuth ;;
  match user seen with
  | None => ret tt
  | Some u =>
      if id u =? 0 then ret tt
      else
        tryCatch
          (securityService_terminateAllSessions fuel (id u) ;;;
           setUser World None ;;;
           setIsAuthenticated World false ;;;
           tokenUtils_clearAuthTokens ;;;
           toast World ToastSuccess (JStr "Disconnesso da tutti i dispositivi"))
          (fun caught =>
             apiError <- orTypeError World (handleAPIError caught) ;;
             toast World ToastError
               (Js.or (apiMessage apiError)
                      (JStr "Errore durante la disconnessione")))
  end.

(** The request body of [changePassword]: the two-factor fields are
    spread in only when both the code and the method are truthy. *)
Definition changeRequest (currentPassword newPassword : string)
    (twoFactorCode twoFactorMethod : option string) : Json :=
  JObj ([("current_password", JStr currentPassword);
         ("new_password", JStr newPassword)]
        ++ match twoFactorCode, twoFactorMethod with
           | Some code, Some method_ =>
               if Js.truthyStr code && Js.truthyStr method_
               then [("two_factor_code", JStr code);
                     ("two_factor_method", JStr method_)]
               else []
           | _, _ => []
           end)%list.

(** [changePassword] of the provider. *)
Definition changePassword (fuel : nat) (currentPassword newPassword : string)
    (twoFactorCode twoFactorMethod : option string) : M World OpResult :=
  tryCatch
    (_ <- authService_changePassword fuel
            (changeRequest currentPassword newPassword
                           twoFactorCode twoFactorMethod) ;;
     toast World ToastSuccess (JStr "Password cambiata con successo") ;;;
     ret {| ok := true; failure := None |})
    (fun caught =>
       apiError <- orTypeError World (handleAPIError caught) ;;
       ret {| ok := false;
              failure := Some (Js.or (apiMessage apiError)
                                     (JStr "Errore nel cambio password")) |}).

End Services.

Arguments getAuth {World}.
Arguments authService_changePassword {World}.
Arguments authService_getCurrentUser {World}.
Arguments authService_getSensitiveData {World}.
Arguments authService_saveSensitiveData {World}.
Arguments authService_updateSensitiveData {World}.
Arguments authService_twoFactor_totp_getQRCode {World}.
Arguments authService_twoFactor_totp_enable {World}.
Arguments authService_twoFactor_totp_disable {World}.
Arguments securityService_terminateAllSessions {World}.
Arguments securityService_checkDeviceTrust {World}.
Arguments logoutFromAllDevices {World}.
Arguments changePassword {World}.

(* ================================================================= *)
(** ** Visibility toggles of the sensitive-data editors *)

Module SensitiveItems.

Inductive ItemType : Type := iban | fiscal_code.

Definition sameType (a b : ItemType) : bool :=
  match a, b with
  | iban, iban | fiscal_code, fiscal_code => true
  | _, _ => false
  end.

Record SensitiveDataItem : Type := mkItem {
  type : ItemType;
  value : string;
  isVisible : bool
}.

(** [toggleDataVisibility] of the current editor. *)
Definition toggleDataVisibility (t : ItemType)
    (prev : list SensitiveDataItem) : list SensitiveDataItem :=
  map (fun item =>
         if sameType (type item) t
         then {| type := type item; value := value item;
                 isVisible := negb (isVisible item) |}
         else item)
      prev.

(** The [Set] of visible ids of the legacy editor, in insertion order. *)
Definition has (x : string) (set : list string) : bool :=
  existsb (String.eqb x) set.

Definition add (x : string) (set : list string) : list string :=
  if has x set then set else (set ++ [x])%list.

Definition remove (x : string) (set : list string) : list string :=
  filter (fun y => negb (String.eqb x y)) set.

(** [toggleDataVisibility] of the legacy editor. *)
Definition legacyToggleDataVisibility (x : string) (prev : list string)
    : list string :=
  if has x prev then remove x prev else add x prev.

End SensitiveItems.

(* ================================================================= *)
(** ** The legacy auth context over [localStorage] *)

Module LegacyProvider.

Record User : Type := mkUser {
  id : string;
  email : string;
  name : string;
  twoFactorEnabled : bool;
  loginAttempts : Z;
  lastLogin : option string
}.

(** A stored string: plain text, or the JSON text of a user, kept as
    the document it denotes ([JSON.parse] of [JSON.stringify(u)] is
    [u]). *)
Inductive Stored : Type :=
| Text (s : string)
| UserDoc (u : User).

Definition truthy (v : option Stored) : bool :=
  match v with
  | None => false
  | Some (Text s) => Js.truthyStr s
  | Some (UserDoc _) => true
  end.

Definition Storage : Type := list (string * Stored).

Fixpoint getItem (k : string) (st : Storage) : option Stored :=
  match st with
  | [] => None
  | (k', v) :: r => if String.eqb k k' then Some v else getItem k r
  end.

Fixpoint removeItem (k : string) (st : Storage) : Storage :=
  match st with
  | [] => []
  | (k', v) :: r =>
      if String.eqb k k' then removeItem k r else (k', v) :: removeItem k r
  end.

Definition setItem (k : string) (v : Stored) (st : Storage) : Storage :=
  (removeItem k st ++ [(k, v)])%list.

Record State : Type := mkState {
  storage : Storage;
  user : option User;
  isAuthenticated : bool;
  toasts : list string
}.

(** What the clock and the calendar answer during one operation. *)
Record Clock : Type := mkClock {
  now1 : Z;
  now2 : Z;
  iso : string
}.

(** A provider that has just been created over the given storage. *)
Definition fresh (st : Storage) : State :=
  {| storage := st; user := None; isAuthenticated := false; toasts := [] |}.

(** The mount effect; [None] stands for [JSON.parse] applied to a text
    that is not a stored user. *)
Definition mountEffect (s : State) : option State :=
  if truthy (getItem "accessToken" (storage s)) then
    match getItem "userData" (storage s) with
    | Some (UserDoc u) =>
        Some {| storage := storage s; user := Some u;
                isAuthenticated := true; toasts := toasts s |}
    | Some (Text t) => if Js.truthyStr t then None else Some s
    | None => Some s
    end
  else Some s.

Definition login (clock : Clock) (email password : string)
    (twoFactorCode : option string) (s : State) : bool * State :=
  let mockUser :=
    {| id := "1"; email := email;
       name := hd "" (Js.split "@" email);
       twoFactorEnabled := false; loginAttempts := 0;
       lastLogin := Some (iso clock) |} in
  let st := setItem "accessToken"
              (Text ("mock_access_token_" ++ Js.ofNumber (now1 clock)))
              (storage s) in
  let st := setItem "refreshToken"
              (Text ("mock_refresh_token_" ++ Js.ofNumber (now2 clock))) st in
  let st := setItem "userData" (UserDoc mockUser) st in
  (true,
   {| storage := st; user := Some mockUser; isAuthenticated := true;
      toasts := (toasts s ++ ["Login effettuato con successo!"])%list |}).

Definition register (clock : Clock) (email password name : string)
    (s : State) : bool * State :=
  let mockUser :=
    {| id := Js.ofNumber (now1 clock); email := email; name := name;
       twoFactorEnabled := false; loginAttempts := 0; lastLogin := None |} in
  (true,
   {| storage := setItem "userData" (UserDoc mockUser) (storage s);
      user := user s; isAuthenticated := isAuthenticated s;
      toasts := (toasts s
                 ++ ["Registrazione completata! Ora puoi effettuare il login."])%list |}).

Definition logout (s : State) : State :=
  {| storage := removeItem "userData"
                  (removeItem "refreshToken"
                     (removeItem "accessToken" (storage s)));
     user := None; isAuthenticated := false;
     toasts := (toasts s ++ ["Logout effettuato con successo!"])%list |}.

Definition logoutAllDevices (s : State) : State :=
  let s1 := logout s in
  {| storage := storage s1; user := user s1;
     isAuthenticated := isAuthenticated s1;
     toasts := (toasts s1 ++ ["Logout effettuato da tutti i dispositivi!"])%list |}.

Definition refreshToken (clock : Clock) (s : State) : bool * State :=
  if negb (truthy (getItem "refreshToken" (storage s))) then (false, logout s)
  else
    (true,
     {| storage := setItem "accessToken"
                     (Text ("mock_access_token_" ++ Js.ofNumber (now1 clock)))
                     (storage s);
        user := user s; isAuthenticated := isAuthenticated s;
        toasts := toasts s |}).

End LegacyProvider.

(* ================================================================= *)
(** ** Form handlers built on the provider *)

(** A notice raised by a form through the toast library. *)
Inductive Notice : Type :=
| NoticeError (msg : Json)
| NoticeInfo (msg : Json)
| NoticeSuccess (msg : Json).

(** The [useState] cells of the login form and the notices it raised. *)
Record LoginFormState : Type := mkLoginFormState {
  formEmail : string;
  formPassword : string;
  twoFactorCode : string;
  showPassword : bool;
  formIsLoading : bool;
  show2FA : bool;
  loginAttempts : Z;
  formNotices : list Notice
}.

Inductive TotpStep : Type := StepCheck | StepSetup | StepVerify | StepDisable.

(** The cells of the TOTP manager and the notices it raised. *)
Record TotpState : Type := mkTotpState {
  totpIsLoading : bool;
  qrCodeData : option Json;
  verificationCode : string;
  isVerifying : bool;
  isEnabled : bool;
  step : TotpStep;
  disableCode : string;
  isDisabling : bool;
  totpNotices : list Notice;
  updates : nat
}.

(** The cells of the password-change form. *)
Record PasswordFormState : Type := mkPasswordFormState {
  currentPassword : string;
  newPassword : string;
  confirmPassword : string;
  totpCode : string;
  pwIsLoading : bool;
  passwordStrength : PasswordChangeForm.Level;
  pwNotices : list Notice
}.

Section Components.

Context {World : Type}.
Variable serve : World -> Config -> Raw * World.
Variable toUpperCase : string -> string.

Local Notation "x <- m ;; k" := (bind m (fun x => k))
  (at level 61, m at next level, right associativity).
Local Notation "m ;;; k" := (bind m (fun _ => k))
  (at level 61, right associativity).

(* --------------------------------------------------------------- *)
(** *** [LoginForm.handleSubmit] (the form bound to [useAuth]) *)

Definition loginNotice (f : LoginFormState) (n : Notice) : LoginFormState :=
  {| formEmail := formEmail f; formPassword := formPassword f;
     twoFactorCode := twoFactorCode f; showPassword := showPassword f;
     formIsLoading := formIsLoading f; show2FA := show2FA f;
     loginAttempts := loginAttempts f;
     formNotices := (formNotices f ++ [n])%list |}.

Definition withLoading (b : bool) (f : LoginFormState) : LoginFormState :=
  {| formEmail := formEmail f; formPassword := formPassword f;
     twoFactorCode := twoFactorCode f; showPassword := showPassword f;
     formIsLoading := b; show2FA := show2FA f;
     loginAttempts := loginAttempts f; formNotices := formNotices f |}.

Definition withCode (c : string) (f : LoginFormState) : LoginFormState :=
  {| formEmail := formEmail f; formPassword := formPassword f;
     twoFactorCode := c; showPassword := showPassword f;
     formIsLoading := formIsLoading f; show2FA := show2FA f;
     loginAttempts := loginAttempts f; formNotices := formNotices f |}.

Definition withShow2FA (b : bool) (f : LoginFormState) : LoginFormState :=
  {| formEmail := formEmail f; formPassword := formPassword f;
     twoFactorCode := twoFactorCode f; showPassword := showPassword f;
     formIsLoading := formIsLoading f; show2FA := b;
     loginAttempts := loginAttempts f; formNotices := formNotices f |}.

Definition withAttempts (n : Z) (f : LoginFormState) : LoginFormState :=
  {| formEmail := formEmail f; formPassword := formPassword f;
     twoFactorCode := twoFactorCode f; showPassword := showPassword f;
     formIsLoading := formIsLoading f; show2FA := show2FA f;
     loginAttempts := n; formNotices := formNotices f |}.

(** [result.error === 'TOTP code required']. *)
Definition isTotpRequired (r : LoginResult) : bool :=
  match error r with
  | Some (JStr msg) => String.eqb msg "TOTP code required"
  | _ => false
  end.

(** The branch taken on a login result; [seen] is the form as the
    handler's closure saw it, [f] the form being updated. *)
Definition afterLogin (seen : LoginFormState) (r : LoginResult)
    (f : LoginFormState) : LoginFormState :=
  if success r then
    withCode "" (withShow2FA false (withAttempts 0 f))
  else if isTotpRequired r then
    withCode "" (loginNotice (withShow2FA true f)
                             (NoticeInfo (JStr "Codice 2FA richiesto")))
  else if show2FA seen then
    withCode "" (loginNotice f (NoticeError (JStr "Codice 2FA non valido")))
  else
    loginNotice (withAttempts (loginAttempts f + 1) f)
      (NoticeError (Js.or (match error r with
                           | Some e => e
                           | None => JUndefined
                           end)
                          (JStr "Credenziali non valide"))).

Definition afterLoginError (seen f : LoginFormState) : LoginFormState :=
  let f := loginNotice (withAttempts (loginAttempts f + 1) f)
             (NoticeError (JStr "Errore durante il login")) in
  if show2FA seen then withCode "" f else f.

Definition handleSubmit (fuel : nat) (f : LoginFormState)
    : M World LoginFormState :=
  if negb (Js.truthyStr (formEmail f)) || negb (Js.truthyStr (formPassword f))
  then ret (loginNotice f (NoticeError (JStr "Compila tutti i campi obbligatori")))
  else if show2FA f && negb (Js.truthyStr (twoFactorCode f))
  then ret (loginNotice f (NoticeError (JStr "Inserisci il codice 2FA")))
  else if show2FA f && Js.truthyStr (twoFactorCode f)
          && negb (Nat.eqb (String.length (twoFactorCode f)) 6)
  then ret (loginNotice f
              (NoticeError (JStr "Il codice 2FA deve essere di 6 cifre")))
  else
    attempted <- attempt
      (login serve toUpperCase fuel (formEmail f) (formPassword f)
         (if show2FA f then Some (twoFactorCode f) else None)) ;;
    ret (withLoading false
           match attempted with
           | Resolved r => afterLogin f r (withLoading true f)
           | Rejected _ => afterLoginError f (withLoading true f)
           end).

(* --------------------------------------------------------------- *)
(** *** [TOTPManager]: verifying and enabling, disabling *)

Definition totpNotice (t : TotpState) (n : Notice) : TotpState :=
  {| totpIsLoading := totpIsLoading t; qrCodeData := qrCodeData t;
     verificationCode := verificationCode t; isVerifying := isVerifying t;
     isEnabled := isEnabled t; step := step t; disableCode := disableCode t;
     isDisabling := isDisabling t;
     totpNotices := (totpNotices t ++ [n])%list; updates := updates t |}.

Definition withVerifying (b : bool) (t : TotpState) : TotpState :=
  {| totpIsLoading := totpIsLoading t; qrCodeData := qrCodeData t;
     verificationCode := verificationCode t; isVerifying := b;
     isEnabled := isEnabled t; step := step t; disableCode := disableCode t;
     isDisabling := isDisabling t; totpNotices := totpNotices t;
     updates := updates t |}.

Definition withDisabling (b : bool) (t : TotpState) : TotpState :=
  {| totpIsLoading := totpIsLoading t; qrCodeData := qrCodeData t;
     verificationCode := verificationCode t; isVerifying := isVerifying t;
     isEnabled := isEnabled t; step := step t; disableCode := disableCode t;
     isDisabling := b; totpNotices := totpNotices t; updates := updates t |}.

(** After a successful verification and activation. *)
Definition enabled (t : TotpState) : TotpState :=
  {| totpIsLoading := totpIsLoading t; qrCodeData := None;
     verificationCode := ""; isVerifying := isVerifying t;
     isEnabled := true; step := StepCheck; disableCode := disableCode t;
     isDisabling := isDisabling t;
     totpNotices := (totpNotices t
                     ++ [NoticeSuccess (JStr "TOTP attivato con successo!")])%list;
     updates := S (updates t) |}.

(** After a successful deactivation. *)
Definition disabled (t : TotpState) : TotpState :=
  {| totpIsLoading := totpIsLoading t; qrCodeData := qrCodeData t;
     verificationCode := verificationCode t; isVerifying := isVerifying t;
     isEnabled := false; step := StepSetup; disableCode := "";
     isDisabling := isDisabling t;
     totpNotices := (totpNotices t
                     ++ [NoticeSuccess (JStr "TOTP disabilitato con successo")])%list;
     updates := S (updates t) |}.

(** [user?.id] when it is truthy. *)
Definition currentUserId (a : AuthState) : option Z :=
  match user a with
  | Some u => if id u =? 0 then None else Some (id u)
  | None => None
  end.

Definition handleVerifyAndEnable (fuel : nat) (t : TotpState)
    : M World TotpState :=
  seen <- getAuth ;;
  match currentUserId seen with
  | None => ret t
  | Some userId =>
      if negb (Js.truthyStr (verificationCode t)) then ret t
      else
        ran <- attempt
          (verifyResult <- authService_twoFactor_totp_verify serve fuel
                             userId (verificationCode t) ;;
           valid <- orTypeError World (Js.get "valid" verifyResult) ;;
           if Js.truthy valid then
             _ <- authService_twoFactor_totp_enable serve fuel
                    userId (verificationCode t) ;;
             ret (enabled (withVerifying true t))
           else
             ret (totpNotice (withVerifying true t)
                    (NoticeError (JStr "Codice non valido. Riprova.")))) ;;
        ret (withVerifying false
               match ran with
               | Resolved t' => t'
               | Rejected _ =>
                   totpNotice (withVerifying true t)
                     (NoticeError
                        (JStr "Errore durante la verifica del codice"))
               end)
  end.

Definition handleConfirmDisable (fuel : nat) (t : TotpState)
    : M World TotpState :=
  seen <- getAuth ;;
  match currentUserId seen with
  | None => ret t
  | Some userId =>
      if negb (Js.truthyStr (disableCode t)) then ret t
      else
        ran <- attempt
          (authService_twoFactor_totp_disable serve fuel
             userId (disableCode t)) ;;
        ret (withDisabling false
               match ran with
               | Resolved _ => disabled (withDisabling true t)
               | Rejected _ =>
                   totpNotice (withDisabling true t)
                     (NoticeError
                        (JStr
                           "Codice non valido o errore durante la disabilitazione"))
               end)
  end.

(* --------------------------------------------------------------- *)
(** *** [PasswordChangeForm.handlePasswordChange] *)

Definition pwNotice (p : PasswordFormState) (n : Notice) : PasswordFormState :=
  {| currentPassword := currentPassword p; newPassword := newPassword p;
     confirmPassword := confirmPassword p; totpCode := totpCode p;
     pwIsLoading := pwIsLoading p; passwordStrength := passwordStrength p;
     pwNotices := (pwNotices p ++ [n])%list |}.

Definition pwLoading (b : bool) (p : PasswordFormState) : PasswordFormState :=
  {| currentPassword := currentPassword p; newPassword := newPassword p;
     confirmPassword := confirmPassword p; totpCode := totpCode p;
     pwIsLoading := b; passwordStrength := passwordStrength p;
     pwNotices := pwNotices p |}.

(** The form after a successful change: fields emptied. *)
Definition pwReset (p : PasswordFormState) : PasswordFormState :=
  {| currentPassword := ""; newPassword := ""; confirmPassword := "";
     totpCode := ""; pwIsLoading := pwIsLoading p;
     passwordStrength := passwordStrength p;
     pwNotices := (pwNotices p
                   ++ [NoticeSuccess (JStr "Password cambiata con successo")])%list |}.

Definition isWeak (l : PasswordChangeForm.Level) : bool :=
  match l with PasswordChangeForm.weak => true | _ => false end.

(** [user?.totpEnabled]. *)
Definition userTotpEnabled (a : AuthState) : bool :=
  match user a with
  | Some u => totpEnabled u
  | None => false
  end.

Definition handlePasswordChange (fuel : nat) (p : PasswordFormState)
    : M World PasswordFormState :=
  seen <- getAuth ;;
  if negb (Js.truthyStr (currentPassword p))
     || negb (Js.truthyStr (newPassword p))
     || negb (Js.truthyStr (confirmPassword p))
  then ret (pwNotice p (NoticeError (JStr "Tutti i campi sono obbligatori")))
  else if negb (String.eqb (newPassword p) (confirmPassword p))
  then ret (pwNotice p (NoticeError (JStr "Le password non coincidono")))
  else if isWeak (passwordStrength p)
  then ret (pwNotice p
              (NoticeError
                 (JStr ("La password " ++ String (ascii_of_nat 232)
                                                 " troppo debole"))))
  else if userTotpEnabled seen && negb (Js.truthyStr (totpCode p))
  then ret (pwNotice p
              (NoticeError (JStr "Inserisci il codice TOTP per procedere")))
  else
    ran <- attempt
      (changePassword serve fuel (currentPassword p) (newPassword p)
         (if userTotpEnabled seen then Some (totpCode p) else None)
         (if userTotpEnabled seen then Some "totp" else None)) ;;
    ret (pwLoading false
           match ran with
           | Resolved result =>
               if ok result then pwReset (pwLoading true p)
               else pwNotice (pwLoading true p)
                      (NoticeError
                         (Js.or (match failure result with
                                 | Some e => e
                                 | None => JUndefined
                                 end)
                                (JStr "Errore nel cambio password")))
           | Rejected _ =>
               pwNotice (pwLoading true p)
                 (NoticeError (JStr "Errore nel cambio password"))
           end).

End Components.

Arguments handleSubmit {World}.
Arguments handleVerifyAndEnable {World}.
Arguments handleConfirmDisable {World}.
Arguments handlePasswordChange {World}.

(** Sample states used to exercise the handlers. *)

Definition sampleLoginForm (email password code : string) (twoFA : bool)
    (attempts : Z) : LoginFormState :=
  {| formEmail := email; formPassword := password; twoFactorCode := code;
     showPassword := false; formIsLoading := false; show2FA := twoFA;
     loginAttempts := attempts; formNotices := [] |}.

Definition sampleTotp (code : string) : TotpState :=
  {| totpIsLoading := false; qrCodeData := Some (JObj []);
     verificationCode := code; isVerifying := false; isEnabled := false;
     step := StepVerify; disableCode := ""; isDisabling := false;
     totpNotices := []; updates := 0 |}.

Definition signedInPage {World} (w : World) : St World :=
  {| backend := w; sent := []; cookie := "";
     auth := {| user := Some defaultMockUser; isAuthenticated := true;
                isLoading := false |};
     toasts := [] |}.

(* ================================================================= *)
(** ** Reading cookies ([cookieUtils], [src/lib/cookieUtils.ts]) *)

Module CookieUtils.

(** White space and line terminators, as [String.prototype.trim]
    strips them (those that fit one byte). *)
Definition isSpace (c : ascii) : bool :=
  existsb (Nat.eqb (nat_of_ascii c)) [9; 10; 11; 12; 13; 32; 160]%nat.

Fixpoint trimStart (s : string) : string :=
  match s with
  | EmptyString => EmptyString
  | String c r => if isSpace c then trimStart r else s
  end.

Fixpoint trimEnd (s : string) : string :=
  match s with
  | EmptyString => EmptyString
  | String c r =>
      match trimEnd r with
      | EmptyString => if isSpace c then EmptyString else String c EmptyString
      | r' => String c r'
      end
  end.

(** [s.trim()]. *)
Definition trim (s : string) : string := trimEnd (trimStart s).

(** [parts.join(sep)]. *)
Fixpoint join (sep : string) (parts : list string) : string :=
  match parts with
  | [] => ""
  | [p] => p
  | p :: rest => p ++ sep ++ join sep rest
  end.

(** The loop of [getCookie] over the pieces of the cookie string. *)
Fixpoint firstMatch (cookieName : string) (cookieArray : list string)
    : option string :=
  match cookieArray with
  | [] => None
  | cookie :: rest =>
      let cookie := trim cookie in
      if String.prefix cookieName cookie
      then Some (Js.substring (String.length cookieName)
                              (String.length cookie) cookie)
      else firstMatch cookieName rest
  end.

(** [cookies[name] = value] on a plain object: an own key keeps its
    place, a new key is added, and [__proto__] is not an own key. *)
Fixpoint setProp (k v : string) (obj : list (string * string))
    : list (string * string) :=
  match obj with
  | [] => [(k, v)]
  | (k', v') :: r =>
      if String.eqb k k' then (k', v) :: r else (k', v') :: setProp k v r
  end.

Fixpoint prop (k : string) (obj : list (string * string)) : option string :=
  match obj with
  | [] => None
  | (k', v) :: r => if String.eqb k k' then Some v else prop k r
  end.

(** One turn of the loop of [getAllCookies]. *)
Definition collect (cookies : list (string * string)) (cookie : string)
    : list (string * string) :=
  match Js.split "=" (trim cookie) with
  | name :: valueParts =>
      if Js.truthyStr name && negb (Nat.eqb (List.length valueParts) 0)
      then if String.eqb name "__proto__" then cookies
           else setProp name (join "=" valueParts) cookies
      else cookies
  | [] => cookies
  end.

Section Reading.

(** [decodeURIComponent]; [None] is the URIError it throws on a
    malformed escape. *)
Variable decodeURIComponent : string -> option string.

(** [getCookie(name)] when [document.cookie] reads [documentCookie];
    the outer [None] is a thrown URIError, the inner one is [null]. *)
Definition getCookie (name documentCookie : string) : option (option string) :=
  let cookieName := name ++ "=" in
  match decodeURIComponent documentCookie with
  | None => None
  | Some decodedCookie =>
      Some (firstMatch cookieName (Js.split ";" decodedCookie))
  end.

(** [getAllCookies()]. *)
Definition getAllCookies (documentCookie : string)
    : option (list (string * string)) :=
  match decodeURIComponent documentCookie with
  | None => None
  | Some decodedCookie =>
      if negb (Js.truthyStr decodedCookie) then Some []
      else Some (fold_left collect (Js.split ";" decodedCookie) [])
  end.

End Reading.

(** The text a browser hands out as [document.cookie] for a jar of
    name-value pairs. *)
Definition serialise (jar : list (string * string)) : string :=
  join "; " (map (fun p => fst p ++ "=" ++ snd p) jar).

(** A pair that survives the reading untouched: no semicolon in it,
    no equals sign in the name, nothing for [trim] to strip. *)
Definition plain (p : string * string) : Prop :=
  Text.test (Ascii.eqb ";") (fst p ++ "=" ++ snd p) = false /\
  Text.test (Ascii.eqb "=") (fst p) = false /\
  trim (fst p ++ "=" ++ snd p) = fst p ++ "=" ++ snd p.

Definition firstValue (name : string) (jar : list (string * string))
    : option string :=
  option_map snd (find (fun p => String.eqb name (fst p)) jar).

Definition lastValue (name : string) (jar : list (string * string))
    : option string :=
  firstValue name (rev jar).

End CookieUtils.

(* ================================================================= *)
(** ** Vocabulary of the statements *)

(** The three settings the instance is created with. *)
Definition usesInstanceConfig (c : Config) : Prop :=
  baseURL c = "http://localhost:8080/v1" /\
  withCredentials c = true /\
  timeout c = 10000.

(** [Number.isSafeInteger(n)]: the integers a JS number holds
    exactly, and that a template literal prints digit by digit. *)
Definition safeInteger (n : Z) : Prop :=
  - (2 ^ 53 - 1) <= n <= 2 ^ 53 - 1.

(** A [config] argument that names none of the three settings. *)
Definition overridesNothing (config : AxiosRequestConfig) : Prop :=
  cfgBaseURL config = None /\
  cfgTimeout config = None /\
  cfgWithCredentials config = None.

(** The only request the interceptor issues on its own. *)
Definition refreshRequest : Config :=
  apiDefaults POST "/auth/refresh" JUndefined [].

(** A request without a body, or one whose [password] field is the
    given string, character for character. *)
Definition passwordVerbatim (password : string) (c : Config) : Prop :=
  data c = JUndefined \/ Js.get "password" (data c) = Some (JStr password).

(** What a run of [api] on [c] may put on the wire: [c] itself, its
    flagged re-issue, or a token refresh (fresh or flagged). *)
Definition fromRequest (c x : Config) : Prop :=
  x = c \/ x = markRetry c \/ x = refreshRequest \/ x = markRetry refreshRequest.

(** How many requests of a log carry the retry flag. *)
Definition flagged (l : list Config) : nat :=
  List.length (filter _retry l).

(** The outcome axios reports for a raw answer to [c] when no further
    interception takes place. *)
Definition settled (c : Config) (r : Raw) : Outcome Response :=
  match settle c r with
  | inl response => Resolved response
  | inr e => Rejected (Axios e)
  end.

(** The page after one more request went out. *)
Definition afterSend {World} (s : St World) (c : Config) (w : World) : St World :=
  {| backend := w; sent := (sent s ++ [c])%list; cookie := cookie s;
     auth := auth s; toasts := toasts s |}.

Definition withAuth {World} (s : St World) (a : AuthState) : St World :=
  {| backend := backend s; sent := sent s; cookie := cookie s;
     auth := a; toasts := toasts s |}.

Definition resolved {A} (o : Outcome A) : bool :=
  match o with
  | Resolved _ => true
  | Rejected _ => false
  end.

(** The refresh interval of the provider, as registered under handle
    [h] at time [t0]. *)
Definition refreshInterval (h : nat) (t0 : Z) : Interval :=
  {| handle := h; delay := 14 * 60 * 1000; since := t0;
     callback := CallRefreshToken |}.

(** The effect slot and the timers agree with a rendered value of
    [isAuthenticated]: the hook last ran with it, and the refresh
    interval is the only timer when it is [true], no timer is left
    when it is [false]. *)
Definition timerInSync (b : bool) (e : EffectSlot) (t : Timers) : Prop :=
  deps e = Some b /\
  if b then
    exists h t0, cleanup e = Some h /\ intervals t = [refreshInterval h t0]
  else cleanup e = None /\ intervals t = [].

(** An operation relates the page before to the page after by [R]
    whenever it completes. *)
Definition keeps {World} (R : St World -> St World -> Prop)
    {A} (m : M World A) : Prop :=
  forall s o s1, m s = Some (o, s1) -> R s s1.

(** The log only grows, and by requests satisfying [P]. *)
Definition grows {World} (P : Config -> Prop) (s s1 : St World) : Prop :=
  exists l, sent s1 = (sent s ++ l)%list /\ Forall P l.

(** Nothing but the backend and the log changed. *)
Definition sameView {World} (s s1 : St World) : Prop :=
  auth s1 = auth s /\ toasts s1 = toasts s /\ cookie s1 = cookie s.

(** Only the provider's cells and the toasts changed. *)
Definition sameWire {World} (s s1 : St World) : Prop :=
  backend s1 = backend s /\ sent s1 = sent s.

(** An operation that always completes and stays off the network. *)
Definition quiet {World A} (m : M World A) : Prop :=
  forall s, exists o s1, m s = Some (o, s1) /\ sameWire s s1.

(* ================================================================= *)
(** ** Masking *)

Lemma mask_iban_guard_off (value : string) :
  (8 < String.length value)%nat ->
  SensitiveDataManager.maskSensitiveValue value "iban"
  = (Js.substring 0 8 value ++ " **** **** **** " ++ Js.slice (-4) value)%string.
Proof.
  intro Hlen. unfold SensitiveDataManager.maskSensitiveValue. simpl String.eqb.
  destruct (Nat.leb_spec (String.length value) 8) as [Hle | _]; [lia | reflexivity].
Qed.

Lemma mask_fiscal_guard_off (value : string) :
  (6 < String.length value)%nat ->
  SensitiveDataManager.maskSensitiveValue value "fiscal_code"
  = (Js.substring 0 3 value ++ "***" ++ Js.slice (-3) value)%string.
Proof.
  intro Hlen. unfold SensitiveDataManager.maskSensitiveValue. simpl String.eqb.
  destruct (Nat.leb_spec (String.length value) 6) as [Hle | _]; [lia | reflexivity].
Qed.

(** C10, as stated, fails: on the four-character value [IT60] the
    current editor shows the value as it is, the legacy editor shows a
    prefix, the mask and a suffix; the same happens for a short fiscal
    code. *)
Lemma C10_masks_differ_on_short_values :
  SensitiveDataManager.maskSensitiveValue "IT60" "iban" = "IT60" /\
  LegacySensitiveDataManager.maskSensitiveValue "IT60" "iban"
    = "IT60 **** **** **** IT60" /\
  SensitiveDataManager.maskSensitiveValue "IT60" "iban"
    <> LegacySensitiveDataManager.maskSensitiveValue "IT60" "iban" /\
  SensitiveDataManager.maskSensitiveValue "RSSMRA" "fiscal_code"
    <> LegacySensitiveDataManager.maskSensitiveValue "RSSMRA" "codice_fiscale".
Proof.
  repeat split; try reflexivity; vm_compute; discriminate.
Qed.

(** C10, amended: the two masking functions agree on every IBAN longer
    than 8 characters and on every fiscal code longer than 6 (tags
    [fiscal_code] and [codice_fiscale]); at or below those lengths the
    current editor returns the value unchanged. *)
Theorem C10_masks_agree_above_guard (value : string) :
  ((8 < String.length value)%nat ->
     SensitiveDataManager.maskSensitiveValue value "iban"
     = LegacySensitiveDataManager.maskSensitiveValue value "iban") /\
  ((6 < String.length value)%nat ->
     SensitiveDataManager.maskSensitiveValue value "fiscal_code"
     = LegacySensitiveDataManager.maskSensitiveValue value "codice_fiscale") /\
  ((String.length value <= 8)%nat ->
     SensitiveDataManager.maskSensitiveValue value "iban" = value) /\
  ((String.length value <= 6)%nat ->
     SensitiveDataManager.maskSensitiveValue value "fiscal_code" = value).
Proof.
  repeat split; intro Hlen.
  - rewrite mask_iban_guard_off by assumption. reflexivity.
  - rewrite mask_fiscal_guard_off by assumption. reflexivity.
  - unfold SensitiveDataManager.maskSensitiveValue. simpl String.eqb.
    destruct (Nat.leb_spec (String.length value) 8); [reflexivity | lia].
  - unfold SensitiveDataManager.maskSensitiveValue. simpl String.eqb.
    destruct (Nat.leb_spec (String.length value) 6); [reflexivity | lia].
Qed.

Lemma C10_masks_agree_witness :
  SensitiveDataManager.maskSensitiveValue "RSSMRA80A01H501U" "iban"
  = LegacySensitiveDataManager.maskSensitiveValue "RSSMRA80A01H501U" "iban" /\
  SensitiveDataManager.maskSensitiveValue "RSSMRA80A01H501U" "fiscal_code"
  = LegacySensitiveDataManager.maskSensitiveValue "RSSMRA80A01H501U" "codice_fiscale" /\
  SensitiveDataManager.maskSensitiveValue "IT60" "iban" = "IT60" /\
  SensitiveDataManager.maskSensitiveValue "IT60" "fiscal_code" = "IT60".
Proof.
  destruct (C10_masks_agree_above_guard "RSSMRA80A01H501U") as (H1 & H2 & _ & _).
  destruct (C10_masks_agree_above_guard "IT60") as (_ & _ & H3 & H4).
  split; [apply H1; simpl; lia |].
  split; [apply H2; simpl; lia |].
  split; [apply H3; simpl; lia | apply H4; simpl; lia].
Defined.

(* ================================================================= *)
(** ** A small logic of completed operations *)

Section Preservation.

Context {World : Type}.
Variable R : St World -> St World -> Prop.
Hypothesis R_refl : forall s, R s s.
Hypothesis R_trans : forall a b c, R a b -> R b c -> R a c.

Lemma keeps_ret {A} (a : A) : keeps R (ret a).
Proof. intros s o s1 H. inversion H; subst. apply R_refl. Qed.

Lemma keeps_throw {A} (e : Thrown) : keeps R (@throw World A e).
Proof. intros s o s1 H. inversion H; subst. apply R_refl. Qed.

Lemma keeps_orTypeError {A} (x : option A) : keeps R (orTypeError World x).
Proof. destruct x; [apply keeps_ret | apply keeps_throw]. Qed.

Lemma keeps_bind {A B} (m : M World A) (k : A -> M World B) :
  keeps R m -> (forall a, keeps R (k a)) -> keeps R (bind m k).
Proof.
  intros Hm Hk s o s1 H. unfold bind in H.
  destruct (m s) as [[[a | e] s'] |] eqn:E; try discriminate.
  - eapply R_trans; [eapply Hm; eassumption | eapply Hk; eassumption].
  - inversion H; subst. eapply Hm; eassumption.
Qed.

Lemma keeps_attempt {A} (m : M World A) : keeps R m -> keeps R (attempt m).
Proof.
  intros Hm s o s1 H. unfold attempt in H.
  destruct (m s) as [[o' s'] |] eqn:E; try discriminate.
  inversion H; subst. eapply Hm; eassumption.
Qed.

Lemma keeps_tryCatch {A} (m : M World A) (h : Thrown -> M World A) :
  keeps R m -> (forall e, keeps R (h e)) -> keeps R (tryCatch m h).
Proof.
  intros Hm Hh. unfold tryCatch. apply keeps_bind.
  - apply keeps_attempt, Hm.
  - intros [a | e]; [apply keeps_ret | apply Hh].
Qed.

Lemma keeps_finally {A} (m : M World A) (f : M World unit) :
  keeps R m -> keeps R f -> keeps R (finally m f).
Proof.
  intros Hm Hf. unfold finally. apply keeps_bind.
  - apply keeps_attempt, Hm.
  - intros o. apply keeps_bind; [exact Hf |].
    intros _. destruct o; [apply keeps_ret | apply keeps_throw].
Qed.

End Preservation.

Lemma keeps_weaken {World A} (R R' : St World -> St World -> Prop)
    (m : M World A) :
  (forall s s1, R s s1 -> R' s s1) -> keeps R m -> keeps R' m.
Proof. intros Hsub Hm s o s1 H. apply Hsub. eapply Hm; eassumption. Qed.

Lemma grows_refl {World} (P : Config -> Prop) (s : St World) : grows P s s.
Proof. exists []. split; [symmetry; apply app_nil_r | constructor]. Qed.

Lemma grows_trans {World} (P : Config -> Prop) (a b c : St World) :
  grows P a b -> grows P b c -> grows P a c.
Proof.
  intros (l1 & E1 & F1) (l2 & E2 & F2). exists (l1 ++ l2)%list. split.
  - rewrite E2, E1, app_assoc. reflexivity.
  - apply Forall_app. split; assumption.
Qed.

Lemma grows_weaken {World} (P Q : Config -> Prop) (s s1 : St World) :
  (forall c, P c -> Q c) -> grows P s s1 -> grows Q s s1.
Proof.
  intros HPQ (l & E & F). exists l. split; [exact E |].
  eapply Forall_impl; [exact HPQ | exact F].
Qed.

Lemma sameView_refl {World} (s : St World) : sameView s s.
Proof. repeat split. Qed.

Lemma sameView_trans {World} (a b c : St World) :
  sameView a b -> sameView b c -> sameView a c.
Proof.
  intros (A1 & A2 & A3) (B1 & B2 & B3).
  repeat split; congruence.
Qed.

Lemma sameWire_refl {World} (s : St World) : sameWire s s.
Proof. split; reflexivity. Qed.

Lemma sameWire_trans {World} (a b c : St World) :
  sameWire a b -> sameWire b c -> sameWire a c.
Proof. intros (A1 & A2) (B1 & B2). split; congruence. Qed.

Ltac preorder :=
  solve [ intros; apply grows_refl
        | intros ? ? ?; apply grows_trans
        | intros; apply sameView_refl
        | intros ? ? ?; apply sameView_trans
        | intros; apply sameWire_refl
        | intros ? ? ?; apply sameWire_trans ].

(** Walks through the combinators of an operation, leaving the calls
    it is made of. *)
Ltac through :=
  repeat first
    [ apply keeps_ret; preorder
    | apply keeps_throw; preorder
    | apply keeps_orTypeError; preorder
    | apply keeps_attempt
    | apply keeps_bind; [preorder | | intro]
    | apply keeps_tryCatch; [preorder | preorder | | intro]
    | apply keeps_finally; [preorder | preorder | | ] ].

Lemma newlySent_app {World} (s s1 : St World) (l : list Config) :
  sent s1 = (sent s ++ l)%list -> newlySent s s1 = l.
Proof.
  intro E. unfold newlySent. rewrite E.
  rewrite skipn_app, skipn_all, Nat.sub_diag. reflexivity.
Qed.

Lemma markRetry_idem (c : Config) : markRetry (markRetry c) = markRetry c.
Proof. reflexivity. Qed.

Lemma settle_inr_config (c : Config) (r : Raw) (e : AxiosError) :
  settle c r = inr e -> errConfig e = c.
Proof.
  destruct r as [st b |]; simpl.
  - destruct ((200 <=? st) && (st <? 300)); intro H; inversion H; reflexivity.
  - intro H; inversion H; reflexivity.
Qed.

Lemma fromRequest_refresh (c x : Config) :
  fromRequest refreshRequest x -> fromRequest c x.
Proof.
  unfold fromRequest.
  intros [H | [H | [H | H]]]; subst; auto.
Qed.

Lemma fromRequest_retry (c x : Config) :
  fromRequest (markRetry c) x -> fromRequest c x.
Proof.
  unfold fromRequest.
  intros [H | [H | [H | H]]]; subst; auto.
Qed.

Section ClientFacts.

Context {World : Type}.
Variable serve : World -> Config -> Raw * World.

Lemma dispatch_eq (c : Config) (s : St World) :
  dispatch serve c s
  = Some (Resolved (fst (serve (backend s) c)),
          afterSend s c (snd (serve (backend s) c))).
Proof. unfold dispatch. destruct (serve (backend s) c). reflexivity. Qed.

Lemma dispatch_grows (P : Config -> Prop) (c : Config) :
  P c -> keeps (grows P) (dispatch serve c).
Proof.
  intros HP s o s1 H. rewrite dispatch_eq in H. inversion H; subst.
  exists [c]. split; [reflexivity | repeat constructor; exact HP].
Qed.

Lemma dispatch_sameView (c : Config) : keeps sameView (dispatch serve c).
Proof.
  intros s o s1 H. rewrite dispatch_eq in H. inversion H; subst.
  repeat split.
Qed.

(** Every request a run of [api] sends stems from the request it was
    given. *)
Lemma api_grows (fuel : nat) :
  forall c, keeps (grows (fromRequest c)) (api serve fuel c).
Proof.
  induction fuel as [| n IH]; intro c.
  - intros s o s1 H. discriminate.
  - simpl. unfold requestInterceptor.
    apply keeps_bind;
      [preorder | apply dispatch_grows; left; reflexivity |].
    intro raw. destruct (settle c raw) as [response | err] eqn:Es.
    + through.
    + pose proof (settle_inr_config _ _ _ Es) as Ec.
      unfold onRejected.
      destruct (statusIs 401 err && negb (_retry (errConfig err)));
        [| through].
      apply keeps_bind; [preorder | |].
      * unfold refreshTokenWith, postWith. through.
        eapply keeps_weaken; [| apply IH].
        intros s s1. apply grows_weaken, fromRequest_refresh.
      * intros [j | e]; [| unfold tokenUtils_clearAuthTokens; through].
        simpl. rewrite Ec.
        eapply keeps_weaken; [| apply IH].
        intros s s1. apply grows_weaken, fromRequest_retry.
Qed.

(** A run of [api] touches the backend and the log only. *)
Lemma api_sameView (fuel : nat) :
  forall c, keeps sameView (api serve fuel c).
Proof.
  induction fuel as [| n IH]; intro c.
  - intros s o s1 H. discriminate.
  - simpl. unfold requestInterceptor.
    apply keeps_bind; [preorder | apply dispatch_sameView |].
    intro raw. destruct (settle c raw) as [response | err]; [through |].
    unfold onRejected.
    destruct (statusIs 401 err && negb (_retry (errConfig err)));
      [| through].
    apply keeps_bind; [preorder | |].
    + unfold refreshTokenWith, postWith. through. apply IH.
    + intros [j | e]; [apply IH |].
      unfold tokenUtils_clearAuthTokens; through.
Qed.

(** The axios chain rejects with its own error values only. *)
Lemma api_rejects_axios (fuel : nat) :
  forall c s e s1,
    api serve fuel c s = Some (Rejected e, s1) -> exists a, e = Axios a.
Proof.
  induction fuel as [| n IH]; intros c s e s1 H; [discriminate |].
  simpl in H. unfold requestInterceptor, bind in H.
  rewrite dispatch_eq in H.
  destruct (settle c (fst (serve (backend s) c))) as [response | err].
  - discriminate.
  - unfold onRejected in H.
    destruct (statusIs 401 err && negb (_retry (errConfig err))).
    + unfold bind, attempt in H.
      destruct (refreshTokenWith (api serve n) _) as [[[j | e'] s'] |];
        try discriminate.
      * eapply IH; eassumption.
      * simpl in H. inversion H; subst. eauto.
    + inversion H; subst. eauto.
Qed.

(** The first thing a completed run of [api] did was to send the
    request it was given. *)
Lemma api_sends_first (fuel : nat) (c : Config) (s : St World) o s1 :
  api serve fuel c s = Some (o, s1) ->
  exists rest, sent s1 = (sent s ++ c :: rest)%list.
Proof.
  destruct fuel as [| n]; [discriminate |].
  simpl. unfold requestInterceptor, bind. rewrite dispatch_eq.
  set (s0 := afterSend s c _).
  intro H.
  assert (G : grows (fun _ => True) s0 s1).
  { destruct (settle c _) as [response | err].
    - inversion H; subst. apply grows_refl.
    - unfold onRejected in H.
      destruct (statusIs 401 err && negb (_retry (errConfig err))).
      + unfold bind, attempt in H.
        destruct (refreshTokenWith (api serve n) s0) as [[[j | e'] s'] |] eqn:Er;
          try discriminate.
        * eapply grows_trans with (b := s').
          -- unfold refreshTokenWith, postWith, bind in Er.
             destruct (api serve n _ s0) as [[[r | e2] s2] |] eqn:Ea;
               try discriminate.
             inversion Er; subst.
             eapply grows_weaken; [| eapply api_grows; eassumption]. auto.
          -- eapply grows_weaken; [| eapply api_grows; eassumption]. auto.
        * simpl in H. inversion H; subst.
          unfold refreshTokenWith, postWith, bind in Er.
          destruct (api serve n _ s0) as [[[r | e2] s2] |] eqn:Ea;
            try discriminate.
          inversion Er; subst.
          eapply grows_weaken; [| eapply api_grows; eassumption]. auto.
      + inversion H; subst. apply grows_refl. }
  destruct G as (l & E & _). exists l. rewrite E. subst s0. simpl.
  rewrite <- app_assoc. reflexivity.
Qed.

End ClientFacts.

(* ================================================================= *)
(** ** The response interceptor *)

Section Interceptor.

Context {World : Type}.
Variable serve : World -> Config -> Raw * World.

(** One pass through the chain, spelled out. *)
Lemma api_step (fuel : nat) (c : Config) (s : St World) :
  api serve (S fuel) c s
  = match settle c (fst (serve (backend s) c)) with
    | inl response =>
        Some (Resolved response, afterSend s c (snd (serve (backend s) c)))
    | inr error =>
        onRejected (api serve fuel) error
                   (afterSend s c (snd (serve (backend s) c)))
    end.
Proof.
  cbn [api]. unfold requestInterceptor, bind. rewrite dispatch_eq.
  destruct (settle c (fst (serve (backend s) c))); reflexivity.
Qed.

Lemma onRejected_refresh (request : Config -> M World Response)
    (error : AxiosError) (s : St World) :
  statusIs 401 error = true ->
  _retry (errConfig error) = false ->
  onRejected request error s
  = match refreshTokenWith request s with
    | None => None
    | Some (Resolved _, s2) => request (markRetry (errConfig error)) s2
    | Some (Rejected _, s2) =>
        Some (Rejected (Axios (markRetryError error)), s2)
    end.
Proof.
  intros H401 Hflag. unfold onRejected. rewrite H401, Hflag.
  cbn [andb negb]. unfold bind, attempt.
  destruct (refreshTokenWith request s) as [[[j | e] s2] |]; reflexivity.
Qed.

Lemma onRejected_pass (request : Config -> M World Response)
    (error : AxiosError) (s : St World) :
  statusIs 401 error && negb (_retry (errConfig error)) = false ->
  onRejected request error s = Some (Rejected (Axios error), s).
Proof. intro H. unfold onRejected. rewrite H. reflexivity. Qed.

(** A flagged request is settled as the backend answers it: the
    interceptor does not step in a second time. *)
Lemma api_flagged (fuel : nat) (c : Config) (s : St World) :
  _retry c = true ->
  api serve (S fuel) c s
  = Some (settled c (fst (serve (backend s) c)),
          afterSend s c (snd (serve (backend s) c))).
Proof.
  intro Hflag. rewrite api_step. unfold settled.
  destruct (settle c (fst (serve (backend s) c))) as [r | e] eqn:Es;
    [reflexivity |].
  apply onRejected_pass.
  rewrite (settle_inr_config _ _ _ Es), Hflag. apply andb_false_r.
Qed.

(** An answer other than 401 is settled without any further request. *)
Lemma api_direct (fuel : nat) (c : Config) (s : St World) st b w :
  serve (backend s) c = (Answer st b, w) ->
  st <> 401 ->
  api serve (S fuel) c s = Some (settled c (Answer st b), afterSend s c w).
Proof.
  intros Hs Hst. rewrite api_step, Hs. cbn [fst snd]. unfold settled.
  destruct (settle c (Answer st b)) as [r | e] eqn:Es; [reflexivity |].
  apply onRejected_pass. unfold statusIs.
  simpl in Es. destruct ((200 <=? st) && (st <? 300)); [discriminate |].
  inversion Es; subst. simpl.
  destruct (Z.eqb_spec st 401); [contradiction | reflexivity].
Qed.

(** C1, amended: when a request whose retry flag is not set is
    answered 401, the interceptor sets the flag and runs
    [authService.refreshToken]; if the refresh resolves, the flagged
    request is sent exactly once more and its outcome, a second 401
    included, goes to the caller with nothing else sent; if the
    refresh is rejected, the original error (now flagged) is
    rejected and the request is not sent again. *)
Theorem C1_refresh_then_single_retry
    (fuel : nat) (c : Config) (s : St World) (b : Json) (w1 : World) :
  _retry c = false ->
  serve (backend s) c = (Answer 401 b, w1) ->
  match authService_refreshToken serve (S fuel) (afterSend s c w1) with
  | None => api serve (S (S fuel)) c s = None
  | Some (Rejected _, s2) =>
      api serve (S (S fuel)) c s
      = Some (Rejected (Axios
                {| errConfig := markRetry c;
                   errResponse := Some {| status := 401; body := b;
                                          config := markRetry c |} |}),
              s2)
  | Some (Resolved _, s2) =>
      api serve (S (S fuel)) c s
      = Some (settled (markRetry c) (fst (serve (backend s2) (markRetry c))),
              afterSend s2 (markRetry c)
                        (snd (serve (backend s2) (markRetry c))))
  end.
Proof.
  intros Hflag H401.
  assert (E : api serve (S (S fuel)) c s
              = onRejected (api serve (S fuel))
                  {| errConfig := c;
                     errResponse := Some {| status := 401; body := b;
                                            config := c |} |}
                  (afterSend s c w1)).
  { rewrite api_step, H401. reflexivity. }
  rewrite onRejected_refresh in E by (simpl; auto).
  unfold authService_refreshToken.
  destruct (refreshTokenWith (api serve (S fuel)) (afterSend s c w1))
    as [[[j | e] s2] |]; rewrite E; try reflexivity.
  apply api_flagged. reflexivity.
Qed.

End Interceptor.

(** A backend that keeps answering 401, the refresh endpoint
    included, never lets an unflagged request come back: every
    refresh is a fresh request and is intercepted in turn. *)
Lemma interceptor_refresh_loop (fuel : nat) :
  forall (c : Config) (s : St unit),
    _retry c = false -> api (always 401) fuel c s = None.
Proof.
  induction fuel as [| n IH]; intros c s Hflag; [reflexivity |].
  rewrite api_step. cbn [always fst snd settle].
  change ((200 <=? 401) && (401 <? 300)) with false. cbv iota.
  rewrite onRejected_refresh by (simpl; auto).
  unfold refreshTokenWith, postWith, bind.
  rewrite IH by reflexivity. reflexivity.
Qed.

Lemma C1_refresh_then_single_retry_witness :
  let c := apiDefaults GET "/users/1/sensitive" JUndefined [] in
  let s := freshPage [Answer 401 JNull; Answer 200 JNull; Answer 401 (JStr "again")] in
  api scripted 2 c s
  = Some (Rejected (Axios
            {| errConfig := markRetry c;
               errResponse := Some {| status := 401; body := JStr "again";
                                      config := markRetry c |} |}),
          {| backend := []; sent := [c; refreshRequest; markRetry c];
             cookie := ""; auth := auth s; toasts := [] |}).
Proof.
  intros c s.
  exact (C1_refresh_then_single_retry scripted 0 c s JNull
           [Answer 200 JNull; Answer 401 (JStr "again")]
           eq_refl eq_refl).
Defined.

(** C1, as stated, fails: the request is answered 401 with its flag
    unset and the refresh is answered 500; the interceptor rejects the
    original error and never sends the request a second time, although
    the backend had an answer ready for it. *)
Lemma C1_no_reissue_when_refresh_fails :
  let c := apiDefaults GET "/users/1/sensitive" JUndefined [] in
  let s := freshPage [Answer 401 JNull; Answer 500 JNull; Answer 200 JNull] in
  exists e s1,
    api scripted 3 c s = Some (Rejected e, s1) /\
    sent s1 = [c; refreshRequest] /\
    flagged (sent s1) = 0%nat /\
    backend s1 = [Answer 200 JNull].
Proof.
  intros c s. eexists. eexists.
  split; [vm_compute; reflexivity |].
  repeat split.
Qed.

(* ================================================================= *)
(** ** Token helpers, session probe and logout *)

Section Session.

Context {World : Type}.
Variable serve : World -> Config -> Raw * World.

(** The session probe once its POST to [/auth/refresh] has
    completed: [verifyAuth] resolves (it never rejects) to [true]
    exactly when that call resolved; [checkAuth] then leaves
    [isAuthenticated] equal to that boolean, [user] null when it is
    [false], and [isLoading] off. *)
Lemma checkAuth_follows_probe (fuel : nat) (s : St World)
    (o : Outcome Response) (s1 : St World) :
  let s0 := withAuth s {| user := user (auth s);
                          isAuthenticated := isAuthenticated (auth s);
                          isLoading := true |} in
  apiMethods_post serve fuel "/auth/refresh" JUndefined noConfig s0
  = Some (o, s1) ->
  authService_verifyAuth serve fuel s0 = Some (Resolved (resolved o), s1) /\
  (exists rest, newlySent s0 s1 = refreshRequest :: rest) /\
  checkAuth serve fuel s
  = Some (Resolved tt,
          withAuth s1 {| user := if resolved o
                                 then Some getMockAuthenticatedUser
                                 else None;
                         isAuthenticated := resolved o;
                         isLoading := false |}).
Proof.
  intros s0 Hpost. split; [| split].
  - unfold authService_verifyAuth, bind, attempt. rewrite Hpost.
    destruct o; reflexivity.
  - destruct (api_sends_first serve _ _ _ _ _ Hpost) as (rest & E).
    exists rest. apply newlySent_app. exact E.
  - subst s0. unfold withAuth in Hpost.
    unfold checkAuth, finally, tryCatch, authService_verifyAuth,
      setIsLoading, setAuth, bind, attempt.
    cbv beta. rewrite Hpost.
    destruct o; reflexivity.
Qed.

(** A token refresh that is answered 401 is intercepted like any
    other request: the refresh the interceptor starts for it is a new
    request without the retry flag, answered 401 in turn. *)
Lemma refresh_never_returns :
  (forall w, exists b w', serve w refreshRequest = (Answer 401 b, w')) ->
  forall (fuel : nat) (s : St World), api serve fuel refreshRequest s = None.
Proof.
  intros Hrefresh. induction fuel as [| n IH]; intro s; [reflexivity |].
  destruct (Hrefresh (backend s)) as (b & w' & Hs).
  rewrite api_step, Hs. cbn [fst snd settle].
  change ((200 <=? 401) && (401 <? 300)) with false. cbv iota.
  rewrite onRejected_refresh by reflexivity.
  unfold refreshTokenWith, postWith, bind.
  change (mergeConfig POST "/auth/refresh" JUndefined noConfig)
    with refreshRequest.
  rewrite IH. reflexivity.
Qed.

(** C2, where the code departs from it: against a backend that
    answers the token refresh with 401, as it does for a visitor
    without a session, the probe fails but [verifyAuth] does not
    return [false]: it does not return at all, whatever the fuel, and
    neither does [checkAuth], which therefore never switches
    [isLoading] off. *)
Theorem C2_mount_probe_hangs_on_unauthorized_refresh :
  (forall w, exists b w', serve w refreshRequest = (Answer 401 b, w')) ->
  forall (fuel : nat) (s : St World),
    authService_verifyAuth serve fuel s = None /\
    checkAuth serve fuel s = None.
Proof.
  intros Hrefresh fuel s.
  assert (Hpost : forall s0,
             apiMethods_post serve fuel "/auth/refresh" JUndefined noConfig s0
             = None).
  { intro s0. apply (refresh_never_returns Hrefresh). }
  split.
  - unfold authService_verifyAuth, bind, attempt. rewrite Hpost. reflexivity.
  - unfold checkAuth, finally, tryCatch, authService_verifyAuth,
      setIsLoading, setAuth, bind, attempt.
    cbv beta. rewrite Hpost. reflexivity.
Qed.

(** C9: as soon as the POST to [/auth/logout] has completed, resolved
    or rejected, [logout] completes with [user] null and
    [isAuthenticated] false. *)
Theorem C9_logout_always_signs_out (fuel : nat) (s : St World)
    (o : Outcome Json) (s1 : St World) :
  authService_logout serve fuel s = Some (o, s1) ->
  exists s2,
    logout serve fuel s = Some (Resolved tt, s2) /\
    user (auth s2) = None /\
    isAuthenticated (auth s2) = false /\
    backend s2 = backend s1 /\ sent s2 = sent s1.
Proof.
  intro Hcall.
  unfold logout, finally, tryCatch, bind, attempt. rewrite Hcall.
  destruct o; eexists; repeat split.
Qed.

End Session.

Lemma checkAuth_follows_probe_witness :
  checkAuth scripted 1 (freshPage [Answer 403 JNull])
  = Some (Resolved tt,
          {| backend := []; sent := [refreshRequest]; cookie := "";
             auth := {| user := None; isAuthenticated := false;
                        isLoading := false |};
             toasts := [] |}).
Proof.
  exact (proj2 (proj2
    (checkAuth_follows_probe scripted 1 (freshPage [Answer 403 JNull])
       _ _ eq_refl))).
Defined.

Lemma C2_mount_probe_hangs_on_unauthorized_refresh_witness :
  authService_verifyAuth (always 401) 1000 (freshPage tt) = None /\
  checkAuth (always 401) 1000 (freshPage tt) = None.
Proof.
  refine (C2_mount_probe_hangs_on_unauthorized_refresh (always 401) _
            1000 (freshPage tt)).
  intro w. exists JNull, w. reflexivity.
Defined.

Lemma C9_logout_always_signs_out_witness :
  let c := apiDefaults POST "/auth/logout" JUndefined [] in
  let s := {| backend := [Answer 500 JNull]; sent := []; cookie := "";
              auth := {| user := Some defaultMockUser;
                         isAuthenticated := true; isLoading := false |};
              toasts := [] |} in
  exists s2,
    logout scripted 1 s = Some (Resolved tt, s2) /\
    user (auth s2) = None /\
    isAuthenticated (auth s2) = false /\
    backend s2 = [] /\
    sent s2 = [c].
Proof.
  intros c s.
  exact (C9_logout_always_signs_out scripted 1 s
           (Rejected (Axios
              {| errConfig := c;
                 errResponse := Some {| status := 500; body := JNull;
                                        config := c |} |}))
           {| backend := []; sent := [c]; cookie := ""; auth := auth s;
              toasts := [] |}
           eq_refl).
Defined.

(* ================================================================= *)
(** ** Login *)

Section Login.

Context {World : Type}.
Variable serve : World -> Config -> Raw * World.
Variable toUpperCase : string -> string.

Lemma setAuth_sameWire (f : AuthState -> AuthState) :
  keeps sameWire (setAuth World f).
Proof. intros s o s1 H. inversion H; subst. split; reflexivity. Qed.

Lemma toast_sameWire (k : ToastKind) (msg : Json) :
  keeps sameWire (toast World k msg).
Proof. intros s o s1 H. inversion H; subst. split; reflexivity. Qed.

Lemma sameWire_grows (P : Config -> Prop) (s s1 : St World) :
  sameWire s s1 -> grows P s s1.
Proof.
  intros (_ & E). exists []. rewrite app_nil_r. split; [exact E | constructor].
Qed.

Lemma setAuth_grows (P : Config -> Prop) (f : AuthState -> AuthState) :
  keeps (grows P) (setAuth World f).
Proof.
  eapply keeps_weaken; [apply sameWire_grows | apply setAuth_sameWire].
Qed.

Lemma toast_grows (P : Config -> Prop) (k : ToastKind) (msg : Json) :
  keeps (grows P) (toast World k msg).
Proof.
  eapply keeps_weaken; [apply sameWire_grows | apply toast_sameWire].
Qed.

(** The outcomes of [authService.login]: it returns the body of a
    resolved call; on a 422 it returns the response body as a normal
    value, and the provider's [login] answers
    [{ success: false, requiresTOTP: true }] whenever that body
    carries a truthy [totp_required]; on a 423 it throws the
    response body; any other rejection is thrown again as it is. *)
Lemma authService_login_outcomes (fuel : nat) (email password : string)
    (totpCode : option string) (s : St World)
    (o : Outcome Response) (s1 : St World) :
  apiMethods_post serve fuel "/auth/login"
    (loginRequest email password totpCode) noConfig s = Some (o, s1) ->
  let run := authService_login serve fuel
               (loginRequest email password totpCode) s in
  match o with
  | Resolved r => run = Some (Resolved (body r), s1)
  | Rejected (Axios e) =>
      match errResponse e with
      | Some r =>
          if status r =? 422 then
            run = Some (Resolved (body r), s1) /\
            (forall fs v,
                body r = JObj fs ->
                Js.assoc "totp_required" fs = Some v ->
                Js.truthy v = true ->
                login serve toUpperCase fuel email password totpCode s
                = Some (Resolved
                          {| success := false; requiresTOTP := Some true;
                             error := Some (JStr "TOTP code required") |},
                        s1))
          else if status r =? 423 then
            run = Some (Rejected (Plain (body r)), s1)
          else run = Some (Rejected (Axios e), s1)
      | None => run = Some (Rejected (Axios e), s1)
      end
  | Rejected _ => False
  end.
Proof.
  intros Hpost run. subst run.
  assert (Hrun : forall e, o = Rejected e -> exists a, e = Axios a).
  { intros e ->. eapply api_rejects_axios. exact Hpost. }
  unfold authService_login, bind, attempt. rewrite Hpost.
  destruct o as [r | e]; [reflexivity |].
  destruct (Hrun e eq_refl) as (a & ->). clear Hrun.
  unfold responseOf.
  destruct (errResponse a) as [r |] eqn:Er; [| reflexivity].
  cbn -[Z.eqb].
  destruct (status r =? 422) eqn:E422.
  - split; [reflexivity |].
    intros fs v Hbody Hkey Htruthy.
    unfold login, tryCatch, authService_login, bind, attempt.
    rewrite Hpost. unfold responseOf. rewrite Er.
    cbn -[Z.eqb]. rewrite E422. cbn -[Z.eqb].
    rewrite Hbody. cbn -[Z.eqb]. rewrite Hkey. cbn -[Z.eqb].
    rewrite Htruthy. reflexivity.
  - destruct (status r =? 423); reflexivity.
Qed.

(** C3, where the code departs from it: when the login call is
    rejected with 422 and the body is an object whose [totp_required]
    is missing or falsy, the provider's [login] does not answer
    [{ success: false, requiresTOTP: true }]: it takes the body for a
    token response, reports success, sets [isAuthenticated] and
    stores the login user, with nothing sent after the rejected
    call. *)
Theorem C3_login_422_without_totp_flag_signs_in (fuel : nat)
    (email password : string) (totpCode : option string) (s : St World)
    (e : AxiosError) (r : Response) (fs : list (string * Json))
    (s1 : St World) :
  apiMethods_post serve fuel "/auth/login"
    (loginRequest email password totpCode) noConfig s
  = Some (Rejected (Axios e), s1) ->
  errResponse e = Some r ->
  status r = 422 ->
  body r = JObj fs ->
  match Js.assoc "totp_required" fs with
  | Some v => Js.truthy v = false
  | None => True
  end ->
  exists s2,
    login serve toUpperCase fuel email password totpCode s
    = Some (Resolved {| success := true; requiresTOTP := None;
                        error := None |}, s2) /\
    isAuthenticated (auth s2) = true /\
    user (auth s2) = Some (loginUser toUpperCase email totpCode) /\
    backend s2 = backend s1 /\ sent s2 = sent s1.
Proof.
  intros Hpost Er Hst Hbody Hflag.
  unfold login, tryCatch, authService_login, bind, attempt.
  rewrite Hpost. unfold responseOf. rewrite Er.
  cbn -[Z.eqb]. rewrite Hst, Hbody. cbn.
  destruct (Js.assoc "totp_required" fs) as [v |]; cbn.
  - rewrite Hflag. cbn. eexists. repeat split.
  - eexists. repeat split.
Qed.

Lemma loginRequest_verbatim (email password : string)
    (totpCode : option string) (x : Config) :
  fromRequest (apiDefaults POST "/auth/login"
                 (loginRequest email password totpCode) []) x ->
  passwordVerbatim password x.
Proof.
  unfold fromRequest, passwordVerbatim.
  intros [H | [H | [H | H]]]; subst; simpl; auto.
Qed.

Lemma registerRequest_verbatim (email password name surname : string)
    (x : Config) :
  fromRequest (apiDefaults POST "/auth/register"
                 (registerRequest email password name surname) []) x ->
  passwordVerbatim password x.
Proof.
  unfold fromRequest, passwordVerbatim.
  intros [H | [H | [H | H]]]; subst; simpl; auto.
Qed.

Lemma authService_login_grows (fuel : nat) (email password : string)
    (totpCode : option string) :
  keeps (grows (passwordVerbatim password))
        (authService_login serve fuel (loginRequest email password totpCode)).
Proof.
  unfold authService_login. apply keeps_bind; [preorder | |].
  - apply keeps_attempt. unfold apiMethods_post, postWith.
    eapply keeps_weaken; [| apply api_grows].
    intros a b. apply grows_weaken, loginRequest_verbatim.
  - intros [r | e]; [through |].
    destruct (responseOf e) as [response |]; [| through].
    destruct (Js.isNum 422 (Js.optGet "status" response)); [through |].
    destruct (Js.isNum 423 (Js.optGet "status" response)); through.
Qed.

Lemma login_grows (fuel : nat) (email password : string)
    (totpCode : option string) :
  keeps (grows (passwordVerbatim password))
        (login serve toUpperCase fuel email password totpCode).
Proof.
  unfold login. apply keeps_tryCatch; [preorder | preorder | |].
  - apply keeps_bind; [preorder | apply authService_login_grows |].
    intro result. apply keeps_bind; [preorder | through |].
    intro present.
    destruct (present && Js.truthy (Js.optGet "totp_required" result));
      [through |].
    unfold setIsAuthenticated, setUser.
    through; first [apply setAuth_grows | apply toast_grows].
  - intro caught. apply keeps_bind; [preorder | through |].
    intro apiError. destruct (Js.isNum 423 (apiStatus apiError)); through.
Qed.

Lemma register_grows (fuel : nat) (email password name surname : string) :
  keeps (grows (passwordVerbatim password))
        (register serve toUpperCase fuel email password name surname).
Proof.
  unfold register. apply keeps_tryCatch; [preorder | preorder | |].
  - apply keeps_bind; [preorder | |].
    + unfold authService_register, apiMethods_post, postWith.
      apply keeps_bind; [preorder | | intro; through].
      eapply keeps_weaken; [| apply api_grows].
      intros a b. apply grows_weaken, registerRequest_verbatim.
    + intros _. apply keeps_bind; [preorder | apply login_grows |].
      intro loginResult. unfold setIsAuthenticated, setUser.
      destruct (success loginResult);
        through; first [apply setAuth_grows | apply toast_grows].
  - intro caught. apply keeps_bind; [preorder | through |].
    intro apiError. through. apply toast_grows.
Qed.

Lemma quiet_ret {A} (a : A) : quiet (@ret World A a).
Proof. intro s. eexists; eexists; split; [reflexivity | apply sameWire_refl]. Qed.

Lemma quiet_throw {A} (e : Thrown) : quiet (@throw World A e).
Proof. intro s. eexists; eexists; split; [reflexivity | apply sameWire_refl]. Qed.

Lemma quiet_orTypeError {A} (x : option A) : quiet (orTypeError World x).
Proof. destruct x; [apply quiet_ret | apply quiet_throw]. Qed.

Lemma quiet_setAuth (f : AuthState -> AuthState) : quiet (setAuth World f).
Proof. intro s. eexists; eexists; split; [reflexivity | split; reflexivity]. Qed.

Lemma quiet_toast (k : ToastKind) (msg : Json) : quiet (toast World k msg).
Proof. intro s. eexists; eexists; split; [reflexivity | split; reflexivity]. Qed.

(** Running a quiet continuation after a completed step. *)
Lemma bind_then_quiet {A B} (m : M World A) (k : A -> M World B)
    (s : St World) o s0 :
  m s = Some (o, s0) ->
  (forall a, quiet (k a)) ->
  exists o' s1, bind m k s = Some (o', s1) /\ sameWire s0 s1.
Proof.
  intros Hm Hk. unfold bind. rewrite Hm. destruct o as [a | e].
  - apply Hk.
  - eexists; eexists; split; [reflexivity | apply sameWire_refl].
Qed.

Lemma quiet_bind {A B} (m : M World A) (k : A -> M World B) :
  quiet m -> (forall a, quiet (k a)) -> quiet (bind m k).
Proof.
  intros Hm Hk s. destruct (Hm s) as (o & s0 & E & W).
  destruct (bind_then_quiet m k s o s0 E Hk) as (o' & s1 & E' & W').
  exists o', s1. split; [exact E' | eapply sameWire_trans; eassumption].
Qed.

Lemma tryCatch_then_quiet {A} (m : M World A) (h : Thrown -> M World A)
    (s : St World) o s0 :
  m s = Some (o, s0) ->
  (forall e, quiet (h e)) ->
  exists o' s1, tryCatch m h s = Some (o', s1) /\ sameWire s0 s1.
Proof.
  intros Hm Hh. unfold tryCatch, bind, attempt. rewrite Hm.
  destruct o as [a | e]; [apply quiet_ret | apply Hh].
Qed.

Lemma tryCatch_bind_inv {A B} (m : M World A) (k : A -> M World B)
    (h : Thrown -> M World B) (s : St World) o s1 :
  tryCatch (bind m k) h s = Some (o, s1) ->
  exists oa sa,
    m s = Some (oa, sa) /\
    match oa with
    | Resolved a => tryCatch (k a) h sa = Some (o, s1)
    | Rejected e => h e sa = Some (o, s1)
    end.
Proof.
  unfold tryCatch, bind, attempt.
  destruct (m s) as [[[a | e] sa] |]; intro H; try discriminate H;
    eexists; eexists; (split; [reflexivity | exact H]).
Qed.

Lemma bind_ret_inv {A B} (m : M World A) (f : A -> B) (s : St World) o s1 :
  bind m (fun x => ret (f x)) s = Some (o, s1) ->
  exists o', m s = Some (o', s1).
Proof.
  unfold bind.
  destruct (m s) as [[[a | e] sa] |]; intro H; inversion H; subst; eauto.
Qed.

(** [login] completes whenever its backend call does, and sends
    nothing after it. *)
Lemma login_completes (fuel : nat) (email password : string)
    (totpCode : option string) (s : St World) o s0 :
  apiMethods_post serve fuel "/auth/login"
    (loginRequest email password totpCode) noConfig s = Some (o, s0) ->
  exists r s1,
    login serve toUpperCase fuel email password totpCode s = Some (r, s1) /\
    sent s1 = sent s0.
Proof.
  intro Hpost.
  assert (H1 : attempt (apiMethods_post serve fuel "/auth/login"
                          (loginRequest email password totpCode) noConfig) s
               = Some (Resolved o, s0)).
  { unfold attempt. rewrite Hpost. reflexivity. }
  unfold login, authService_login.
  lazymatch goal with
  | |- exists r s1,
         tryCatch (bind (bind (attempt ?P) ?K1) ?K2) ?H s = _ /\ _ =>
      destruct (bind_then_quiet (attempt P) K1 s _ _ H1)
        as (o2 & s2 & H2 & W2);
      [| destruct (bind_then_quiet (bind (attempt P) K1) K2 s _ _ H2)
           as (o3 & s3 & H3 & W3);
         [| destruct (tryCatch_then_quiet
                        (bind (bind (attempt P) K1) K2) H s _ _ H3)
              as (o4 & s4 & H4 & W4) ] ]
  end.
  - intros [r | e]; [apply quiet_ret |].
    destruct (responseOf e) as [response |]; [| apply quiet_throw].
    destruct (Js.isNum 422 (Js.optGet "status" response));
      [apply quiet_orTypeError |].
    destruct (Js.isNum 423 (Js.optGet "status" response));
      [| apply quiet_throw].
    apply quiet_bind; [apply quiet_orTypeError | intro; apply quiet_throw].
  - intro result. apply quiet_bind; [apply quiet_orTypeError |].
    intro present.
    destruct (present && Js.truthy (Js.optGet "totp_required" result));
      [apply quiet_ret |].
    repeat first [ apply quiet_ret | apply quiet_setAuth
                 | apply quiet_toast | apply quiet_bind | intro ].
  - intro caught. apply quiet_bind; [apply quiet_orTypeError |].
    intro apiError.
    destruct (Js.isNum 423 (apiStatus apiError)); apply quiet_ret.
  - exists o4, s4. split; [exact H4 |].
    destruct W2 as (_ & E2), W3 as (_ & E3), W4 as (_ & E4). congruence.
Qed.


End Login.

Lemma authService_login_outcomes_witness :
  let body := JObj [("error", JStr "TOTP code required");
                    ("totp_required", JBool true)] in
  let c := apiDefaults POST "/auth/login"
             (loginRequest "mario.rossi@example.com" "pw" None) [] in
  let s := freshPage [Answer 422 body] in
  authService_login scripted 1
    (loginRequest "mario.rossi@example.com" "pw" None) s
  = Some (Resolved body, afterSend s c []) /\
  login scripted Js.asciiToUpperCase 1 "mario.rossi@example.com" "pw" None s
  = Some (Resolved {| success := false; requiresTOTP := Some true;
                      error := Some (JStr "TOTP code required") |},
          afterSend s c []).
Proof.
  intros body c s.
  pose proof (authService_login_outcomes scripted Js.asciiToUpperCase 1 "mario.rossi@example.com" "pw"
                None s
                (Rejected (Axios
                   {| errConfig := c;
                      errResponse := Some {| status := 422; body := body;
                                             config := c |} |}))
                (afterSend s c []) eq_refl) as [Hservice Hprovider].
  split; [exact Hservice |].
  exact (Hprovider _ (JBool true) eq_refl eq_refl eq_refl).
Defined.

Lemma C3_login_422_without_totp_flag_signs_in_witness :
  let body := JObj [("error", JStr "Unprocessable entity");
                    ("totp_required", JBool false)] in
  let c := apiDefaults POST "/auth/login" (loginRequest "a@b.c" "pw" None) [] in
  let s := freshPage [Answer 422 body] in
  exists s2,
    login scripted Js.asciiToUpperCase 1 "a@b.c" "pw" None s
    = Some (Resolved {| success := true; requiresTOTP := None;
                        error := None |}, s2) /\
    isAuthenticated (auth s2) = true /\
    sent s2 = [c].
Proof.
  intros body c s.
  destruct (C3_login_422_without_totp_flag_signs_in scripted
              Js.asciiToUpperCase 1 "a@b.c" "pw" None s
              {| errConfig := c;
                 errResponse := Some {| status := 422; body := body;
                                        config := c |} |}
              {| status := 422; body := body; config := c |}
              [("error", JStr "Unprocessable entity");
               ("totp_required", JBool false)]
              (afterSend s c [])
              eq_refl eq_refl eq_refl eq_refl eq_refl)
    as (s2 & Hrun & Hauth & _ & _ & Hsent).
  exists s2. split; [exact Hrun |]. split; [exact Hauth | exact Hsent].
Defined.


(* ================================================================= *)
(** ** Instance configuration and two-factor verification *)

Section Requests.

Context {World : Type}.
Variable serve : World -> Config -> Raw * World.

Lemma apiMethods_is_api (fuel : nat) (call : ApiCall) :
  apiMethods serve fuel call = api serve fuel (requestOf call).
Proof. destruct call; reflexivity. Qed.

Lemma fromRequest_instance (c x : Config) :
  usesInstanceConfig c -> fromRequest c x -> usesInstanceConfig x.
Proof.
  unfold fromRequest, usesInstanceConfig.
  intros Hc [H | [H | [H | H]]]; subst; try exact Hc; repeat split.
Qed.

Lemma requestOf_settings (call : ApiCall) :
  baseURL (requestOf call)
  = orDefault (cfgBaseURL (configOf call)) "http://localhost:8080/v1" /\
  withCredentials (requestOf call)
  = orDefault (cfgWithCredentials (configOf call)) true /\
  timeout (requestOf call) = orDefault (cfgTimeout (configOf call)) 10000.
Proof. destruct call; repeat split. Qed.

Lemma requestOf_instance (call : ApiCall) :
  overridesNothing (configOf call) -> usesInstanceConfig (requestOf call).
Proof.
  intros (Hb & Ht & Hw).
  destruct (requestOf_settings call) as (Eb & Ew & Et).
  unfold usesInstanceConfig. rewrite Eb, Ew, Et, Hb, Ht, Hw.
  repeat split.
Qed.

(** A service that passes no [config] puts only requests with the
    settings of the instance on the wire. *)
Lemma post_noConfig_grows (fuel : nat) (u : string) (d : Json) :
  keeps (grows usesInstanceConfig) (apiMethods_post serve fuel u d noConfig).
Proof.
  unfold apiMethods_post, postWith.
  eapply keeps_weaken; [| apply api_grows].
  intros a b. apply grows_weaken. intro x.
  apply fromRequest_instance. repeat split.
Qed.

Lemma services_pass_no_config (fuel : nat) :
  keeps (grows usesInstanceConfig) (authService_refreshToken serve fuel) /\
  (forall credentials,
      keeps (grows usesInstanceConfig)
            (authService_login serve fuel credentials)) /\
  (forall userData,
      keeps (grows usesInstanceConfig)
            (authService_register serve fuel userData)) /\
  keeps (grows usesInstanceConfig) (authService_logout serve fuel) /\
  keeps (grows usesInstanceConfig) (authService_verifyAuth serve fuel) /\
  (forall userId request,
      keeps (grows usesInstanceConfig)
            (authService_twoFactor_verify serve fuel userId request)) /\
  (forall userId code,
      keeps (grows usesInstanceConfig)
            (authService_twoFactor_totp_verify serve fuel userId code)).
Proof.
  repeat split; intros.
  - unfold authService_refreshToken, refreshTokenWith. through.
    apply post_noConfig_grows.
  - unfold authService_login. apply keeps_bind; [preorder | |].
    + apply keeps_attempt, post_noConfig_grows.
    + intros [r | e]; [through |].
      destruct (responseOf e) as [response |]; [| through].
      destruct (Js.isNum 422 (Js.optGet "status" response)); [through |].
      destruct (Js.isNum 423 (Js.optGet "status" response)); through.
  - unfold authService_register. through. apply post_noConfig_grows.
  - unfold authService_logout. through. apply post_noConfig_grows.
  - unfold authService_verifyAuth. apply keeps_bind; [preorder | |].
    + apply keeps_attempt, post_noConfig_grows.
    + intros [r | e]; through.
  - unfold authService_twoFactor_verify. through. apply post_noConfig_grows.
  - unfold authService_twoFactor_totp_verify. through.
    apply post_noConfig_grows.
Qed.

(** C7, amended: the instance is created with base URL
    [http://localhost:8080/v1], [withCredentials: true] and a timeout
    of 10000 ms.  A call through [apiMethods] first sends the request
    axios merges from the instance and the call's own [config], in
    which a setting the [config] names replaces the instance's; every
    other request of the call is that request flagged for its single
    re-issue, or a token refresh, which carries the settings of the
    instance.  So a call whose [config] names none of the three
    settings sends only requests with the settings of the instance,
    and the services of [authService], which pass no [config] at all,
    do so in every call. *)
Theorem C7_requests_use_instance_config (fuel : nat) (call : ApiCall)
    (s : St World) (o : Outcome Response) (s1 : St World) :
  apiMethods serve fuel call s = Some (o, s1) ->
  (forall m u d, usesInstanceConfig (mergeConfig m u d noConfig)) /\
  (baseURL (requestOf call)
   = orDefault (cfgBaseURL (configOf call)) "http://localhost:8080/v1" /\
   withCredentials (requestOf call)
   = orDefault (cfgWithCredentials (configOf call)) true /\
   timeout (requestOf call)
   = orDefault (cfgTimeout (configOf call)) 10000) /\
  (exists rest, newlySent s s1 = requestOf call :: rest) /\
  Forall (fun x => x = requestOf call \/ x = markRetry (requestOf call) \/
                   usesInstanceConfig x)
         (newlySent s s1) /\
  (overridesNothing (configOf call) ->
   Forall usesInstanceConfig (newlySent s s1)) /\
  (keeps (grows usesInstanceConfig) (authService_refreshToken serve fuel) /\
   (forall credentials,
       keeps (grows usesInstanceConfig)
             (authService_login serve fuel credentials)) /\
   (forall userData,
       keeps (grows usesInstanceConfig)
             (authService_register serve fuel userData)) /\
   keeps (grows usesInstanceConfig) (authService_logout serve fuel) /\
   keeps (grows usesInstanceConfig) (authService_verifyAuth serve fuel) /\
   (forall userId request,
       keeps (grows usesInstanceConfig)
             (authService_twoFactor_verify serve fuel userId request)) /\
   (forall userId code,
       keeps (grows usesInstanceConfig)
             (authService_twoFactor_totp_verify serve fuel userId code))).
Proof.
  rewrite apiMethods_is_api. intro Hcall.
  split; [intros; repeat split |].
  split; [apply requestOf_settings |].
  destruct (api_grows serve fuel _ s o s1 Hcall) as (l & El & Fl).
  rewrite (newlySent_app s s1 l El).
  split; [| split; [| split; [| apply services_pass_no_config]]].
  - destruct (api_sends_first serve _ _ _ _ _ Hcall) as (rest & Erest).
    exists rest. apply (app_inv_head (sent s)). rewrite <- El. exact Erest.
  - eapply Forall_impl; [| exact Fl].
    intros x [H | [H | [H | H]]]; subst; auto;
      right; right; repeat split.
  - intro Hnone. eapply Forall_impl; [| exact Fl].
    intro x. apply fromRequest_instance, requestOf_instance, Hnone.
Qed.

Lemma bind_body (fuel : nat) (u : string) (d : Json) (s : St World) o s1 :
  apiMethods_post serve fuel u d noConfig s = Some (o, s1) ->
  bind (apiMethods_post serve fuel u d noConfig)
       (fun response => ret (body response)) s
  = Some (match o with
          | Resolved r => Resolved (body r)
          | Rejected e => Rejected e
          end, s1).
Proof. intro H. unfold bind. rewrite H. destruct o; reflexivity. Qed.


End Requests.

Lemma C7_requests_use_instance_config_witness :
  let call := CallGet "/users/1/security/activity"
                (onlyParams [("limit", JNum 50)]) in
  let s := freshPage [Answer 401 JNull; Answer 200 JNull; Answer 200 (JObj [])] in
  let s1 := {| backend := [];
               sent := [requestOf call; refreshRequest;
                        markRetry (requestOf call)];
               cookie := ""; auth := auth s; toasts := [] |} in
  (exists rest, newlySent s s1 = requestOf call :: rest) /\
  Forall usesInstanceConfig (newlySent s s1).
Proof.
  intros call s s1.
  destruct (C7_requests_use_instance_config scripted 2 call s
              (Resolved {| status := 200; body := JObj [];
                           config := markRetry (requestOf call) |})
              s1 eq_refl) as (_ & _ & Hfirst & _ & Hall & _).
  split; [exact Hfirst |].
  apply Hall. repeat split.
Defined.

(** C7, as stated, fails: a call through [apiMethods.get] whose
    [config] names another base URL, no credentials and no timeout is
    sent with exactly those settings, not with the instance's. *)
Lemma C7_call_config_replaces_instance_settings :
  let call := CallGet "/users/1/sensitive"
                {| cfgBaseURL := Some "https://elsewhere.example";
                   cfgTimeout := Some 0;
                   cfgWithCredentials := Some false;
                   cfgParams := [] |} in
  let s := freshPage [Answer 200 JNull] in
  exists r s1 x,
    apiMethods scripted 1 call s = Some (Resolved r, s1) /\
    newlySent s s1 = [x] /\
    baseURL x = "https://elsewhere.example" /\
    withCredentials x = false /\
    timeout x = 0 /\
    ~ usesInstanceConfig x.
Proof.
  intros call s. eexists. eexists. eexists.
  split; [vm_compute; reflexivity |].
  split; [reflexivity |].
  repeat split. intros (Hbase & _). discriminate Hbase.
Qed.



(* ================================================================= *)
(** ** The refresh timer *)

Lemma commitEffect_mount (b : bool) (t : Timers) :
  intervals t = [] ->
  timerInSync b
    (fst (commitEffect b {| deps := None; cleanup := None |} t))
    (snd (commitEffect b {| deps := None; cleanup := None |} t)).
Proof.
  intro Hnone. unfold commitEffect, refreshEffectBody, timerInSync.
  destruct b; cbn.
  - split; [reflexivity |]. exists (nextHandle t), (clock t).
    rewrite Hnone. split; reflexivity.
  - repeat split. exact Hnone.
Qed.

(** A commit brings slot and timers in line with the value just
    rendered, whatever value they were in line with before. *)
Lemma commitEffect_sync (was now : bool) (e : EffectSlot) (t : Timers) :
  timerInSync was e t ->
  timerInSync now (fst (commitEffect now e t)) (snd (commitEffect now e t)).
Proof.
  intros (Hdeps & Hrest). unfold commitEffect. rewrite Hdeps.
  destruct was, now; cbn [depsChanged Bool.eqb negb fst snd].
  - split; assumption.
  - destruct Hrest as (h & t0 & Hc & Hi). rewrite Hc.
    unfold refreshEffectBody, clearInterval, timerInSync. cbn.
    rewrite Hi. cbn. rewrite Nat.eqb_refl. cbn. repeat split.
  - destruct Hrest as (Hc & Hi). rewrite Hc.
    unfold refreshEffectBody, setInterval, timerInSync. cbn.
    split; [reflexivity |]. exists (nextHandle t), (clock t).
    rewrite Hi. split; reflexivity.
  - split; assumption.
Qed.

Lemma dueAt_refreshInterval (h : nat) (t0 at_ : Z) (t : Timers) :
  intervals t = [refreshInterval h t0] ->
  dueAt at_ t
  = if (t0 <? at_) && ((at_ - t0) mod (14 * 60 * 1000) =? 0)
    then [CallRefreshToken] else [].
Proof.
  intro Hi. unfold dueAt. rewrite Hi. cbn [filter].
  change (isDue at_ (refreshInterval h t0))
    with ((t0 <? at_) && ((at_ - t0) mod (14 * 60 * 1000) =? 0)).
  destruct ((t0 <? at_) && ((at_ - t0) mod (14 * 60 * 1000) =? 0));
    reflexivity.
Qed.

Section Timer.

Context {World : Type}.
Variable serve : World -> Config -> Raw * World.

Lemma commit_page (a : App World) : page (commit a) = page a.
Proof.
  unfold commit.
  destruct (commitEffect (isAuthenticated (auth (page a))) (slot a) (timers a)).
  reflexivity.
Qed.

Lemma commit_slot_timers (a : App World) :
  slot (commit a)
  = fst (commitEffect (isAuthenticated (auth (page a))) (slot a) (timers a))
  /\ timers (commit a)
  = snd (commitEffect (isAuthenticated (auth (page a))) (slot a) (timers a)).
Proof.
  unfold commit.
  destruct (commitEffect (isAuthenticated (auth (page a))) (slot a) (timers a)).
  split; reflexivity.
Qed.

(** Slot and timers follow [isAuthenticated] in every state the
    mounted provider can be in. *)
Lemma reachable_inSync (a : App World) :
  reachable a ->
  timerInSync (isAuthenticated (auth (page a))) (slot a) (timers a).
Proof.
  induction 1 as [w jar | a A op o s' Hreach IH Hop | a ms Hreach IH Hms].
  - unfold mount.
    match goal with |- context [commit ?x] => set (a0 := x) end.
    rewrite commit_page.
    destruct (commit_slot_timers a0) as (-> & ->).
    apply commitEffect_mount. reflexivity.
  - match goal with |- context [commit ?x] => set (a1 := x) end.
    rewrite commit_page.
    destruct (commit_slot_timers a1) as (-> & ->).
    eapply commitEffect_sync. exact IH.
  - exact IH.
Qed.

(** C6: in every state of the mounted provider, if [isAuthenticated]
    is [true] there is exactly one timer, it runs [refreshToken] and
    it is due at every multiple of 14 * 60 * 1000 ms after its
    registration and at no other time; if [isAuthenticated] is
    [false] there is no timer and nothing is ever due. *)
Theorem C6_refresh_timer_follows_authentication (a : App World) :
  reachable a ->
  (forall fuel, runCallback serve fuel CallRefreshToken
                = refreshToken serve fuel) /\
  (isAuthenticated (auth (page a)) = true ->
   exists h t0,
     intervals (timers a)
     = [{| handle := h; delay := 840000; since := t0;
           callback := CallRefreshToken |}] /\
     forall at_,
       dueAt at_ (timers a)
       = if (t0 <? at_) && ((at_ - t0) mod 840000 =? 0)
         then [CallRefreshToken] else []) /\
  (isAuthenticated (auth (page a)) = false ->
   intervals (timers a) = [] /\
   forall at_, dueAt at_ (timers a) = []).
Proof.
  intro Hreach. pose proof (reachable_inSync a Hreach) as (_ & Hsync).
  split; [reflexivity |]. split; intro Hauth; rewrite Hauth in Hsync.
  - destruct Hsync as (h & t0 & _ & Hi). exists h, t0.
    split; [exact Hi |]. intro at_.
    exact (dueAt_refreshInterval h t0 at_ (timers a) Hi).
  - destruct Hsync as (_ & Hi). split; [exact Hi |].
    intro at_. unfold dueAt. rewrite Hi. reflexivity.
Qed.

End Timer.

Lemma C6_refresh_timer_follows_authentication_witness :
  let signedIn :=
    commit {| page := {| backend := ([] : list Raw); sent := [refreshRequest]; cookie := "";
                         auth := {| user := Some getMockAuthenticatedUser;
                                    isAuthenticated := true;
                                    isLoading := false |};
                         toasts := [] |};
              slot := slot (mount [Answer 200 JNull] "");
              timers := advance 250 (timers (mount [Answer 200 JNull] "")) |} in
  exists h t0,
    intervals (timers signedIn)
    = [{| handle := h; delay := 840000; since := t0;
          callback := CallRefreshToken |}] /\
    forall at_,
      dueAt at_ (timers signedIn)
      = if (t0 <? at_) && ((at_ - t0) mod 840000 =? 0)
        then [CallRefreshToken] else [].
Proof.
  intro signedIn.
  assert (Hreach : reachable signedIn).
  { exact (@reach_op (list Raw)
             {| page := page (mount [Answer 200 JNull] "");
                slot := slot (mount [Answer 200 JNull] "");
                timers := advance 250 (timers (mount [Answer 200 JNull] "")) |}
             unit (checkAuth scripted 1) (Resolved tt) _
             (@reach_wait (list Raw) _ 250
                (@reach_mount (list Raw) [Answer 200 JNull] "")
                ltac:(discriminate))
             eq_refl). }
  exact (proj1 (proj2
           (C6_refresh_timer_follows_authentication scripted signedIn Hreach))
           eq_refl).
Defined.

(* ================================================================= *)
(** ** Password meters *)

Lemma count_le_length (bs : list bool) : (Text.count bs <= List.length bs)%nat.
Proof. unfold Text.count. apply filter_length_le. Qed.

Lemma truthyStr_of_length (s : string) :
  (0 < String.length s)%nat -> Js.truthyStr s = true.
Proof. destruct s; simpl; [lia | reflexivity]. Qed.

(** [validatePasswordStrength]: the score counts the six checks, each
    failed check yields exactly one suggestion, and a password is
    valid only if it has at least 8 characters, passes at least four
    checks and is rated medium or strong. *)
Theorem validatePasswordStrength_report (password : string) :
  let r := PasswordStrength.validatePasswordStrength password in
  (PasswordStrength.score r <= 6)%nat /\
  (PasswordStrength.score r + List.length (PasswordStrength.suggestions r)
   = 6)%nat /\
  (PasswordStrength.isValid r = true ->
   (8 <= String.length password)%nat /\
   (4 <= PasswordStrength.score r)%nat /\
   (PasswordStrength.strength r = PasswordStrength.Medium \/
    PasswordStrength.strength r = PasswordStrength.Strong)).
Proof.
  unfold PasswordStrength.validatePasswordStrength.
  cbn [PasswordStrength.score PasswordStrength.suggestions
       PasswordStrength.isValid PasswordStrength.strength
       PasswordStrength.length PasswordStrength.lowercase
       PasswordStrength.uppercase PasswordStrength.numbers
       PasswordStrength.special PasswordStrength.noCommonPatterns].
  destruct (Nat.leb_spec 8 (String.length password)) as [Hlen | Hlen];
    destruct (Text.test Text.isLower password);
    destruct (Text.test Text.isUpper password);
    destruct (Text.test Text.isDigit password);
    destruct (Text.test PasswordStrength.isSpecial password);
    destruct (negb (Text.includesAnyCI PasswordStrength.commonPatterns password));
    cbn; repeat split; try lia; try discriminate; intros; auto; try lia.
Qed.

Lemma validatePasswordStrength_report_witness :
  (8 <= String.length "Abcdefgh")%nat /\
  (4 <= PasswordStrength.score
          (PasswordStrength.validatePasswordStrength "Abcdefgh"))%nat /\
  (PasswordStrength.strength
     (PasswordStrength.validatePasswordStrength "Abcdefgh")
   = PasswordStrength.Medium \/
   PasswordStrength.strength
     (PasswordStrength.validatePasswordStrength "Abcdefgh")
   = PasswordStrength.Strong).
Proof.
  exact (proj2 (proj2 (validatePasswordStrength_report "Abcdefgh")) eq_refl).
Defined.

(** A password that [SecurityValidation.isPasswordStrong] accepts is
    also valid for [validatePasswordStrength], rated strong by the
    password-change form and accepted by the registration form. *)
Theorem isPasswordStrong_accepted_everywhere (password : string) :
  SecurityValidation.isPasswordStrong password = true ->
  PasswordStrength.isValid (PasswordStrength.validatePasswordStrength password)
  = true /\
  PasswordChangeForm.calculatePasswordStrength password
  = PasswordChangeForm.strong /\
  RegisterForm.isPasswordValid password = true.
Proof.
  unfold SecurityValidation.isPasswordStrong.
  destruct (Nat.ltb_spec (String.length password) 8) as [Hlen | Hlen];
    [discriminate |].
  destruct (Text.test Text.isUpper password) eqn:Hup; [| discriminate].
  destruct (Text.test Text.isLower password) eqn:Hlo; [| discriminate].
  destruct (Text.test Text.isDigit password) eqn:Hdi; [| discriminate].
  destruct (Text.test (fun c => negb (Text.isAlnum c)) password) eqn:Hsp;
    [| discriminate].
  intros _.
  assert (Hlen8 : Nat.leb 8 (String.length password) = true)
    by (apply Nat.leb_le; exact Hlen).
  split; [| split].
  - unfold PasswordStrength.validatePasswordStrength.
    cbn [PasswordStrength.isValid PasswordStrength.length
         PasswordStrength.lowercase PasswordStrength.uppercase
         PasswordStrength.numbers PasswordStrength.special
         PasswordStrength.noCommonPatterns].
    rewrite Hlen8, Hup, Hlo, Hdi.
    destruct (Text.test PasswordStrength.isSpecial password);
      destruct (negb (Text.includesAnyCI PasswordStrength.commonPatterns
                        password)); reflexivity.
  - unfold PasswordChangeForm.calculatePasswordStrength,
      PasswordChangeForm.strengthScore.
    rewrite Hlen8, Hup, Hlo, Hdi, Hsp.
    destruct (Nat.leb 12 (String.length password)); reflexivity.
  - unfold RegisterForm.isPasswordValid, RegisterForm.passwordScore.
    rewrite truthyStr_of_length by lia.
    rewrite Hlen8, Hup, Hlo, Hdi.
    destruct (Text.test PasswordStrength.isSpecial password); reflexivity.
Qed.

Lemma isPasswordStrong_accepted_everywhere_witness :
  PasswordStrength.isValid
    (PasswordStrength.validatePasswordStrength "Tr0ub4dor_x") = true /\
  PasswordChangeForm.calculatePasswordStrength "Tr0ub4dor_x"
  = PasswordChangeForm.strong /\
  RegisterForm.isPasswordValid "Tr0ub4dor_x" = true.
Proof.
  exact (isPasswordStrong_accepted_everywhere "Tr0ub4dor_x" eq_refl).
Defined.

Lemma step_accounting (ok : bool) (msg : string) (acc : nat * list string) :
  (fst (SecurityServiceValidation.step ok (Some msg) acc)
   + List.length (snd (SecurityServiceValidation.step ok (Some msg) acc))
   = S (fst acc + List.length (snd acc)))%nat.
Proof.
  destruct ok; cbn; [lia |]. rewrite length_app. cbn. lia.
Qed.

(** [securityService.validation.checkPasswordStrength]: every check
    but the 12-character bonus either scores or leaves one feedback
    line, so score and feedback always add up to 7, or 8 from 12
    characters on; and a password with the four character kinds, no
    tripled character and no common pattern is reported strong
    whatever its length. *)
Theorem checkPasswordStrength_accounting (password : string) :
  let r := SecurityServiceValidation.checkPasswordStrength password in
  (SecurityServiceValidation.score r
   + List.length (SecurityServiceValidation.feedback r)
   = if Nat.leb 12 (String.length password) then 8 else 7)%nat /\
  (Text.test Text.isLower password = true ->
   Text.test Text.isUpper password = true ->
   Text.test Text.isDigit password = true ->
   Text.test (fun c => negb (Text.isAlnum c)) password = true ->
   Text.hasTripleRepeat password = false ->
   SecurityServiceValidation.hasCommonPattern password = false ->
   SecurityServiceValidation.isStrong r = true).
Proof.
  unfold SecurityServiceValidation.checkPasswordStrength.
  cbn [SecurityServiceValidation.score SecurityServiceValidation.feedback
       SecurityServiceValidation.isStrong].
  split.
  - repeat rewrite step_accounting.
    destruct (Nat.leb 12 (String.length password)); cbn;
      rewrite step_accounting; reflexivity.
  - intros -> -> -> -> -> ->.
    destruct (Nat.leb 8 (String.length password));
      destruct (Nat.leb 12 (String.length password)); reflexivity.
Qed.

Lemma checkPasswordStrength_accounting_witness :
  SecurityServiceValidation.isStrong
    (SecurityServiceValidation.checkPasswordStrength "aB3$xY") = true /\
  (String.length "aB3$xY" < 8)%nat.
Proof.
  split; [| cbn; lia].
  exact (proj2 (checkPasswordStrength_accounting "aB3$xY")
           eq_refl eq_refl eq_refl eq_refl eq_refl eq_refl).
Defined.

(* ================================================================= *)
(** ** Redaction before logging *)

Lemma assoc_setField (k f : string) (v : Json) (fs : list (string * Json)) :
  Js.assoc k (SecurityValidation.setField f v fs)
  = if String.eqb k f
    then match Js.assoc k fs with Some _ => Some v | None => None end
    else Js.assoc k fs.
Proof.
  induction fs as [| [k' v'] r IH]; cbn.
  - destruct (String.eqb k f); reflexivity.
  - destruct (String.eqb_spec f k') as [-> | Hfk'].
    + cbn. destruct (String.eqb_spec k k') as [-> | Hkk']; reflexivity.
    + cbn. rewrite IH.
      destruct (String.eqb_spec k k') as [-> | Hkk'].
      * destruct (String.eqb_spec k' f) as [-> | _]; [contradiction | reflexivity].
      * reflexivity.
Qed.

Lemma keys_setField (f : string) (v : Json) (fs : list (string * Json)) :
  map fst (SecurityValidation.setField f v fs) = map fst fs.
Proof.
  induction fs as [| [k' v'] r IH]; cbn; [reflexivity |].
  destruct (String.eqb f k'); cbn; [reflexivity | rewrite IH; reflexivity].
Qed.

Lemma sanitize_fold (fields : list string) :
  forall (data : list (string * Json)) (k : string),
    Js.assoc k
      (fold_left
         (fun sanitized field =>
            match Js.assoc field sanitized with
            | Some _ =>
                SecurityValidation.setField field (JStr "[REDACTED]") sanitized
            | None => sanitized
            end) fields data)
    = match Js.assoc k data with
      | Some v => Some (if existsb (String.eqb k) fields
                        then JStr "[REDACTED]" else v)
      | None => None
      end.
Proof.
  induction fields as [| f fields IH]; intros data k; cbn [fold_left existsb].
  - destruct (Js.assoc k data); reflexivity.
  - rewrite IH.
    destruct (Js.assoc f data) as [vf |] eqn:Ef.
    + rewrite assoc_setField.
      destruct (String.eqb_spec k f) as [-> | Hkf].
      * rewrite Ef. cbn. destruct (existsb (String.eqb f) fields); reflexivity.
      * destruct (Js.assoc k data); reflexivity.
    + destruct (String.eqb_spec k f) as [-> | Hkf].
      * rewrite Ef. reflexivity.
      * destruct (Js.assoc k data); reflexivity.
Qed.

Lemma sanitize_keys (fields : list string) :
  forall data : list (string * Json),
    map fst
      (fold_left
         (fun sanitized field =>
            match Js.assoc field sanitized with
            | Some _ =>
                SecurityValidation.setField field (JStr "[REDACTED]") sanitized
            | None => sanitized
            end) fields data)
    = map fst data.
Proof.
  induction fields as [| f fields IH]; intro data; cbn [fold_left];
    [reflexivity |].
  rewrite IH. destruct (Js.assoc f data); [apply keys_setField | reflexivity].
Qed.

(** [sanitizeForLogging] keeps the keys and their order, replaces the
    value of each of the six listed fields that is present by
    [[REDACTED]] and copies every other value; a field spelled
    [fiscal_code], as the sensitive-data API spells it, is not on the
    list and goes through unredacted. *)
Theorem sanitizeForLogging_redacts_listed_fields
    (data : list (string * Json)) (k : string) :
  map fst (SecurityValidation.sanitizeForLogging data) = map fst data /\
  Js.assoc k (SecurityValidation.sanitizeForLogging data)
  = match Js.assoc k data with
    | Some v =>
        Some (if existsb (String.eqb k) SecurityValidation.sensitiveFields
              then JStr "[REDACTED]" else v)
    | None => None
    end /\
  Js.assoc "fiscal_code" (SecurityValidation.sanitizeForLogging data)
  = Js.assoc "fiscal_code" data.
Proof.
  unfold SecurityValidation.sanitizeForLogging.
  split; [apply sanitize_keys |].
  split; [apply sanitize_fold |].
  rewrite sanitize_fold. cbn.
  destruct (Js.assoc "fiscal_code" data); reflexivity.
Qed.

(* ================================================================= *)
(** ** Rate limiter *)

Module RateLimiterFacts.
Import RateLimiter.

Lemma get_set_same (key : string) (a : Attempt) (m : list (string * Attempt)) :
  get key (set key a m) = Some a.
Proof.
  induction m as [| [k a'] r IH]; cbn.
  - rewrite String.eqb_refl. reflexivity.
  - destruct (String.eqb key k) eqn:E; cbn; rewrite E; [reflexivity | exact IH].
Qed.

Lemma get_set_other (key other : string) (a : Attempt)
    (m : list (string * Attempt)) :
  other <> key -> get other (set key a m) = get other m.
Proof.
  intro Hne. induction m as [| [k a'] r IH]; cbn.
  - destruct (String.eqb_spec other key); [contradiction | reflexivity].
  - destruct (String.eqb_spec key k) as [-> | Hk]; cbn.
    + destruct (String.eqb_spec other k); [contradiction | reflexivity].
    + rewrite IH. reflexivity.
Qed.

Lemma get_delete_same (key : string) (m : list (string * Attempt)) :
  NoDup (map fst m) -> get key (delete key m) = None.
Proof.
  induction m as [| [k a] r IH]; cbn; [reflexivity |].
  intro Hnd. inversion Hnd as [| ? ? Hnotin Hnd']; subst.
  destruct (String.eqb_spec key k) as [-> | Hk]; cbn.
  - clear IH Hnd Hnd'. induction r as [| [k' a'] r IH]; cbn; [reflexivity |].
    destruct (String.eqb_spec k k') as [-> | Hk'].
    + exfalso. apply Hnotin. left. reflexivity.
    + apply IH. intro Hin. apply Hnotin. right. exact Hin.
  - destruct (String.eqb_spec key k); [contradiction |]. apply IH. exact Hnd'.
Qed.

(** Inside a window that has been opened for [key] with [c] attempts
    counted, a burst is granted until the counter reaches the
    maximum. *)
Lemma burst_in_window (key : string) (reset : Z) (times : list Z) :
  Forall (fun t => t <= reset) times ->
  forall (c : Z) (l : Limiter),
    get key (attempts l) = Some {| count := c; resetTime := reset |} ->
    Text.count (fst (burst key times l))
    = Nat.min (List.length times) (Z.to_nat (maxAttempts l - c)).
Proof.
  induction 1 as [| t rest Ht Hrest IH]; intros c l Hget; cbn [burst].
  - reflexivity.
  - unfold isAllowed. rewrite Hget. cbn [resetTime count].
    destruct (Z.gtb_spec t reset) as [Hgt | _]; [lia |].
    destruct (Z.geb_spec c (maxAttempts l)) as [Hfull | Hroom].
    + destruct (burst key rest l) as [oks l2] eqn:Eb.
      cbn [fst]. unfold Text.count. cbn [filter].
      pose proof (IH c l Hget) as IHc. rewrite Eb in IHc. cbn [fst] in IHc.
      unfold Text.count in IHc. rewrite IHc.
      replace (Z.to_nat (maxAttempts l - c)) with 0%nat by lia.
      rewrite !Nat.min_0_r. reflexivity.
    + set (l1 := withAttempts l _).
      destruct (burst key rest l1) as [oks l2] eqn:Eb.
      cbn [fst]. unfold Text.count. cbn [filter List.length].
      assert (Hget1 : get key (attempts l1)
                      = Some {| count := c + 1; resetTime := reset |}).
      { subst l1. cbn. apply get_set_same. }
      pose proof (IH (c + 1) l1 Hget1) as IH1. rewrite Eb in IH1.
      cbn [fst] in IH1. unfold Text.count in IH1. rewrite IH1.
      subst l1. cbn [maxAttempts withAttempts].
      replace (Z.to_nat (maxAttempts l - c))
        with (S (Z.to_nat (maxAttempts l - (c + 1)))) by lia.
      reflexivity.
Qed.

End RateLimiterFacts.

(** [RateLimiter.isAllowed]: for a key without a record, a burst of
    calls that all fall inside the window opened by the first one is
    granted exactly [max(1, maxAttempts)] times, or every time if the
    burst is shorter: the first call is always granted, even with a
    maximum of zero. *)
Theorem rateLimiter_burst_budget (key : string) (t0 : Z) (rest : list Z)
    (l : RateLimiter.Limiter) :
  RateLimiter.get key (RateLimiter.attempts l) = None ->
  Forall (fun t => t <= t0 + RateLimiter.windowMs l) rest ->
  Text.count (fst (RateLimiter.burst key (t0 :: rest) l))
  = Nat.min (S (List.length rest))
            (Z.to_nat (Z.max 1 (RateLimiter.maxAttempts l))).
Proof.
  intros Hfresh Hin. cbn [RateLimiter.burst].
  unfold RateLimiter.isAllowed. rewrite Hfresh.
  set (l1 := RateLimiter.withAttempts l _).
  destruct (RateLimiter.burst key rest l1) as [oks l2] eqn:Eb.
  cbn [fst]. unfold Text.count. cbn [filter List.length].
  assert (Hget1 : RateLimiter.get key (RateLimiter.attempts l1)
                  = Some {| RateLimiter.count := 1;
                            RateLimiter.resetTime :=
                              t0 + RateLimiter.windowMs l |}).
  { subst l1. cbn. apply RateLimiterFacts.get_set_same. }
  pose proof (RateLimiterFacts.burst_in_window key _ rest Hin 1 l1 Hget1) as Hb.
  rewrite Eb in Hb. cbn [fst] in Hb. unfold Text.count in Hb. rewrite Hb.
  subst l1. cbn [RateLimiter.maxAttempts RateLimiter.withAttempts].
  replace (Z.to_nat (Z.max 1 (RateLimiter.maxAttempts l)))
    with (S (Z.to_nat (RateLimiter.maxAttempts l - 1))) by lia.
  reflexivity.
Qed.

Lemma rateLimiter_burst_budget_witness :
  Text.count
    (fst (RateLimiter.burst "a@b.c" [1000; 1001; 1500; 2000; 2500; 3000; 4000]
            (RateLimiter.create 5 (15 * 60 * 1000))))
  = 5%nat.
Proof.
  exact (rateLimiter_burst_budget "a@b.c" 1000
           [1001; 1500; 2000; 2500; 3000; 4000]
           (RateLimiter.create 5 (15 * 60 * 1000)) eq_refl
           ltac:(repeat constructor; discriminate)).
Defined.

(** [RateLimiter]: a refusal changes nothing and happens only with no
    attempts remaining; it lasts until the reset time has passed,
    after which the key is granted again; other keys are never
    affected by a call. *)
Theorem rateLimiter_refusal (key : string) (now : Z) (l : RateLimiter.Limiter) :
  fst (RateLimiter.isAllowed key now l) = false ->
  snd (RateLimiter.isAllowed key now l) = l /\
  RateLimiter.getRemainingAttempts key now l = 0 /\
  exists attempt,
    RateLimiter.get key (RateLimiter.attempts l) = Some attempt /\
    (forall later, later <= RateLimiter.resetTime attempt ->
       fst (RateLimiter.isAllowed key later l) = false) /\
    (forall later, RateLimiter.resetTime attempt < later ->
       fst (RateLimiter.isAllowed key later l) = true).
Proof.
  unfold RateLimiter.isAllowed, RateLimiter.getRemainingAttempts.
  destruct (RateLimiter.get key (RateLimiter.attempts l)) as [a |];
    [| discriminate].
  destruct (Z.gtb_spec now (RateLimiter.resetTime a)) as [Hgt | Hle];
    [discriminate |].
  destruct (Z.geb_spec (RateLimiter.count a) (RateLimiter.maxAttempts l))
    as [Hfull | Hroom]; [| discriminate].
  intros _. split; [reflexivity |]. split; [lia |].
  exists a. split; [reflexivity |]. split; intros later Hlater.
  - destruct (Z.gtb_spec later (RateLimiter.resetTime a)); [lia |].
    destruct (Z.geb_spec (RateLimiter.count a) (RateLimiter.maxAttempts l));
      [reflexivity | lia].
  - destruct (Z.gtb_spec later (RateLimiter.resetTime a)); [reflexivity | lia].
Qed.

Lemma rateLimiter_refusal_witness :
  let l := snd (RateLimiter.burst "k" [0; 1; 2]
                  (RateLimiter.create 3 1000)) in
  snd (RateLimiter.isAllowed "k" 3 l) = l /\
  RateLimiter.getRemainingAttempts "k" 3 l = 0.
Proof.
  intro l.
  destruct (rateLimiter_refusal "k" 3 l eq_refl) as (H1 & H2 & _).
  split; assumption.
Defined.

(** [RateLimiter]: a call for one key leaves the record of every other
    key as it was, and after [clearAttempts] the next call for the key
    is granted with the full allowance reported. *)
Theorem rateLimiter_keys_independent (key other : string) (now : Z)
    (l : RateLimiter.Limiter) :
  other <> key ->
  NoDup (map fst (RateLimiter.attempts l)) ->
  RateLimiter.get other
    (RateLimiter.attempts (snd (RateLimiter.isAllowed key now l)))
  = RateLimiter.get other (RateLimiter.attempts l) /\
  fst (RateLimiter.isAllowed key now (RateLimiter.clearAttempts key l)) = true /\
  RateLimiter.getRemainingAttempts key now (RateLimiter.clearAttempts key l)
  = RateLimiter.maxAttempts l.
Proof.
  intros Hne Hnd. split; [| split].
  - unfold RateLimiter.isAllowed.
    destruct (RateLimiter.get key (RateLimiter.attempts l)) as [a |].
    + destruct (now >? RateLimiter.resetTime a); cbn;
        [apply RateLimiterFacts.get_set_other; exact Hne |].
      destruct (RateLimiter.count a >=? RateLimiter.maxAttempts l); cbn;
        [reflexivity | apply RateLimiterFacts.get_set_other; exact Hne].
    + cbn. apply RateLimiterFacts.get_set_other. exact Hne.
  - unfold RateLimiter.isAllowed, RateLimiter.clearAttempts. cbn.
    rewrite RateLimiterFacts.get_delete_same by exact Hnd. reflexivity.
  - unfold RateLimiter.getRemainingAttempts, RateLimiter.clearAttempts. cbn.
    rewrite RateLimiterFacts.get_delete_same by exact Hnd. reflexivity.
Qed.

Lemma rateLimiter_keys_independent_witness :
  let l := snd (RateLimiter.burst "k" [0; 1; 2]
                  (RateLimiter.create 3 1000)) in
  fst (RateLimiter.isAllowed "k" 3 (RateLimiter.clearAttempts "k" l)) = true.
Proof.
  intro l.
  refine (proj1 (proj2 (rateLimiter_keys_independent "k" "other" 3 l _ _))).
  - discriminate.
  - repeat constructor. intros [].
Defined.

(* ================================================================= *)
(** ** Error normalisation *)

Lemma or_truthy_left (a b : Json) : Js.truthy a = true -> Js.or a b = a.
Proof. intro H. unfold Js.or. rewrite H. reflexivity. Qed.

Lemma or_fallback_truthy (a b : Json) :
  Js.truthy b = true -> Js.truthy (Js.or a b) = true.
Proof. intro H. unfold Js.or. destruct (Js.truthy a) eqn:E; assumption. Qed.

Lemma handleAPIError_truthy (caught : Thrown) (apiError : APIError) :
  handleAPIError caught = Some apiError ->
  Js.truthy (apiMessage apiError) = true.
Proof.
  intro H. unfold handleAPIError in H.
  destruct (responseOf caught) as [response |].
  - destruct (Js.get "status" response) as [st |]; [| discriminate].
    destruct (Js.get "data" response) as [d |]; [| discriminate].
    destruct (Js.get "message" d) as [m |]; [| discriminate].
    destruct (Js.get "error" d) as [e |]; [| discriminate].
    inversion H; subst. cbn. apply or_fallback_truthy. reflexivity.
  - inversion H; subst. reflexivity.
Qed.

(** [handleAPIError]: the message it returns is never empty or
    otherwise falsy, so a caller's [message || fallback] always shows
    the message; for an axios error with a response the status is the
    response's, and the call itself throws exactly when the response
    body is [null] or [undefined]. *)
Theorem handleAPIError_message_never_falls_back (caught : Thrown) :
  (forall apiError fallback,
      handleAPIError caught = Some apiError ->
      Js.truthy (apiMessage apiError) = true /\
      Js.or (apiMessage apiError) fallback = apiMessage apiError) /\
  (forall e r,
      caught = Axios e ->
      errResponse e = Some r ->
      (handleAPIError caught = None <->
       body r = JNull \/ body r = JUndefined) /\
      (forall apiError,
          handleAPIError caught = Some apiError ->
          apiStatus apiError = JNum (status r))).
Proof.
  split.
  - intros apiError fallback H.
    pose proof (handleAPIError_truthy caught apiError H) as Ht.
    split; [exact Ht | apply or_truthy_left; exact Ht].
  - intros e r -> Hr. unfold handleAPIError, responseOf. rewrite Hr. cbn.
    split.
    + destruct (body r); cbn; split; intro H;
        try discriminate; auto; destruct H; discriminate.
    + intros apiError H.
      destruct (Js.get "message" (body r)); [| discriminate].
      destruct (Js.get "error" (body r)); [| discriminate].
      inversion H; subst. reflexivity.
Qed.

Lemma handleAPIError_message_never_falls_back_witness :
  let c := apiDefaults POST "/auth/login" JUndefined [] in
  let caught :=
    Axios {| errConfig := c;
             errResponse :=
               Some {| status := 401;
                       body := JObj [("error", JStr "Bad credentials")];
                       config := c |} |} in
  Js.or (JStr "Bad credentials") (JStr "Login failed")
  = JStr "Bad credentials" /\
  apiStatus {| apiStatus := JNum 401; apiMessage := JStr "Bad credentials" |}
  = JNum 401.
Proof.
  intros c caught.
  destruct (handleAPIError_message_never_falls_back caught) as [Hmsg Hax].
  split.
  - exact (proj2 (Hmsg {| apiStatus := JNum 401;
                          apiMessage := JStr "Bad credentials" |}
                       (JStr "Login failed") eq_refl)).
  - exact (proj2 (Hax _ _ eq_refl eq_refl) _ eq_refl).
Defined.

(* ================================================================= *)
(** ** The provider's other operations *)

Section ProviderFacts.

Context {World : Type}.
Variable serve : World -> Config -> Raw * World.
Variable toUpperCase : string -> string.

Lemma post_sameView (fuel : nat) (u : string) (d : Json)
    (config : AxiosRequestConfig) :
  keeps sameView (apiMethods_post serve fuel u d config).
Proof. unfold apiMethods_post, postWith. apply api_sameView. Qed.

Lemma authService_login_sameView (fuel : nat) (credentials : Json) :
  keeps sameView (authService_login serve fuel credentials).
Proof.
  unfold authService_login. apply keeps_bind; [preorder | |].
  - apply keeps_attempt, post_sameView.
  - intros [r | e]; [through |].
    destruct (responseOf e) as [response |]; [| through].
    destruct (Js.isNum 422 (Js.optGet "status" response)); [through |].
    destruct (Js.isNum 423 (Js.optGet "status" response)); through.
Qed.

(** A successful [login] has set [isAuthenticated]. *)
Lemma login_success_authenticates (fuel : nat) (email password : string)
    (totpCode : option string) (s : St World) (r : LoginResult)
    (s1 : St World) :
  login serve toUpperCase fuel email password totpCode s
  = Some (Resolved r, s1) ->
  success r = true ->
  isAuthenticated (auth s1) = true.
Proof.
  intros H Hok. unfold login in H. cbv zeta in H.
  apply tryCatch_bind_inv in H as (oa & sa & Ha & Hrest).
  destruct oa as [result | caught].
  - unfold tryCatch, bind, attempt in Hrest.
    destruct (Js.hasKey "totp_required" result) as [present |];
      cbn in Hrest.
    + destruct (present && Js.truthy (Js.optGet "totp_required" result));
        cbn in Hrest; inversion Hrest; subst; cbn in *;
        [discriminate | reflexivity].
    + inversion Hrest; subst; cbn in *; discriminate.
  - unfold bind in Hrest.
    destruct (handleAPIError caught) as [apiError |]; cbn in Hrest.
    + destruct (Js.isNum 423 (apiStatus apiError));
        inversion Hrest; subst; cbn in *; discriminate.
    + inversion Hrest.
Qed.

(** [login] of the provider: a result with [success: true] comes with
    [isAuthenticated] set and the login user stored; a result with
    [success: false], and likewise a rejection (which can only be a
    TypeError), leaves the provider's cells and the toasts exactly as
    they were. *)
Theorem login_state_follows_result (fuel : nat) (email password : string)
    (totpCode : option string) (s : St World)
    (o : Outcome LoginResult) (s1 : St World) :
  login serve toUpperCase fuel email password totpCode s = Some (o, s1) ->
  match o with
  | Resolved r =>
      if success r then
        isAuthenticated (auth s1) = true /\
        user (auth s1) = Some (loginUser toUpperCase email totpCode) /\
        requiresTOTP r = None
      else auth s1 = auth s /\ toasts s1 = toasts s
  | Rejected e =>
      e = JsError "TypeError" /\ auth s1 = auth s /\ toasts s1 = toasts s
  end.
Proof.
  intro H. unfold login in H. cbv zeta in H.
  apply tryCatch_bind_inv in H as (oa & sa & Ha & Hrest).
  destruct (authService_login_sameView _ _ _ _ _ Ha) as (Hauth & Htoasts & _).
  destruct oa as [result | caught].
  - unfold tryCatch, bind, attempt in Hrest.
    destruct (Js.hasKey "totp_required" result) as [present |];
      cbn in Hrest.
    + destruct (present && Js.truthy (Js.optGet "totp_required" result));
        cbn in Hrest; inversion Hrest; subst; cbn; auto.
    + inversion Hrest; subst; cbn. auto.
  - unfold bind in Hrest.
    destruct (handleAPIError caught) as [apiError |]; cbn in Hrest.
    + destruct (Js.isNum 423 (apiStatus apiError));
        inversion Hrest; subst; cbn; auto.
    + inversion Hrest; subst. auto.
Qed.

(** A locked account: when the login call is rejected with 423,
    [authService.login] throws the response body, which carries no
    [response] of its own; [handleAPIError] then reports status 0, so
    the provider's [login] answers with the generic network-error
    message and never with its account-locked message. *)
Theorem login_locked_account_reported_as_network_error (fuel : nat)
    (email password : string) (totpCode : option string) (s : St World)
    (e : AxiosError) (r : Response) (s1 : St World) :
  apiMethods_post serve fuel "/auth/login"
    (loginRequest email password totpCode) noConfig s
  = Some (Rejected (Axios e), s1) ->
  errResponse e = Some r ->
  status r = 423 ->
  responseOf (Plain (body r)) = None ->
  login serve toUpperCase fuel email password totpCode s
  = Some (Resolved
            {| success := false; requiresTOTP := None;
               error := Some (JStr "Network error or unknown error occurred") |},
          s1).
Proof.
  intros Hpost Hr H423 Hplain.
  unfold login, tryCatch, authService_login, bind, attempt.
  rewrite Hpost. unfold responseOf at 1. rewrite Hr. cbn -[Z.eqb responseOf].
  rewrite H423. cbn -[responseOf].
  unfold handleAPIError. rewrite Hplain. reflexivity.
Qed.

(** [register]: once the registration call has resolved and the
    automatic login has completed with a result, [register] returns
    [true] with [isAuthenticated] set, whether or not that login
    succeeded; after a failed login the user shown is the one built
    from the registration form. *)
Theorem register_authenticates_after_registration (fuel : nat)
    (email password name surname : string) (s : St World)
    (registered : Json) (s1 : St World) (r : LoginResult) (s2 : St World) :
  authService_register serve fuel
    (registerRequest email password name surname) s
  = Some (Resolved registered, s1) ->
  login serve toUpperCase fuel email password None s1 = Some (Resolved r, s2) ->
  exists s3,
    register serve toUpperCase fuel email password name surname s
    = Some (Resolved true, s3) /\
    isAuthenticated (auth s3) = true /\
    backend s3 = backend s2 /\ sent s3 = sent s2 /\
    (success r = false ->
     user (auth s3) = Some (createMockUser email name surname)).
Proof.
  intros Hreg Hlogin.
  unfold register, tryCatch. cbv zeta. unfold bind at 1, attempt.
  unfold bind at 1. rewrite Hreg. unfold bind at 1. rewrite Hlogin.
  pose proof (login_success_authenticates _ _ _ _ _ _ _ Hlogin) as Hauth.
  destruct (success r) eqn:Hs.
  - specialize (Hauth eq_refl).
    eexists. split; [reflexivity |]. cbn. repeat split; auto. discriminate.
  - eexists. split; [reflexivity |]. cbn. repeat split; auto.
Qed.

(** [refreshToken] of the provider never rejects: it answers [true]
    and changes nothing when the refresh call resolved, and answers
    [false] with [user] null and [isAuthenticated] false when it was
    rejected. *)
Theorem provider_refreshToken_signs_out_on_failure (fuel : nat)
    (s : St World) (o : Outcome Json) (s1 : St World) :
  authService_refreshToken serve fuel s = Some (o, s1) ->
  refreshToken serve fuel s
  = Some (Resolved (resolved o),
          if resolved o then s1
          else withAuth s1 {| user := None; isAuthenticated := false;
                              isLoading := isLoading (auth s1) |}) /\
  (resolved o = true -> auth s1 = auth s).
Proof.
  intro Hcall. split.
  - unfold refreshToken, tryCatch, bind, attempt. rewrite Hcall.
    destruct o; reflexivity.
  - intros _. unfold authService_refreshToken, refreshTokenWith in Hcall.
    apply bind_ret_inv in Hcall as (o' & Hpost).
    exact (proj1 (api_sameView serve _ _ _ _ _ Hpost)).
Qed.

(** The refresh timer and its callback: in any state of the mounted
    provider with [isAuthenticated] set, a callback run that fails
    leaves no timer after the next commit, and a run that succeeds
    leaves the very same interval in place (it is not registered
    anew). *)
Theorem refresh_callback_and_timer (fuel : nat) (a : App World)
    (o : Outcome Json) (s1 : St World) :
  reachable a ->
  isAuthenticated (auth (page a)) = true ->
  authService_refreshToken serve fuel (page a) = Some (o, s1) ->
  exists b s2,
    runCallback serve fuel CallRefreshToken (page a) = Some (Resolved b, s2) /\
    b = resolved o /\
    let next := commit {| page := s2; slot := slot a; timers := timers a |} in
    if b then timers next = timers a /\ slot next = slot a
    else intervals (timers next) = [] /\
         isAuthenticated (auth (page next)) = false.
Proof.
  intros Hreach Hauth Hcall.
  assert (Hrun : refreshToken serve fuel (page a)
                 = Some (Resolved (resolved o),
                         if resolved o then s1
                         else withAuth s1
                                {| user := None; isAuthenticated := false;
                                   isLoading := isLoading (auth s1) |})).
  { unfold refreshToken, tryCatch, bind, attempt. rewrite Hcall.
    destruct o; reflexivity. }
  assert (Hsame : resolved o = true -> auth s1 = auth (page a)).
  { intros _. unfold authService_refreshToken, refreshTokenWith in Hcall.
    apply bind_ret_inv in Hcall as (o' & Hpost).
    exact (proj1 (api_sameView serve _ _ _ _ _ Hpost)). }
  pose proof (reachable_inSync a Hreach) as Hsync. rewrite Hauth in Hsync.
  destruct Hsync as (Hdeps & h & t0 & Hclean & Hint).
  eexists. eexists. split; [exact Hrun |]. split; [reflexivity |].
  destruct (resolved o) eqn:Hres; cbv zeta.
  - specialize (Hsame eq_refl).
    unfold commit. cbn [page slot timers]. rewrite Hsame, Hauth.
    unfold commitEffect. rewrite Hdeps. cbn. split; reflexivity.
  - unfold commit. cbn [page slot timers withAuth auth isAuthenticated].
    unfold commitEffect. rewrite Hdeps, Hclean. cbn.
    unfold clearInterval. rewrite Hint. cbn. rewrite Nat.eqb_refl. cbn.
    split; reflexivity.
Qed.

(** [logoutFromAllDevices]: without a user (or with user id 0) it
    does nothing and sends nothing; otherwise it posts to the
    terminate-all endpoint of that user, signs out when the call
    resolved, and when the call was rejected keeps the session as it
    was and only shows an error toast. *)
Theorem logoutFromAllDevices_keeps_session_on_failure (fuel : nat)
    (s : St World) :
  ((user (auth s) = None \/ exists u, user (auth s) = Some u /\ id u = 0) ->
   logoutFromAllDevices serve fuel s = Some (Resolved tt, s)) /\
  (forall u o s1,
      user (auth s) = Some u ->
      id u <> 0 ->
      apiMethods_post serve fuel
        ("/users/" ++ Js.ofNumber (id u) ++ "/security/sessions/terminate-all")
        JUndefined noConfig s = Some (o, s1) ->
      match o with
      | Resolved _ =>
          exists s2,
            logoutFromAllDevices serve fuel s = Some (Resolved tt, s2) /\
            user (auth s2) = None /\ isAuthenticated (auth s2) = false /\
            sent s2 = sent s1
      | Rejected caught =>
          forall apiError,
            handleAPIError caught = Some apiError ->
            exists s2,
              logoutFromAllDevices serve fuel s = Some (Resolved tt, s2) /\
              auth s2 = auth s /\
              toasts s2 = (toasts s ++ [(ToastError, apiMessage apiError)])%list /\
              sent s2 = sent s1
      end).
Proof.
  split.
  - intros [Hnone | (u & Hu & Hid)];
      unfold logoutFromAllDevices, bind, getAuth.
    + rewrite Hnone. reflexivity.
    + rewrite Hu, Hid. reflexivity.
  - intros u o s1 Hu Hid Hpost.
    destruct (post_sameView _ _ _ _ _ _ _ Hpost) as (Hauth & Htoasts & _).
    assert (Hrun : logoutFromAllDevices serve fuel s
                   = tryCatch
                       (bind (securityService_terminateAllSessions serve fuel (id u))
                          (fun _ => bind (setUser World None)
                          (fun _ => bind (setIsAuthenticated World false)
                          (fun _ => bind tokenUtils_clearAuthTokens
                          (fun _ => toast World ToastSuccess
                                      (JStr "Disconnesso da tutti i dispositivi"))))))
                       (fun caught =>
                          bind (orTypeError World (handleAPIError caught))
                            (fun apiError =>
                               toast World ToastError
                                 (Js.or (apiMessage apiError)
                                    (JStr "Errore durante la disconnessione"))))
                       s).
    { unfold logoutFromAllDevices, bind at 1, getAuth. rewrite Hu.
      destruct (Z.eqb_spec (id u) 0) as [Hz | _]; [contradiction | reflexivity]. }
    rewrite Hrun. clear Hrun.
    unfold tryCatch, securityService_terminateAllSessions, bind, attempt.
    rewrite Hpost. destruct o as [r | caught].
    + eexists. split; [reflexivity |]. cbn. repeat split.
    + intros apiError Herr. rewrite Herr. cbn.
      rewrite (or_truthy_left _ _ (handleAPIError_truthy _ _ Herr)).
      eexists. split; [reflexivity |]. cbn. rewrite Hauth, Htoasts.
      repeat split.
Qed.

End ProviderFacts.

Lemma login_state_follows_result_witness :
  let refused :=
    freshPage [Answer 401 (JObj [("error", JStr "Bad credentials")]);
               Answer 403 JNull] in
  let granted := freshPage [Answer 200 (JObj [("message", JStr "ok")])] in
  (exists r s1,
      login scripted Js.asciiToUpperCase 2 "a@b.c" "pw" None refused
      = Some (Resolved r, s1) /\
      success r = false /\ auth s1 = auth refused /\
      toasts s1 = toasts refused) /\
  (exists r s1,
      login scripted Js.asciiToUpperCase 1 "ada.lovelace@x.org" "pw" None
        granted
      = Some (Resolved r, s1) /\
      success r = true /\
      isAuthenticated (auth s1) = true /\
      user (auth s1)
      = Some {| id := 1; email := "ada.lovelace@x.org"; name := "Ada";
                surname := "Lovelace"; totpEnabled := false |}).
Proof.
  intros refused granted. split.
  - destruct (login scripted Js.asciiToUpperCase 2 "a@b.c" "pw" None refused)
      as [[[r | e] s1] |] eqn:E;
      try (vm_compute in E; discriminate E).
    exists r, s1. split; [reflexivity |].
    pose proof (login_state_follows_result scripted Js.asciiToUpperCase 2
                  "a@b.c" "pw" None refused (Resolved r) s1 E) as H.
    assert (Hr : success r = false).
    { vm_compute in E. inversion E; subst. reflexivity. }
    cbn in H. rewrite Hr in H. split; [exact Hr | exact H].
  - destruct (login scripted Js.asciiToUpperCase 1 "ada.lovelace@x.org" "pw"
                None granted)
      as [[[r | e] s1] |] eqn:E;
      try (vm_compute in E; discriminate E).
    exists r, s1. split; [reflexivity |].
    pose proof (login_state_follows_result scripted Js.asciiToUpperCase 1
                  "ada.lovelace@x.org" "pw" None granted (Resolved r) s1 E)
      as H.
    assert (Hr : success r = true).
    { vm_compute in E. inversion E; subst. reflexivity. }
    cbn in H. rewrite Hr in H. destruct H as (Hauth & Huser & _).
    split; [exact Hr |]. split; [exact Hauth |].
    rewrite Huser. reflexivity.
Defined.

Lemma login_locked_account_reported_as_network_error_witness :
  let locked := JObj [("error", JStr "Account locked");
                      ("locked_until", JStr "2025-01-01T00:00:00Z")] in
  login scripted Js.asciiToUpperCase 1 "a@b.c" "pw" None (freshPage [Answer 423 locked])
  = Some (Resolved
            {| success := false; requiresTOTP := None;
               error := Some (JStr "Network error or unknown error occurred") |},
          afterSend (freshPage [Answer 423 locked])
            (apiDefaults POST "/auth/login" (loginRequest "a@b.c" "pw" None) [])
            []).
Proof.
  intro locked.
  exact (login_locked_account_reported_as_network_error scripted Js.asciiToUpperCase 1
           "a@b.c" "pw" None (freshPage [Answer 423 locked])
           _ _ _ eq_refl eq_refl eq_refl eq_refl).
Defined.

Lemma register_authenticates_after_registration_witness :
  let s := freshPage [Answer 201 (JObj []);
                      Answer 400 (JObj [("error", JStr "Bad credentials")])] in
  exists s3,
    register scripted Js.asciiToUpperCase 1 "a@b.c" "pw" "Ada" "Bo" s = Some (Resolved true, s3) /\
    isAuthenticated (auth s3) = true /\
    user (auth s3) = Some (createMockUser "a@b.c" "Ada" "Bo").
Proof.
  intro s.
  destruct (register_authenticates_after_registration scripted Js.asciiToUpperCase 1
              "a@b.c" "pw" "Ada" "Bo" s (JObj [])
              (afterSend s (apiDefaults POST "/auth/register"
                              (registerRequest "a@b.c" "pw" "Ada" "Bo") [])
                 [Answer 400 (JObj [("error", JStr "Bad credentials")])])
              {| success := false; requiresTOTP := None;
                 error := Some (JStr "Bad credentials") |}
              _ eq_refl eq_refl)
    as (s3 & Hrun & Hauth & _ & _ & Huser).
  exists s3. split; [exact Hrun |]. split; [exact Hauth |].
  apply Huser. reflexivity.
Defined.

Lemma provider_refreshToken_signs_out_on_failure_witness :
  let s := {| backend := [Answer 403 JNull]; sent := []; cookie := "";
              auth := {| user := Some defaultMockUser;
                         isAuthenticated := true; isLoading := false |};
              toasts := [] |} in
  refreshToken scripted 1 s
  = Some (Resolved false,
          {| backend := []; sent := [refreshRequest]; cookie := "";
             auth := {| user := None; isAuthenticated := false;
                        isLoading := false |};
             toasts := [] |}).
Proof.
  intro s.
  exact (proj1 (provider_refreshToken_signs_out_on_failure scripted 1 s
                  (Rejected (Axios
                     {| errConfig := refreshRequest;
                        errResponse := Some {| status := 403; body := JNull;
                                               config := refreshRequest |} |}))
                  (afterSend s refreshRequest []) eq_refl)).
Defined.

Lemma refresh_callback_and_timer_witness :
  let signedIn :=
    commit {| page := {| backend := [Answer 403 JNull];
                         sent := [refreshRequest]; cookie := "";
                         auth := {| user := Some getMockAuthenticatedUser;
                                    isAuthenticated := true;
                                    isLoading := false |};
                         toasts := [] |};
              slot := slot (mount [Answer 200 JNull; Answer 403 JNull] "");
              timers := timers (mount [Answer 200 JNull; Answer 403 JNull] "") |} in
  exists b s2,
    runCallback scripted 1 CallRefreshToken (page signedIn)
    = Some (Resolved b, s2) /\
    b = false /\
    intervals (timers (commit {| page := s2; slot := slot signedIn;
                                 timers := timers signedIn |})) = [].
Proof.
  intro signedIn.
  assert (Hreach : reachable signedIn).
  { exact (@reach_op (list Raw)
             (mount [Answer 200 JNull; Answer 403 JNull] "")
             unit (checkAuth scripted 1) (Resolved tt) _
             (@reach_mount (list Raw) [Answer 200 JNull; Answer 403 JNull] "")
             eq_refl). }
  destruct (refresh_callback_and_timer scripted 1 signedIn
              (Rejected (Axios
                 {| errConfig := refreshRequest;
                    errResponse := Some {| status := 403; body := JNull;
                                           config := refreshRequest |} |}))
              (afterSend (page signedIn) refreshRequest [])
              Hreach eq_refl eq_refl)
    as (b & s2 & Hrun & Hb & Hnext).
  exists b, s2. split; [exact Hrun |]. cbn in Hb. split; [exact Hb |].
  subst b. exact (proj1 Hnext).
Defined.

Lemma logoutFromAllDevices_keeps_session_on_failure_witness :
  let s := {| backend := [Answer 500 (JObj [("message", JStr "boom")])];
              sent := []; cookie := "";
              auth := {| user := Some defaultMockUser;
                         isAuthenticated := true; isLoading := false |};
              toasts := [] |} in
  exists s2,
    logoutFromAllDevices scripted 1 s = Some (Resolved tt, s2) /\
    auth s2 = auth s /\
    toasts s2 = [(ToastError, JStr "boom")].
Proof.
  intro s.
  pose (c := apiDefaults POST "/users/1/security/sessions/terminate-all"
               JUndefined []).
  pose proof (proj2 (logoutFromAllDevices_keeps_session_on_failure scripted 1 s)
                defaultMockUser
                (Rejected (Axios
                   {| errConfig := c;
                      errResponse :=
                        Some {| status := 500;
                                body := JObj [("message", JStr "boom")];
                                config := c |} |}))
                (afterSend s c [])
                eq_refl ltac:(discriminate) eq_refl) as H.
  cbv beta iota in H.
  destruct (H {| apiStatus := JNum 500; apiMessage := JStr "boom" |} eq_refl)
    as (s2 & Hrun & Hauth & Htoasts & _).
  exists s2. split; [exact Hrun |]. split; [exact Hauth | exact Htoasts].
Defined.

(* ================================================================= *)
(** ** More on the interceptor *)

Section InterceptorMore.

Context {World : Type}.
Variable serve : World -> Config -> Raw * World.

(** Anything but a 401 is final: a network failure or an answer with
    another status, a 500 included, is settled after exactly one
    request, with no refresh and no re-issue. *)
Theorem api_outcome_without_401_is_final (fuel : nat) (c : Config)
    (s : St World) (raw : Raw) (w : World) :
  serve (backend s) c = (raw, w) ->
  (forall b, raw <> Answer 401 b) ->
  api serve (S fuel) c s = Some (settled c raw, afterSend s c w).
Proof.
  intros Hs Hraw. destruct raw as [st b |].
  - apply api_direct; [exact Hs |]. intros ->. exact (Hraw b eq_refl).
  - rewrite api_step, Hs. reflexivity.
Qed.

(** Whatever fails, the request, the token refresh or the re-issued
    request, the error handed to the caller is an axios error that
    carries the caller's own request (flagged or not), not the
    refresh request. *)
Theorem api_rejection_belongs_to_request (fuel : nat) :
  forall (c : Config) (s : St World) (e : Thrown) (s1 : St World),
    api serve fuel c s = Some (Rejected e, s1) ->
    exists a, e = Axios a /\ (errConfig a = c \/ errConfig a = markRetry c).
Proof.
  induction fuel as [| n IH]; intros c s e s1 H; [discriminate |].
  rewrite api_step in H.
  destruct (settle c (fst (serve (backend s) c))) as [r | err] eqn:Es;
    [discriminate |].
  pose proof (settle_inr_config _ _ _ Es) as Ec.
  unfold onRejected in H.
  destruct (statusIs 401 err && negb (_retry (errConfig err))).
  - unfold bind, attempt in H.
    destruct (refreshTokenWith (api serve n) _) as [[[j | e'] s'] |];
      try discriminate.
    + cbn [errConfig markRetryError] in H. rewrite Ec in H.
      destruct (IH _ _ _ _ H) as (a & -> & [Ha | Ha]);
        exists a; (split; [reflexivity | right; exact Ha]).
    + cbn in H. inversion H. eexists. split; [reflexivity |].
      right. cbn. rewrite Ec. reflexivity.
  - inversion H. eexists. split; [reflexivity |]. left. exact Ec.
Qed.

(** If the backend answers 401 to every token refresh, a request that
    is itself answered 401 never comes back: each refresh is a fresh
    request without the retry flag, so the interceptor refreshes
    again for it, without end. *)
Theorem interceptor_never_returns_when_refresh_is_unauthorized :
  (forall w, exists b w', serve w refreshRequest = (Answer 401 b, w')) ->
  forall (fuel : nat) (c : Config) (s : St World) (b : Json) (w : World),
    _retry c = false ->
    serve (backend s) c = (Answer 401 b, w) ->
    api serve fuel c s = None.
Proof.
  intros Hrefresh.
  assert (Hloop : forall fuel s, api serve fuel refreshRequest s = None).
  { induction fuel as [| n IH]; intro s; [reflexivity |].
    destruct (Hrefresh (backend s)) as (b & w' & Hs).
    rewrite api_step, Hs. cbn [fst snd settle].
    change ((200 <=? 401) && (401 <? 300)) with false. cbv iota.
    rewrite onRejected_refresh by reflexivity.
    unfold refreshTokenWith, postWith, bind.
    change (apiDefaults POST "/auth/refresh" JUndefined []) with refreshRequest.
    rewrite IH. reflexivity. }
  intros fuel c s b w Hflag Hs. destruct fuel as [| n]; [reflexivity |].
  rewrite api_step, Hs. cbn [fst snd settle].
  change ((200 <=? 401) && (401 <? 300)) with false. cbv iota.
  rewrite onRejected_refresh by (simpl; auto).
  unfold refreshTokenWith, postWith, bind.
  change (apiDefaults POST "/auth/refresh" JUndefined []) with refreshRequest.
  rewrite Hloop. reflexivity.
Qed.

End InterceptorMore.

Lemma api_outcome_without_401_is_final_witness :
  let c := apiDefaults GET "/users/1/sensitive" JUndefined [] in
  api scripted 1 c (freshPage [Answer 500 JNull; Answer 200 JNull])
  = Some (Rejected (Axios {| errConfig := c;
                             errResponse := Some {| status := 500;
                                                    body := JNull;
                                                    config := c |} |}),
          {| backend := [Answer 200 JNull]; sent := [c]; cookie := "";
             auth := {| user := None; isAuthenticated := false;
                        isLoading := true |};
             toasts := [] |}).
Proof.
  intro c.
  exact (api_outcome_without_401_is_final scripted 0 c
           (freshPage [Answer 500 JNull; Answer 200 JNull])
           (Answer 500 JNull) [Answer 200 JNull] eq_refl
           ltac:(intros b H; discriminate H)).
Defined.

Lemma api_rejection_belongs_to_request_witness :
  let c := apiDefaults GET "/users/1/sensitive" JUndefined [] in
  exists a,
    Axios {| errConfig := markRetry c;
             errResponse := Some {| status := 401; body := JNull;
                                    config := markRetry c |} |}
    = Axios a /\
    (errConfig a = c \/ errConfig a = markRetry c).
Proof.
  intro c.
  exact (api_rejection_belongs_to_request scripted 3 c
           (freshPage [Answer 401 JNull; Answer 500 JNull]) _
           (afterSend (afterSend (freshPage [Answer 401 JNull; Answer 500 JNull])
                         c [Answer 500 JNull])
              refreshRequest [])
           eq_refl).
Defined.

Lemma interceptor_never_returns_when_refresh_is_unauthorized_witness :
  api (always 401) 1000 (apiDefaults GET "/users/1/sensitive" JUndefined [])
      (freshPage tt)
  = None.
Proof.
  refine (interceptor_never_returns_when_refresh_is_unauthorized (always 401)
            _ 1000 (apiDefaults GET "/users/1/sensitive" JUndefined [])
            (freshPage tt) JNull tt eq_refl eq_refl).
  intro w. exists JNull, w. reflexivity.
Defined.

(* ================================================================= *)
(** ** Password change and device trust *)

Section ServiceFacts.

Context {World : Type}.
Variable serve : World -> Config -> Raw * World.

(** [changePassword] of the provider: the new password goes out as
    typed; the two-factor code and method are part of the request
    only when both are non-empty; the result says [success: true]
    exactly when the call resolved, and otherwise carries the
    message extracted by [handleAPIError]; the provider's cells are
    never touched. *)
Theorem changePassword_outcome (fuel : nat) (currentPassword newPassword : string)
    (twoFactorCode twoFactorMethod : option string) (s : St World)
    (o : Outcome Response) (s1 : St World) :
  let request := changeRequest currentPassword newPassword
                               twoFactorCode twoFactorMethod in
  apiMethods_post serve fuel "/auth/change-password" request noConfig s
  = Some (o, s1) ->
  Js.get "new_password" request = Some (JStr newPassword) /\
  (Js.get "two_factor_code" request <> Some JUndefined <->
   exists code method_,
     twoFactorCode = Some code /\ twoFactorMethod = Some method_ /\
     code <> "" /\ method_ <> "") /\
  exists r s2,
    changePassword serve fuel currentPassword newPassword
      twoFactorCode twoFactorMethod s = Some (r, s2) /\
    auth s2 = auth s /\ sent s2 = sent s1 /\
    match o, r with
    | Resolved _, Resolved result =>
        result = {| ok := true; failure := None |}
    | Rejected caught, Resolved result =>
        exists apiError,
          handleAPIError caught = Some apiError /\
          result = {| ok := false; failure := Some (apiMessage apiError) |}
    | Rejected caught, Rejected e =>
        handleAPIError caught = None /\ e = JsError "TypeError"
    | Resolved _, Rejected _ => False
    end.
Proof.
  intros request Hpost.
  destruct (post_sameView _ _ _ _ _ _ _ _ Hpost) as (Hauth & _ & _).
  split; [reflexivity |]. split.
  - subst request. unfold changeRequest.
    destruct twoFactorCode as [code |], twoFactorMethod as [method_ |]; cbn.
    + destruct code as [| c0 code]; cbn.
      * split; [intro H; exfalso; apply H; reflexivity |].
        intros (c & m & Hc & _ & Hne & _). inversion Hc; subst.
        contradiction.
      * destruct method_ as [| m0 method_]; cbn.
        -- split; [intro H; exfalso; apply H; reflexivity |].
           intros (c & m & _ & Hm & _ & Hne). inversion Hm; subst.
           contradiction.
        -- split; [| intros _; discriminate].
           intros _. eexists. eexists.
           repeat split; try reflexivity; discriminate.
    + split; [intro H; exfalso; apply H; reflexivity |].
      intros (c & m & _ & Hm & _). discriminate.
    + split; [intro H; exfalso; apply H; reflexivity |].
      intros (c & m & Hc & _). discriminate.
    + split; [intro H; exfalso; apply H; reflexivity |].
      intros (c & m & Hc & _). discriminate.
  - unfold changePassword, tryCatch, authService_changePassword, bind, attempt.
    fold request. rewrite Hpost. destruct o as [resp | caught]; cbn.
    + eexists. eexists. split; [reflexivity |]. cbn. auto.
    + destruct (handleAPIError caught) as [apiError |] eqn:Herr; cbn.
      * rewrite (or_truthy_left _ _ (handleAPIError_truthy _ _ Herr)).
        eexists. eexists. split; [reflexivity |]. cbn.
        repeat split; auto. exists apiError. auto.
      * eexists. eexists. split; [reflexivity |]. cbn. auto.
Qed.

End ServiceFacts.

Lemma changePassword_outcome_witness :
  let s := freshPage [Answer 400 (JObj [("error", JStr "Wrong password")])] in
  exists r s2,
    changePassword scripted 1 "old" "N3w!pass" (Some "123456") None s
    = Some (r, s2) /\
    auth s2 = auth s /\
    Js.get "two_factor_code"
      (changeRequest "old" "N3w!pass" (Some "123456") None)
    = Some JUndefined.
Proof.
  intro s.
  pose (c := apiDefaults POST "/auth/change-password"
               (changeRequest "old" "N3w!pass" (Some "123456") None) []).
  destruct (changePassword_outcome scripted 1 "old" "N3w!pass"
              (Some "123456") None s
              (Rejected (Axios
                 {| errConfig := c;
                    errResponse :=
                      Some {| status := 400;
                              body := JObj [("error", JStr "Wrong password")];
                              config := c |} |}))
              (afterSend s c []) eq_refl)
    as (_ & _ & r & s2 & Hrun & Hauth & _).
  exists r, s2. split; [exact Hrun |]. split; [exact Hauth | reflexivity].
Defined.

(* ================================================================= *)
(** ** Visibility toggles *)

(** [toggleDataVisibility]: toggling a type twice restores the list;
    one toggle flips exactly the items of that type and never changes
    a type or a value. *)
Theorem toggleDataVisibility_involutive (t : SensitiveItems.ItemType)
    (items : list SensitiveItems.SensitiveDataItem) :
  SensitiveItems.toggleDataVisibility t
    (SensitiveItems.toggleDataVisibility t items) = items /\
  map SensitiveItems.type (SensitiveItems.toggleDataVisibility t items)
  = map SensitiveItems.type items /\
  map SensitiveItems.value (SensitiveItems.toggleDataVisibility t items)
  = map SensitiveItems.value items /\
  map SensitiveItems.isVisible (SensitiveItems.toggleDataVisibility t items)
  = map (fun item =>
           xorb (SensitiveItems.isVisible item)
                (SensitiveItems.sameType (SensitiveItems.type item) t))
        items.
Proof.
  unfold SensitiveItems.toggleDataVisibility.
  repeat split; rewrite ?map_map.
  - rewrite <- (map_id items) at 2. apply map_ext.
    intros [ty v vis]. cbn.
    destruct (SensitiveItems.sameType ty t) eqn:E; cbn; rewrite ?E;
      [rewrite negb_involutive |]; reflexivity.
  - apply map_ext. intros [ty v vis]. cbn.
    destruct (SensitiveItems.sameType ty t); reflexivity.
  - apply map_ext. intros [ty v vis]. cbn.
    destruct (SensitiveItems.sameType ty t); reflexivity.
  - apply map_ext. intros [ty v vis]. cbn.
    destruct (SensitiveItems.sameType ty t), vis; reflexivity.
Qed.

Lemma has_remove (x y : string) (set : list string) :
  SensitiveItems.has y (SensitiveItems.remove x set)
  = negb (String.eqb x y) && SensitiveItems.has y set.
Proof.
  unfold SensitiveItems.has, SensitiveItems.remove.
  induction set as [| z r IH]; cbn; [rewrite andb_false_r; reflexivity |].
  destruct (String.eqb_spec x z) as [-> | Hxz]; cbn.
  - rewrite IH. destruct (String.eqb_spec y z) as [-> | Hyz]; cbn.
    + rewrite String.eqb_refl. reflexivity.
    + reflexivity.
  - rewrite IH. destruct (String.eqb_spec y z) as [-> | Hyz]; cbn.
    + destruct (String.eqb_spec x z); [contradiction | reflexivity].
    + reflexivity.
Qed.

Lemma has_add (x y : string) (set : list string) :
  SensitiveItems.has y (SensitiveItems.add x set)
  = String.eqb x y || SensitiveItems.has y set.
Proof.
  unfold SensitiveItems.add.
  destruct (SensitiveItems.has x set) eqn:Hx.
  - destruct (String.eqb_spec x y) as [-> | _]; [rewrite Hx |]; reflexivity.
  - unfold SensitiveItems.has. rewrite existsb_app. cbn.
    rewrite orb_false_r, orb_comm, (String.eqb_sym y x). reflexivity.
Qed.

(** The legacy editor's toggle on the set of visible ids: one toggle
    flips the membership of that id only, so a second toggle brings
    every id back to where it was. *)
Theorem legacyToggle_flips_one_id (x y : string) (visible : list string) :
  SensitiveItems.has y (SensitiveItems.legacyToggleDataVisibility x visible)
  = xorb (String.eqb x y) (SensitiveItems.has y visible) /\
  SensitiveItems.has y
    (SensitiveItems.legacyToggleDataVisibility x
       (SensitiveItems.legacyToggleDataVisibility x visible))
  = SensitiveItems.has y visible.
Proof.
  assert (Hone : forall set,
             SensitiveItems.has y
               (SensitiveItems.legacyToggleDataVisibility x set)
             = xorb (String.eqb x y) (SensitiveItems.has y set)).
  { intro set. unfold SensitiveItems.legacyToggleDataVisibility.
    destruct (SensitiveItems.has x set) eqn:Hx.
    - rewrite has_remove.
      destruct (String.eqb_spec x y) as [-> | _]; [rewrite Hx |];
        cbn; [reflexivity |].
      destruct (SensitiveItems.has y set); reflexivity.
    - rewrite has_add.
      destruct (String.eqb_spec x y) as [-> | _]; [rewrite Hx |];
        cbn; [reflexivity |].
      destruct (SensitiveItems.has y set); reflexivity. }
  split; [apply Hone |].
  rewrite !Hone.
  destruct (String.eqb x y), (SensitiveItems.has y visible); reflexivity.
Qed.

(* ================================================================= *)
(** ** The legacy auth context *)

Module LegacyFacts.
Import LegacyProvider.

Lemma getItem_removeItem_same (k : string) (st : Storage) :
  getItem k (removeItem k st) = None.
Proof.
  induction st as [| [k' v] r IH]; cbn; [reflexivity |].
  destruct (String.eqb k k') eqn:E; [exact IH |]. cbn. rewrite E. exact IH.
Qed.

Lemma getItem_removeItem_other (k other : string) (st : Storage) :
  other <> k -> getItem other (removeItem k st) = getItem other st.
Proof.
  intro Hne. induction st as [| [k' v] r IH]; cbn; [reflexivity |].
  destruct (String.eqb_spec k k') as [-> | Hk]; cbn.
  - rewrite IH. destruct (String.eqb_spec other k'); [contradiction | reflexivity].
  - rewrite IH. reflexivity.
Qed.

Lemma getItem_app_none (k : string) (a b : Storage) :
  getItem k a = None -> getItem k (a ++ b)%list = getItem k b.
Proof.
  induction a as [| [k' v] r IH]; cbn; [reflexivity |].
  destruct (String.eqb k k'); [discriminate | exact IH].
Qed.

Lemma getItem_app_some (k : string) (a b : Storage) (v : Stored) :
  getItem k a = Some v -> getItem k (a ++ b)%list = Some v.
Proof.
  induction a as [| [k' v'] r IH]; cbn; [discriminate |].
  destruct (String.eqb k k'); [auto | exact IH].
Qed.

Lemma getItem_setItem_same (k : string) (v : Stored) (st : Storage) :
  getItem k (setItem k v st) = Some v.
Proof.
  unfold setItem. rewrite getItem_app_none by apply getItem_removeItem_same.
  cbn. rewrite String.eqb_refl. reflexivity.
Qed.

Lemma getItem_setItem_other (k other : string) (v : Stored) (st : Storage) :
  other <> k -> getItem other (setItem k v st) = getItem other st.
Proof.
  intro Hne. unfold setItem.
  destruct (getItem other st) as [v' |] eqn:E.
  - apply getItem_app_some. rewrite getItem_removeItem_other by exact Hne.
    exact E.
  - rewrite getItem_app_none
      by (rewrite getItem_removeItem_other by exact Hne; exact E).
    cbn. destruct (String.eqb_spec other k); [contradiction | reflexivity].
Qed.

End LegacyFacts.




(** Legacy auth context, session round trip: whatever the email, the
    password and the code, [login] succeeds, and a provider created
    afterwards over the same [localStorage] comes up authenticated as
    the same user; after [logout] the three keys are gone, a new
    provider comes up signed out, and [refreshToken] answers [false]. *)
Theorem legacy_session_round_trip (clock clock' : LegacyProvider.Clock)
    (email password : string) (code : option string)
    (s : LegacyProvider.State) :
  let s1 := snd (LegacyProvider.login clock email password code s) in
  fst (LegacyProvider.login clock email password code s) = true /\
  LegacyProvider.mountEffect (LegacyProvider.fresh (LegacyProvider.storage s1))
  = Some {| LegacyProvider.storage := LegacyProvider.storage s1;
            LegacyProvider.user := LegacyProvider.user s1;
            LegacyProvider.isAuthenticated := true;
            LegacyProvider.toasts := [] |} /\
  let s2 := LegacyProvider.logout s1 in
  (forall k, In k ["accessToken"; "refreshToken"; "userData"] ->
     LegacyProvider.getItem k (LegacyProvider.storage s2) = None) /\
  LegacyProvider.mountEffect (LegacyProvider.fresh (LegacyProvider.storage s2))
  = Some (LegacyProvider.fresh (LegacyProvider.storage s2)) /\
  fst (LegacyProvider.refreshToken clock' s2) = false.
Proof.
  cbv zeta. split; [reflexivity |]. split.
  - unfold LegacyProvider.mountEffect, LegacyProvider.login. cbn -[LegacyProvider.setItem LegacyProvider.getItem Js.ofNumber Js.split].
    rewrite LegacyFacts.getItem_setItem_same.
    rewrite 2 LegacyFacts.getItem_setItem_other by discriminate.
    rewrite LegacyFacts.getItem_setItem_same. reflexivity.
  - assert (Hgone : forall k st,
               In k ["accessToken"; "refreshToken"; "userData"] ->
               LegacyProvider.getItem k
                 (LegacyProvider.removeItem "userData"
                    (LegacyProvider.removeItem "refreshToken"
                       (LegacyProvider.removeItem "accessToken" st))) = None).
    { intros k st [<- | [<- | [<- | []]]].
      - rewrite 2 LegacyFacts.getItem_removeItem_other by discriminate.
        apply LegacyFacts.getItem_removeItem_same.
      - rewrite LegacyFacts.getItem_removeItem_other by discriminate.
        apply LegacyFacts.getItem_removeItem_same.
      - apply LegacyFacts.getItem_removeItem_same. }
    split; [| split].
    + intros k Hk. apply Hgone. exact Hk.
    + unfold LegacyProvider.mountEffect, LegacyProvider.logout.
      cbn -[LegacyProvider.removeItem LegacyProvider.getItem LegacyProvider.login].
      rewrite Hgone by (left; reflexivity). reflexivity.
    + unfold LegacyProvider.refreshToken, LegacyProvider.logout.
      cbn -[LegacyProvider.removeItem LegacyProvider.getItem LegacyProvider.login].
      rewrite Hgone by (right; left; reflexivity). reflexivity.
Qed.

(** Legacy [refreshToken]: with a non-empty refresh token in storage
    it answers [true], renews only the access token and leaves the
    session as it is; without one it answers [false] and the provider
    is signed out with the storage keys removed. *)
Theorem legacy_refreshToken (clock : LegacyProvider.Clock)
    (s : LegacyProvider.State) :
  let r := LegacyProvider.refreshToken clock s in
  if LegacyProvider.truthy
       (LegacyProvider.getItem "refreshToken" (LegacyProvider.storage s))
  then
    fst r = true /\
    LegacyProvider.user (snd r) = LegacyProvider.user s /\
    LegacyProvider.isAuthenticated (snd r) = LegacyProvider.isAuthenticated s /\
    LegacyProvider.getItem "accessToken" (LegacyProvider.storage (snd r))
    = Some (LegacyProvider.Text
              ("mock_access_token_" ++ Js.ofNumber (LegacyProvider.now1 clock))) /\
    (forall k, k <> "accessToken" ->
       LegacyProvider.getItem k (LegacyProvider.storage (snd r))
       = LegacyProvider.getItem k (LegacyProvider.storage s))
  else
    fst r = false /\
    LegacyProvider.user (snd r) = None /\
    LegacyProvider.isAuthenticated (snd r) = false /\
    LegacyProvider.getItem "accessToken" (LegacyProvider.storage (snd r)) = None /\
    LegacyProvider.getItem "userData" (LegacyProvider.storage (snd r)) = None.
Proof.
  cbv zeta. unfold LegacyProvider.refreshToken.
  destruct (LegacyProvider.truthy
              (LegacyProvider.getItem "refreshToken" (LegacyProvider.storage s)));
    cbn -[LegacyProvider.setItem LegacyProvider.getItem LegacyProvider.removeItem Js.ofNumber].
  - repeat split.
    + apply LegacyFacts.getItem_setItem_same.
    + intros k Hk. apply LegacyFacts.getItem_setItem_other. exact Hk.
  - repeat split.
    + rewrite 2 LegacyFacts.getItem_removeItem_other by discriminate.
      apply LegacyFacts.getItem_removeItem_same.
    + apply LegacyFacts.getItem_removeItem_same.
Qed.

(** Legacy [register] writes the new profile under [userData] and
    touches neither the tokens nor the provider's cells; so with an
    access token still in storage, the next provider comes up
    authenticated as the user just registered. *)
Theorem legacy_register_replaces_stored_profile (clock : LegacyProvider.Clock)
    (email password name : string) (s : LegacyProvider.State) :
  let s1 := snd (LegacyProvider.register clock email password name s) in
  LegacyProvider.user s1 = LegacyProvider.user s /\
  LegacyProvider.isAuthenticated s1 = LegacyProvider.isAuthenticated s /\
  LegacyProvider.getItem "accessToken" (LegacyProvider.storage s1)
  = LegacyProvider.getItem "accessToken" (LegacyProvider.storage s) /\
  (LegacyProvider.truthy
     (LegacyProvider.getItem "accessToken" (LegacyProvider.storage s)) = true ->
   exists u,
     LegacyProvider.mountEffect
       (LegacyProvider.fresh (LegacyProvider.storage s1))
     = Some {| LegacyProvider.storage := LegacyProvider.storage s1;
               LegacyProvider.user := Some u;
               LegacyProvider.isAuthenticated := true;
               LegacyProvider.toasts := [] |} /\
     LegacyProvider.email u = email /\ LegacyProvider.name u = name).
Proof.
  cbv zeta. unfold LegacyProvider.register.
  cbn -[LegacyProvider.setItem LegacyProvider.getItem Js.ofNumber].
  split; [reflexivity |]. split; [reflexivity |].
  split; [apply LegacyFacts.getItem_setItem_other; discriminate |].
  intro Htoken. eexists. split.
  - unfold LegacyProvider.mountEffect.
    cbn -[LegacyProvider.setItem LegacyProvider.getItem Js.ofNumber].
    rewrite LegacyFacts.getItem_setItem_other by discriminate.
    rewrite Htoken, LegacyFacts.getItem_setItem_same. reflexivity.
  - split; reflexivity.
Qed.

Lemma legacy_register_replaces_stored_profile_witness :
  let clock := {| LegacyProvider.now1 := 1700000000000;
                  LegacyProvider.now2 := 1700000000001;
                  LegacyProvider.iso := "2023-11-14T22:13:20.000Z" |} in
  let s := snd (LegacyProvider.login clock "a@b.c" "pw" None
                  (LegacyProvider.fresh [])) in
  exists u,
    LegacyProvider.mountEffect
      (LegacyProvider.fresh
         (LegacyProvider.storage
            (snd (LegacyProvider.register clock "eve@x.y" "pw2" "Eve" s))))
    = Some {| LegacyProvider.storage :=
                LegacyProvider.storage
                  (snd (LegacyProvider.register clock "eve@x.y" "pw2" "Eve" s));
              LegacyProvider.user := Some u;
              LegacyProvider.isAuthenticated := true;
              LegacyProvider.toasts := [] |} /\
    LegacyProvider.email u = "eve@x.y" /\ LegacyProvider.name u = "Eve".
Proof.
  intros clock s.
  exact (proj2 (proj2 (proj2
           (legacy_register_replaces_stored_profile clock "eve@x.y" "pw2"
              "Eve" s))) eq_refl).
Defined.

(* ================================================================= *)
(** ** What the masks hide *)

Lemma chars_substring (s : string) :
  forall n m,
    list_ascii_of_string (String.substring n m s)
    = firstn m (skipn n (list_ascii_of_string s)).
Proof.
  induction s as [| c s IH]; intros [| n] [| m]; cbn; try reflexivity.
  - rewrite IH. reflexivity.
  - rewrite IH. reflexivity.
  - rewrite IH. reflexivity.
Qed.

Lemma chars_append (a b : string) :
  list_ascii_of_string (a ++ b)
  = (list_ascii_of_string a ++ list_ascii_of_string b)%list.
Proof. induction a as [| c a IH]; cbn; [reflexivity | rewrite IH; reflexivity]. Qed.

Lemma chars_length (s : string) :
  List.length (list_ascii_of_string s) = String.length s.
Proof. induction s as [| c s IH]; cbn; [reflexivity | rewrite IH; reflexivity]. Qed.

Lemma chars_inj (a b : string) :
  list_ascii_of_string a = list_ascii_of_string b -> a = b.
Proof.
  intro H. rewrite <- (string_of_list_ascii_of_string a),
             <- (string_of_list_ascii_of_string b), H. reflexivity.
Qed.

Lemma js_substring_prefix (k : nat) (s : string) :
  (k <= String.length s)%nat -> Js.substring 0 k s = String.substring 0 k s.
Proof.
  intro H. unfold Js.substring. cbn [Nat.min].
  rewrite (Nat.min_l k) by exact H. rewrite Nat.max_r by lia.
  rewrite Nat.sub_0_r. reflexivity.
Qed.

Lemma js_slice_suffix (k : nat) (s : string) :
  (0 < k <= String.length s)%nat ->
  Js.slice (- Z.of_nat k) s = String.substring (String.length s - k) k s.
Proof.
  intro H. unfold Js.slice.
  destruct (Z.ltb_spec (- Z.of_nat k) 0) as [_ | Hge]; [| lia].
  rewrite Z.max_l by lia.
  replace (Z.to_nat (Z.of_nat (String.length s) + - Z.of_nat k))
    with (String.length s - k)%nat by lia.
  replace (Z.to_nat (Z.of_nat (String.length s)
                     - (Z.of_nat (String.length s) + - Z.of_nat k)))
    with k by lia.
  reflexivity.
Qed.

(** The IBAN mask of the current editor shows the first 8 and the
    last 4 characters.  For a value of 9 to 12 characters the two
    parts overlap or touch, so the masked text contains the whole
    value; only from 13 characters on is anything hidden, namely the
    [length - 12] characters in between. *)
Theorem iban_mask_discloses_values_up_to_12 (value : string) :
  (8 < String.length value)%nat ->
  let shown_first := String.substring 0 8 value in
  let shown_last := String.substring (String.length value - 4) 4 value in
  SensitiveDataManager.maskSensitiveValue value "iban"
  = (shown_first ++ " **** **** **** " ++ shown_last)%string /\
  ((String.length value <= 12)%nat ->
   value = (shown_first
            ++ String.substring (12 - String.length value)
                 (String.length value - 8) shown_last)%string) /\
  ((12 < String.length value)%nat ->
   exists hidden,
     value = (shown_first ++ hidden ++ shown_last)%string /\
     String.length hidden = (String.length value - 12)%nat).
Proof.
  intros Hlen shown_first shown_last. subst shown_first shown_last.
  split; [| split].
  - rewrite mask_iban_guard_off by exact Hlen.
    rewrite js_substring_prefix by lia.
    change (-4) with (- Z.of_nat 4). rewrite js_slice_suffix by lia.
    reflexivity.
  - intro Hshort. apply chars_inj.
    rewrite chars_append, !chars_substring.
    pose proof (chars_length value) as Hl.
    set (l := list_ascii_of_string value) in *.
    cbn [skipn]. rewrite skipn_firstn_comm, skipn_skipn.
    replace (12 - String.length value + (String.length value - 4))%nat
      with 8%nat by lia.
    rewrite firstn_firstn.
    rewrite (firstn_all2 (n := Nat.min _ _)) by (rewrite length_skipn; lia).
    symmetry. apply firstn_skipn.
  - intro Hlong.
    exists (String.substring 8 (String.length value - 12) value).
    split.
    + apply chars_inj. rewrite !chars_append, !chars_substring.
      pose proof (chars_length value) as Hl.
      set (l := list_ascii_of_string value) in *. cbn [skipn].
      rewrite <- (firstn_skipn 8 l) at 1. f_equal.
      rewrite <- (firstn_skipn (String.length value - 12) (skipn 8 l)) at 1.
      f_equal. rewrite skipn_skipn.
      replace (String.length value - 12 + 8)%nat
        with (String.length value - 4)%nat by lia.
      symmetry. apply firstn_all2. rewrite length_skipn. lia.
    + rewrite <- chars_length, chars_substring, length_firstn, length_skipn,
        chars_length. lia.
Qed.

Lemma iban_mask_discloses_values_up_to_12_witness :
  "IT60X0542811"
  = (String.substring 0 8 "IT60X0542811"
     ++ String.substring 0 4 (String.substring 8 4 "IT60X0542811"))%string /\
  SensitiveDataManager.maskSensitiveValue "IT60X0542811" "iban"
  = "IT60X054 **** **** **** 2811".
Proof.
  destruct (iban_mask_discloses_values_up_to_12 "IT60X0542811"
              ltac:(cbn; lia)) as (Hmask & Hshort & _).
  split; [exact (Hshort ltac:(cbn; lia)) | exact Hmask].
Defined.

(** The fiscal-code mask of the current editor shows the first 3 and
    the last 3 characters of a value longer than 6 and hides the
    [length - 6] characters in between, at least one. *)
Theorem fiscal_code_mask_hides_the_middle (value : string) :
  (6 < String.length value)%nat ->
  exists hidden,
    SensitiveDataManager.maskSensitiveValue value "fiscal_code"
    = (String.substring 0 3 value ++ "***"
       ++ String.substring (String.length value - 3) 3 value)%string /\
    value = (String.substring 0 3 value ++ hidden
             ++ String.substring (String.length value - 3) 3 value)%string /\
    String.length hidden = (String.length value - 6)%nat /\
    (0 < String.length hidden)%nat.
Proof.
  intro Hlen.
  exists (String.substring 3 (String.length value - 6) value).
  assert (Hhidden : String.length
                      (String.substring 3 (String.length value - 6) value)
                    = (String.length value - 6)%nat).
  { rewrite <- chars_length, chars_substring, length_firstn, length_skipn,
      chars_length. lia. }
  split; [| split; [| split]].
  - rewrite mask_fiscal_guard_off by exact Hlen.
    rewrite js_substring_prefix by lia.
    change (-3) with (- Z.of_nat 3). rewrite js_slice_suffix by lia.
    reflexivity.
  - apply chars_inj. rewrite !chars_append, !chars_substring.
    pose proof (chars_length value) as Hl.
    set (l := list_ascii_of_string value) in *. cbn [skipn].
    rewrite <- (firstn_skipn 3 l) at 1. f_equal.
    rewrite <- (firstn_skipn (String.length value - 6) (skipn 3 l)) at 1.
    f_equal. rewrite skipn_skipn.
    replace (String.length value - 6 + 3)%nat
      with (String.length value - 3)%nat by lia.
    symmetry. apply firstn_all2. rewrite length_skipn. lia.
  - exact Hhidden.
  - rewrite Hhidden. lia.
Qed.

Lemma fiscal_code_mask_hides_the_middle_witness :
  exists hidden,
    SensitiveDataManager.maskSensitiveValue "RSSMRA80A01H501U" "fiscal_code"
    = (String.substring 0 3 "RSSMRA80A01H501U" ++ "***"
       ++ String.substring (String.length "RSSMRA80A01H501U" - 3) 3
            "RSSMRA80A01H501U")%string /\
    "RSSMRA80A01H501U"
    = (String.substring 0 3 "RSSMRA80A01H501U" ++ hidden
       ++ String.substring (String.length "RSSMRA80A01H501U" - 3) 3
            "RSSMRA80A01H501U")%string /\
    String.length hidden = (String.length "RSSMRA80A01H501U" - 6)%nat /\
    (0 < String.length hidden)%nat.
Proof.
  exact (fiscal_code_mask_hides_the_middle "RSSMRA80A01H501U"
           ltac:(cbn; lia)).
Defined.

(* ================================================================= *)
(** ** Form handlers *)

Lemma newlySent_same {World} (s : St World) : newlySent s s = [].
Proof. apply newlySent_app. symmetry. apply app_nil_r. Qed.

Lemma truthyStr_false (s : string) : Js.truthyStr s = false -> s = "".
Proof.
  unfold Js.truthyStr. destruct (String.eqb_spec s ""); [auto | discriminate].
Qed.

Section FormFacts.

Context {World : Type}.
Variable serve : World -> Config -> Raw * World.
Variable toUpperCase : string -> string.

(** [LoginForm.handleSubmit] sends nothing when the email or the
    password is empty, or when the 2FA step is shown and the code is
    not exactly 6 characters long: the page is left as it was, the
    attempt counter is unchanged and one error notice is raised. *)
Theorem handleSubmit_guards (fuel : nat) (f : LoginFormState) (s : St World) :
  formEmail f = "" \/ formPassword f = "" \/
  (show2FA f = true /\ String.length (twoFactorCode f) <> 6%nat) ->
  exists msg,
    handleSubmit serve toUpperCase fuel f s
    = Some (Resolved (loginNotice f (NoticeError msg)), s).
Proof.
  intro Hguard. unfold handleSubmit.
  destruct (Js.truthyStr (formEmail f)) eqn:He; cbn [negb orb];
    [| eexists; reflexivity].
  destruct (Js.truthyStr (formPassword f)) eqn:Hp; cbn [negb orb];
    [| eexists; reflexivity].
  destruct Hguard as [H | [H | (Hshow & Hlen)]].
  - rewrite H in He. discriminate.
  - rewrite H in Hp. discriminate.
  - rewrite Hshow. cbn [andb].
    destruct (Js.truthyStr (twoFactorCode f)); cbn [negb];
      [| eexists; reflexivity].
    destruct (Nat.eqb_spec (String.length (twoFactorCode f)) 6);
      [contradiction |].
    cbn. eexists; reflexivity.
Qed.

(** [LoginForm.handleSubmit], once the provider's [login] has
    completed: the loading flag is off again; the attempt counter is
    reset by a success, left alone when a TOTP code is asked for or
    when a login fails while the 2FA step is shown, and incremented
    by one on any other failure; the 2FA step is shown after a
    TOTP-required result and hidden after a success. *)
Theorem handleSubmit_counts_attempts (fuel : nat) (f : LoginFormState)
    (s : St World) (o : Outcome LoginResult) (s1 : St World) :
  formEmail f <> "" ->
  formPassword f <> "" ->
  (show2FA f = true -> String.length (twoFactorCode f) = 6%nat) ->
  login serve toUpperCase fuel (formEmail f) (formPassword f)
    (if show2FA f then Some (twoFactorCode f) else None) s = Some (o, s1) ->
  exists f',
    handleSubmit serve toUpperCase fuel f s = Some (Resolved f', s1) /\
    formIsLoading f' = false /\
    match o with
    | Resolved r =>
        if success r then loginAttempts f' = 0 /\ show2FA f' = false
        else if isTotpRequired r
             then loginAttempts f' = loginAttempts f /\ show2FA f' = true
        else if show2FA f then loginAttempts f' = loginAttempts f
        else loginAttempts f' = loginAttempts f + 1
    | Rejected _ => loginAttempts f' = loginAttempts f + 1
    end.
Proof.
  intros He Hp Hcode Hlogin. unfold handleSubmit.
  assert (Het : Js.truthyStr (formEmail f) = true).
  { destruct (Js.truthyStr (formEmail f)) eqn:E; [reflexivity |].
    apply truthyStr_false in E. contradiction. }
  assert (Hpt : Js.truthyStr (formPassword f) = true).
  { destruct (Js.truthyStr (formPassword f)) eqn:E; [reflexivity |].
    apply truthyStr_false in E. contradiction. }
  rewrite Het, Hpt. cbn [negb orb].
  assert (Hgo : show2FA f && negb (Js.truthyStr (twoFactorCode f)) = false /\
                show2FA f && Js.truthyStr (twoFactorCode f)
                && negb (Nat.eqb (String.length (twoFactorCode f)) 6) = false).
  { destruct (show2FA f) eqn:Hs; [| split; reflexivity].
    specialize (Hcode eq_refl).
    rewrite truthyStr_of_length by lia. rewrite Hcode. split; reflexivity. }
  destruct Hgo as (-> & ->).
  unfold bind, attempt. rewrite Hlogin.
  eexists. split; [reflexivity |]. split; [reflexivity |].
  destruct o as [r | e].
  - unfold afterLogin. destruct (success r); [split; reflexivity |].
    destruct (isTotpRequired r); [split; reflexivity |].
    destruct (show2FA f) eqn:Hs; reflexivity.
  - unfold afterLoginError. destruct (show2FA f); reflexivity.
Qed.

(** [TOTPManager.handleVerifyAndEnable] for a signed-in user and a
    non-empty code: the enable request is issued only after the
    verify call resolved with a truthy [valid]; in every other case
    nothing is sent after the verify call and [isEnabled] keeps its
    value; [isEnabled] becomes [true] only if the enable call
    resolved as well. *)
Theorem totp_enabled_only_after_valid_verification (fuel : nat)
    (t : TotpState) (s : St World) (userId : Z)
    (o : Outcome Json) (s1 : St World) :
  currentUserId (auth s) = Some userId ->
  verificationCode t <> "" ->
  authService_twoFactor_totp_verify serve fuel userId (verificationCode t) s
  = Some (o, s1) ->
  let accepted :=
    match o with
    | Resolved verifyResult =>
        match Js.get "valid" verifyResult with
        | Some valid => Js.truthy valid
        | None => false
        end
    | Rejected _ => false
    end in
  if accepted then
    forall o2 s2,
      authService_twoFactor_totp_enable serve fuel userId (verificationCode t) s1
      = Some (o2, s2) ->
      exists t',
        handleVerifyAndEnable serve fuel t s = Some (Resolved t', s2) /\
        isVerifying t' = false /\
        isEnabled t' = (resolved o2 || isEnabled t)%bool
  else
    exists t',
      handleVerifyAndEnable serve fuel t s = Some (Resolved t', s1) /\
      isVerifying t' = false /\
      isEnabled t' = isEnabled t.
Proof.
  intros Huser Hcode Hverify accepted. subst accepted.
  assert (Hct : Js.truthyStr (verificationCode t) = true).
  { destruct (Js.truthyStr (verificationCode t)) eqn:E; [reflexivity |].
    apply truthyStr_false in E. contradiction. }
  assert (Hrun : handleVerifyAndEnable serve fuel t s
                 = bind (attempt
                     (bind (authService_twoFactor_totp_verify serve fuel userId
                              (verificationCode t))
                        (fun verifyResult =>
                           bind (orTypeError World (Js.get "valid" verifyResult))
                             (fun valid =>
                                if Js.truthy valid then
                                  bind (authService_twoFactor_totp_enable serve
                                          fuel userId (verificationCode t))
                                    (fun _ => ret (enabled (withVerifying true t)))
                                else
                                  ret (totpNotice (withVerifying true t)
                                         (NoticeError
                                            (JStr "Codice non valido. Riprova.")))))))
                     (fun ran =>
                        ret (withVerifying false
                               match ran with
                               | Resolved t' => t'
                               | Rejected _ =>
                                   totpNotice (withVerifying true t)
                                     (NoticeError
                                        (JStr "Errore durante la verifica del codice"))
                               end)) s).
  { unfold handleVerifyAndEnable, bind at 1, getAuth. rewrite Huser, Hct.
    reflexivity. }
  destruct o as [verifyResult | e].
  - destruct (Js.get "valid" verifyResult) as [valid |] eqn:Hvalid.
    + destruct (Js.truthy valid) eqn:Htruthy.
      * intros o2 s2 Henable. rewrite Hrun.
        unfold bind, attempt. rewrite Hverify, Hvalid. cbn.
        rewrite Htruthy, Henable.
        destruct o2; eexists; (split; [reflexivity |]); split; reflexivity.
      * rewrite Hrun. unfold bind, attempt. rewrite Hverify, Hvalid. cbn.
        rewrite Htruthy. eexists. split; [reflexivity |]. split; reflexivity.
    + rewrite Hrun. unfold bind, attempt. rewrite Hverify, Hvalid. cbn.
      eexists. split; [reflexivity |]. split; reflexivity.
  - rewrite Hrun. unfold bind, attempt. rewrite Hverify.
    eexists. split; [reflexivity |]. split; reflexivity.
Qed.

(** [PasswordChangeForm.handlePasswordChange].  A form with an empty
    password field, a confirmation that differs from the new
    password, a weak new password or, for a user with TOTP enabled,
    an empty code is refused on the spot: one error notice, nothing
    sent, the page as it was, whatever the fuel.  Any other form goes
    to the provider's [changePassword]; once that has completed the
    handler ends with the loading flag off, the fields emptied after
    a success and kept otherwise. *)
Theorem handlePasswordChange_guards (fuel : nat) (p : PasswordFormState)
    (s : St World) :
  (currentPassword p = "" \/ newPassword p = "" \/ confirmPassword p = "" \/
   newPassword p <> confirmPassword p \/
   passwordStrength p = PasswordChangeForm.weak \/
   (userTotpEnabled (auth s) = true /\ totpCode p = "") ->
   exists msg,
     handlePasswordChange serve fuel p s
     = Some (Resolved (pwNotice p (NoticeError msg)), s)) /\
  (currentPassword p <> "" ->
   newPassword p <> "" ->
   confirmPassword p <> "" ->
   newPassword p = confirmPassword p ->
   passwordStrength p <> PasswordChangeForm.weak ->
   (userTotpEnabled (auth s) = true -> totpCode p <> "") ->
   forall ran s1,
     changePassword serve fuel (currentPassword p) (newPassword p)
       (if userTotpEnabled (auth s) then Some (totpCode p) else None)
       (if userTotpEnabled (auth s) then Some "totp" else None) s
     = Some (ran, s1) ->
     exists p',
       handlePasswordChange serve fuel p s = Some (Resolved p', s1) /\
       pwIsLoading p' = false /\
       match ran with
       | Resolved result =>
           if ok result
           then currentPassword p' = "" /\ newPassword p' = "" /\
                confirmPassword p' = "" /\ totpCode p' = ""
           else newPassword p' = newPassword p /\
                List.length (pwNotices p') = S (List.length (pwNotices p))
       | Rejected _ =>
           newPassword p' = newPassword p /\
           List.length (pwNotices p') = S (List.length (pwNotices p))
       end).
Proof.
  assert (Hfilled : forall x, x <> "" -> Js.truthyStr x = true)
    by (intros [| c r] Hx; [contradiction | reflexivity]).
  split.
  - intro Hrefused.
    unfold handlePasswordChange, bind at 1, getAuth.
    destruct (Js.truthyStr (currentPassword p)) eqn:Hc; cbn [negb orb];
      [| eexists; reflexivity].
    destruct (Js.truthyStr (newPassword p)) eqn:Hn; cbn [negb orb];
      [| eexists; reflexivity].
    destruct (Js.truthyStr (confirmPassword p)) eqn:Hf; cbn [negb];
      [| eexists; reflexivity].
    destruct (String.eqb_spec (newPassword p) (confirmPassword p))
      as [Heq | Hne]; cbn [negb]; [| eexists; reflexivity].
    destruct (isWeak (passwordStrength p)) eqn:Hw; [eexists; reflexivity |].
    destruct (userTotpEnabled (auth s)) eqn:Ht; cbn [andb].
    + destruct (Js.truthyStr (totpCode p)) eqn:Hcode; cbn [negb];
        [| eexists; reflexivity].
      exfalso.
      destruct Hrefused as [E | [E | [E | [E | [E | [_ E]]]]]].
      * rewrite E in Hc. discriminate.
      * rewrite E in Hn. discriminate.
      * rewrite E in Hf. discriminate.
      * contradiction.
      * rewrite E in Hw. discriminate.
      * rewrite E in Hcode. discriminate.
    + exfalso.
      destruct Hrefused as [E | [E | [E | [E | [E | [E _]]]]]].
      * rewrite E in Hc. discriminate.
      * rewrite E in Hn. discriminate.
      * rewrite E in Hf. discriminate.
      * contradiction.
      * rewrite E in Hw. discriminate.
      * discriminate.
  - intros Hc Hn Hf Heq Hstrength Hcode ran s1 Hrun.
    unfold handlePasswordChange, bind at 1, getAuth.
    rewrite (Hfilled _ Hc), (Hfilled _ Hn), (Hfilled _ Hf). cbn [negb orb].
    rewrite Heq, String.eqb_refl. cbn [negb].
    assert (Hw : isWeak (passwordStrength p) = false)
      by (destruct (passwordStrength p); [contradiction | |]; reflexivity).
    rewrite Hw.
    assert (Hgo : userTotpEnabled (auth s)
                  && negb (Js.truthyStr (totpCode p)) = false).
    { destruct (userTotpEnabled (auth s)); [| reflexivity].
      rewrite (Hfilled _ (Hcode eq_refl)). reflexivity. }
    rewrite Hgo. unfold bind, attempt.
    rewrite <- Heq. rewrite Hrun.
    eexists. split; [reflexivity |].
    destruct ran as [result | e]; [destruct (ok result) |]; cbn;
      rewrite ?length_app; cbn; repeat split; lia.
Qed.

End FormFacts.

Lemma handleSubmit_guards_witness :
  exists msg,
    handleSubmit scripted Js.asciiToUpperCase 1 (sampleLoginForm "a@b.c" "pw" "12345" true 2)
      (freshPage [Answer 200 JNull])
    = Some (Resolved (loginNotice (sampleLoginForm "a@b.c" "pw" "12345" true 2)
                        (NoticeError msg)),
            freshPage [Answer 200 JNull]).
Proof.
  apply (handleSubmit_guards scripted Js.asciiToUpperCase 1
           (sampleLoginForm "a@b.c" "pw" "12345" true 2)).
  right. right. split; [reflexivity | cbn; discriminate].
Defined.

Lemma handleSubmit_counts_attempts_witness :
  let f := sampleLoginForm "a@b.c" "pw" "" false 2 in
  let s := freshPage [Answer 400 (JObj [("error", JStr "Bad credentials")])] in
  exists f' s1,
    handleSubmit scripted Js.asciiToUpperCase 1 f s = Some (Resolved f', s1) /\
    formIsLoading f' = false /\
    loginAttempts f' = 3.
Proof.
  intros f s.
  destruct (login scripted Js.asciiToUpperCase 1 "a@b.c" "pw" None s) as [[o s1] |] eqn:E;
    [| vm_compute in E; discriminate E].
  destruct (handleSubmit_counts_attempts scripted Js.asciiToUpperCase 1 f s o s1
              ltac:(discriminate) ltac:(discriminate)
              ltac:(discriminate) E) as (f' & Hrun & Hload & Hcount).
  exists f', s1. split; [exact Hrun |]. split; [exact Hload |].
  vm_compute in E. inversion E; subst o. exact Hcount.
Defined.

Lemma totp_enabled_only_after_valid_verification_witness :
  let s := signedInPage [Answer 200 (JObj [("valid", JBool false)]);
                         Answer 200 JNull] in
  exists t',
    handleVerifyAndEnable scripted 1 (sampleTotp "123456") s
    = Some (Resolved t',
            afterSend s
              (apiDefaults POST "/users/1/totp/verify"
                 (JObj [("totp_code", JStr "123456")]) [])
              [Answer 200 JNull]) /\
    isVerifying t' = false /\
    isEnabled t' = false.
Proof.
  intro s.
  exact (totp_enabled_only_after_valid_verification scripted 1
           (sampleTotp "123456") s 1
           (Resolved (JObj [("valid", JBool false)]))
           (afterSend s
              (apiDefaults POST "/users/1/totp/verify"
                 (JObj [("totp_code", JStr "123456")]) [])
              [Answer 200 JNull])
           eq_refl ltac:(discriminate) eq_refl).
Defined.

Lemma handlePasswordChange_guards_witness :
  let refused := {| currentPassword := "old"; newPassword := "N3w!passw0rd";
                    confirmPassword := "N3w!password"; totpCode := "";
                    pwIsLoading := false;
                    passwordStrength := PasswordChangeForm.strong;
                    pwNotices := [] |} in
  let accepted := {| currentPassword := "old"; newPassword := "N3w!passw0rd";
                     confirmPassword := "N3w!passw0rd"; totpCode := "";
                     pwIsLoading := false;
                     passwordStrength := PasswordChangeForm.strong;
                     pwNotices := [] |} in
  let s := signedInPage [Answer 200 (JObj [])] in
  (exists msg,
      handlePasswordChange scripted 0 refused s
      = Some (Resolved (pwNotice refused (NoticeError msg)), s)) /\
  (exists p' s1,
      handlePasswordChange scripted 1 accepted s = Some (Resolved p', s1) /\
      pwIsLoading p' = false /\ newPassword p' = "").
Proof.
  intros refused accepted s. split.
  - apply (proj1 (handlePasswordChange_guards scripted 0 refused s)).
    right. right. right. left. discriminate.
  - destruct (changePassword scripted 1 "old" "N3w!passw0rd" None None s)
      as [[ran s1] |] eqn:E; [| vm_compute in E; discriminate E].
    destruct (proj2 (handlePasswordChange_guards scripted 1 accepted s)
                ltac:(discriminate) ltac:(discriminate) ltac:(discriminate)
                eq_refl ltac:(discriminate) ltac:(discriminate) ran s1 E)
      as (p' & Hrun & Hload & Hran).
    exists p', s1. split; [exact Hrun |]. split; [exact Hload |].
    vm_compute in E. inversion E; subst ran. exact (proj1 (proj2 Hran)).
Defined.

Lemma legacy_session_round_trip_witness :
  let clock := {| LegacyProvider.now1 := 1700000000000;
                  LegacyProvider.now2 := 1700000000001;
                  LegacyProvider.iso := "2023-11-14T22:13:20.000Z" |} in
  let s1 := snd (LegacyProvider.login clock "a@b.c" "anything" None
                   (LegacyProvider.fresh [])) in
  LegacyProvider.getItem "refreshToken"
    (LegacyProvider.storage (LegacyProvider.logout s1)) = None.
Proof.
  intros clock s1.
  destruct (legacy_session_round_trip clock clock "a@b.c" "anything" None
              (LegacyProvider.fresh [])) as (_ & _ & Hgone & _).
  apply Hgone. right. left. reflexivity.
Defined.

Lemma legacy_refreshToken_witness :
  let clock := {| LegacyProvider.now1 := 1700000000000;
                  LegacyProvider.now2 := 1700000000001;
                  LegacyProvider.iso := "2023-11-14T22:13:20.000Z" |} in
  let s := snd (LegacyProvider.login clock "a@b.c" "pw" None
                  (LegacyProvider.fresh [])) in
  LegacyProvider.getItem "userData"
    (LegacyProvider.storage (snd (LegacyProvider.refreshToken clock s)))
  = LegacyProvider.getItem "userData" (LegacyProvider.storage s).
Proof.
  intros clock s.
  pose proof (legacy_refreshToken clock s) as H.
  cbv zeta in H.
  change (LegacyProvider.truthy
            (LegacyProvider.getItem "refreshToken" (LegacyProvider.storage s)))
    with true in H.
  cbv iota in H.
  destruct H as (_ & _ & _ & _ & Hother).
  apply Hother. discriminate.
Defined.

(* ================================================================= *)
(** ** Reading cookies *)

Module CookieFacts.
Import CookieUtils.

Lemma test_cons (class : ascii -> bool) (c : ascii) (s : string) :
  Text.test class (String c s) = class c || Text.test class s.
Proof. reflexivity. Qed.

Lemma test_app (class : ascii -> bool) (a b : string) :
  Text.test class (a ++ b) = Text.test class a || Text.test class b.
Proof.
  induction a as [| c a IH]; [reflexivity |].
  cbn [append]. rewrite !test_cons, IH, orb_assoc. reflexivity.
Qed.

Lemma split_nonempty (sep : ascii) (s : string) : Js.split sep s <> [].
Proof.
  destruct s as [| c r]; cbn; [discriminate |].
  destruct (Ascii.eqb c sep); [discriminate |].
  destruct (Js.split sep r); discriminate.
Qed.

Lemma split_without (sep : ascii) (a : string) :
  Text.test (Ascii.eqb sep) a = false -> Js.split sep a = [a].
Proof.
  induction a as [| c a IH]; [reflexivity |].
  rewrite test_cons. intro H. apply orb_false_elim in H as (Hc & Ha).
  cbn [Js.split]. rewrite Ascii.eqb_sym, Hc, (IH Ha). reflexivity.
Qed.

Lemma split_at (sep : ascii) (a b : string) :
  Text.test (Ascii.eqb sep) a = false ->
  Js.split sep (a ++ String sep b) = a :: Js.split sep b.
Proof.
  induction a as [| c a IH]; intro H.
  - cbn. rewrite Ascii.eqb_refl. reflexivity.
  - rewrite test_cons in H. apply orb_false_elim in H as (Hc & Ha).
    cbn [append Js.split]. rewrite Ascii.eqb_sym, Hc, (IH Ha). reflexivity.
Qed.

Lemma join_split (sep : ascii) (v : string) :
  join (String sep "") (Js.split sep v) = v.
Proof.
  induction v as [| c r IH]; [reflexivity |].
  cbn [Js.split]. destruct (Ascii.eqb_spec c sep) as [-> | Hne].
  - destruct (Js.split sep r) as [| h t] eqn:E;
      [exfalso; exact (split_nonempty _ _ E) |].
    cbn [join]. cbn [join] in IH. rewrite IH. reflexivity.
  - destruct (Js.split sep r) as [| h t] eqn:E;
      [exfalso; exact (split_nonempty _ _ E) |].
    destruct t as [| h2 t]; cbn [join] in *; rewrite <- IH; reflexivity.
Qed.

Lemma trim_after_space (c : string) : trim (String " " c) = trim c.
Proof. reflexivity. Qed.

Lemma prefix_cons (a b : ascii) (s t : string) :
  String.prefix (String a s) (String b t)
  = if ascii_dec a b then String.prefix s t else false.
Proof. reflexivity. Qed.

Lemma prefix_name (q n v : string) :
  Text.test (Ascii.eqb "=") q = false ->
  Text.test (Ascii.eqb "=") n = false ->
  String.prefix (q ++ "=") (n ++ "=" ++ v) = String.eqb q n.
Proof.
  revert n. induction q as [| a q IH]; intros [| b n] Hq Hn;
    cbn [append String.eqb]; rewrite prefix_cons.
  - destruct (ascii_dec "=" "="); [destruct v; reflexivity | contradiction].
  - rewrite test_cons in Hn. apply orb_false_elim in Hn as (Hb & _).
    destruct (ascii_dec "=" b) as [<- | _]; [| reflexivity].
    rewrite Ascii.eqb_refl in Hb. discriminate.
  - rewrite test_cons in Hq. apply orb_false_elim in Hq as (Ha & _).
    destruct (ascii_dec a "=") as [-> | _]; [| reflexivity].
    rewrite Ascii.eqb_refl in Ha. discriminate.
  - rewrite test_cons in Hq, Hn.
    apply orb_false_elim in Hq as (_ & Hq).
    apply orb_false_elim in Hn as (_ & Hn).
    destruct (ascii_dec a b) as [-> | Hab].
    + rewrite Ascii.eqb_refl. apply IH; assumption.
    + destruct (Ascii.eqb_spec a b); [contradiction | reflexivity].
Qed.

Lemma append_assoc (a b c : string) : ((a ++ b) ++ c = a ++ (b ++ c))%string.
Proof. induction a as [| x a IH]; cbn; [reflexivity | rewrite IH; reflexivity]. Qed.

Lemma substring_whole (v : string) :
  String.substring 0 (String.length v) v = v.
Proof. induction v as [| c v IH]; cbn; [reflexivity | rewrite IH; reflexivity]. Qed.

Lemma substring_after (p v : string) :
  Js.substring (String.length p) (String.length (p ++ v)) (p ++ v) = v.
Proof.
  unfold Js.substring.
  assert (Hlen : String.length (p ++ v) = (String.length p + String.length v)%nat).
  { induction p as [| c p IH]; cbn; [reflexivity | rewrite IH; reflexivity]. }
  rewrite Hlen.
  rewrite (Nat.min_l (String.length p)) by lia.
  rewrite Nat.min_id, Nat.min_l, Nat.max_r by lia.
  replace (String.length p + String.length v - String.length p)%nat
    with (String.length v) by lia.
  clear Hlen.
  induction p as [| c p IH]; cbn; [apply substring_whole | exact IH].
Qed.

Lemma join_cons (sep a b : string) (r : list string) :
  join sep (a :: b :: r) = a ++ sep ++ join sep (b :: r).
Proof. reflexivity. Qed.

(** The pieces [split(';')] cuts a serialised jar into. *)
Lemma split_serialise (p : string * string) (jar : list (string * string)) :
  Forall plain (p :: jar) ->
  Js.split ";" (serialise (p :: jar))
  = (fst p ++ "=" ++ snd p)
    :: map (fun q => String " " (fst q ++ "=" ++ snd q)) jar.
Proof.
  revert p. induction jar as [| p2 jar IH]; intros p Hplain.
  - inversion Hplain as [| ? ? (Hsemi & _) _]; subst.
    unfold serialise. cbn [map join]. apply split_without. exact Hsemi.
  - inversion Hplain as [| ? ? (Hsemi & _) Hrest]; subst.
    specialize (IH p2 Hrest). unfold serialise in *. cbn [map] in *.
    rewrite join_cons.
    change ("; " ++ ?x) with (String ";" (String " " x)).
    rewrite split_at by exact Hsemi. f_equal.
    cbn [Js.split]. change (Ascii.eqb " " ";") with false. cbv iota.
    rewrite IH. reflexivity.
Qed.

Lemma firstMatch_pieces (q : string) (jar : list (string * string)) :
  Text.test (Ascii.eqb "=") q = false ->
  Forall plain jar ->
  firstMatch (q ++ "=")
    (map (fun p => String " " (fst p ++ "=" ++ snd p)) jar)
  = firstValue q jar.
Proof.
  intros Hq. induction 1 as [| [n v] jar (Hsemi & Heq & Htrim) Hrest IH];
    [reflexivity |].
  cbn [map firstMatch fst snd] in *. rewrite trim_after_space, Htrim.
  rewrite prefix_name by assumption.
  unfold firstValue. cbn [find fst].
  destruct (String.eqb q n) eqn:E.
  - cbn. apply String.eqb_eq in E. subst n.
    change (q ++ String "=" v) with (q ++ ("=" ++ v)).
    rewrite <- append_assoc, substring_after. reflexivity.
  - exact IH.
Qed.

Lemma prop_setProp (q k v : string) (obj : list (string * string)) :
  prop q (setProp k v obj)
  = if String.eqb q k then Some v else prop q obj.
Proof.
  induction obj as [| [k' v'] r IH]; cbn.
  - destruct (String.eqb q k); reflexivity.
  - destruct (String.eqb_spec k k') as [-> | Hk]; cbn.
    + destruct (String.eqb q k'); reflexivity.
    + rewrite IH. destruct (String.eqb_spec q k') as [-> | Hq].
      * destruct (String.eqb_spec k' k); [congruence | reflexivity].
      * reflexivity.
Qed.

Lemma collect_piece (q piece n v : string) (acc : list (string * string)) :
  q <> "" -> q <> "__proto__" ->
  trim piece = n ++ "=" ++ v ->
  Text.test (Ascii.eqb "=") n = false ->
  prop q (collect acc piece)
  = if String.eqb q n then Some v else prop q acc.
Proof.
  intros Hq Hproto Htrim Hn. unfold collect. rewrite Htrim.
  change (n ++ "=" ++ v) with (n ++ String "=" v).
  rewrite split_at by exact Hn.
  assert (Hparts : Nat.eqb (List.length (Js.split "=" v)) 0 = false).
  { destruct (Js.split "=" v) eqn:E;
      [exfalso; exact (split_nonempty _ _ E) | reflexivity]. }
  rewrite Hparts, (join_split "=" v). cbn [negb]. rewrite andb_true_r.
  destruct (Js.truthyStr n) eqn:Ht.
  - destruct (String.eqb_spec n "__proto__") as [-> | _].
    + destruct (String.eqb_spec q "__proto__"); [contradiction | reflexivity].
    + apply prop_setProp.
  - apply truthyStr_false in Ht. subst n.
    destruct (String.eqb_spec q ""); [contradiction | reflexivity].
Qed.

Lemma firstValue_app (q : string) (a b : list (string * string)) :
  firstValue q (a ++ b)
  = match firstValue q a with
    | Some v => Some v
    | None => firstValue q b
    end.
Proof.
  unfold firstValue. induction a as [| [n v] a IH]; [reflexivity |].
  cbn [app find fst]. destruct (String.eqb q n); [reflexivity | exact IH].
Qed.

Lemma collect_pieces (q : string) (jar : list (string * string))
    (pad : string -> string) :
  q <> "" -> q <> "__proto__" ->
  (forall c, trim (pad c) = trim c) ->
  Forall plain jar ->
  forall acc,
    prop q (fold_left collect
              (map (fun p => pad (fst p ++ "=" ++ snd p)) jar) acc)
    = match lastValue q jar with
      | Some v => Some v
      | None => prop q acc
      end.
Proof.
  intros Hq Hproto Hpad. unfold lastValue.
  induction 1 as [| [n v] jar (Hsemi & Heq & Htrim) Hrest IH]; intro acc;
    [reflexivity |].
  cbn [map fold_left rev fst snd] in *. rewrite IH, firstValue_app.
  destruct (firstValue q (rev jar)); [reflexivity |].
  rewrite (collect_piece q _ n v) by (rewrite ?Hpad; assumption).
  unfold firstValue. cbn [find fst].
  destruct (String.eqb q n); reflexivity.
Qed.

End CookieFacts.

(** Reading back a cookie jar: for a [document.cookie] text made of
    plain name-value pairs that [decodeURIComponent] leaves alone,
    [getCookie] returns the value of the first pair with the asked
    name and [null] if there is none, while [getAllCookies] keeps,
    under each name, the value of the last such pair; so on a name
    that occurs twice the two readers can answer differently. *)
Theorem cookies_read_back (decodeURIComponent : string -> option string)
    (jar : list (string * string)) (name : string) :
  decodeURIComponent (CookieUtils.serialise jar)
  = Some (CookieUtils.serialise jar) ->
  Forall CookieUtils.plain jar ->
  Text.test (Ascii.eqb "=") name = false ->
  CookieUtils.getCookie decodeURIComponent name (CookieUtils.serialise jar)
  = Some (CookieUtils.firstValue name jar) /\
  (name <> "" -> name <> "__proto__" ->
   exists cookies,
     CookieUtils.getAllCookies decodeURIComponent (CookieUtils.serialise jar)
     = Some cookies /\
     CookieUtils.prop name cookies = CookieUtils.lastValue name jar).
Proof.
  intros Hdecode Hplain Hname.
  unfold CookieUtils.getCookie, CookieUtils.getAllCookies. rewrite Hdecode.
  destruct jar as [| p jar].
  - split; [destruct name; reflexivity |].
    intros _ _. exists []. split; reflexivity.
  - rewrite (CookieFacts.split_serialise p jar Hplain).
    inversion Hplain as [| ? ? Hp Hrest]; subst.
    split.
    + destruct p as [n v]. destruct Hp as (Hsemi & Heq & Htrim).
      cbn [CookieUtils.firstMatch fst snd] in *. rewrite Htrim.
      rewrite CookieFacts.prefix_name by assumption.
      unfold CookieUtils.firstValue at 1. cbn [find fst].
      destruct (String.eqb name n) eqn:E.
      * cbn. apply String.eqb_eq in E. subst n.
        change (name ++ String "=" v) with (name ++ ("=" ++ v)).
        rewrite <- CookieFacts.append_assoc, CookieFacts.substring_after.
        reflexivity.
      * f_equal. apply CookieFacts.firstMatch_pieces; assumption.
    + intros Hne Hproto.
      assert (Htruthy : Js.truthyStr (CookieUtils.serialise (p :: jar)) = true).
      { unfold CookieUtils.serialise. cbn [map CookieUtils.join].
        destruct p as [[| a n] v]; destruct (map _ jar); reflexivity. }
      rewrite Htruthy. cbn [negb]. eexists. split; [reflexivity |].
      cbn [fold_left].
      rewrite (CookieFacts.collect_pieces name jar (String " ") Hne Hproto
                 CookieFacts.trim_after_space Hrest).
      unfold CookieUtils.lastValue. cbn [rev].
      rewrite CookieFacts.firstValue_app.
      destruct (CookieUtils.firstValue name (rev jar)); [reflexivity |].
      destruct p as [n v]. destruct Hp as (Hsemi & Heq & Htrim).
      cbn [fst snd] in *.
      rewrite (CookieFacts.collect_piece name _ n v [] Hne Hproto Htrim Heq).
      unfold CookieUtils.firstValue. cbn [find fst].
      destruct (String.eqb name n); reflexivity.
Qed.

Lemma cookies_read_back_witness :
  let jar := [("theme", "dark"); ("lang", "it"); ("theme", "light")] in
  CookieUtils.getCookie Some "theme" (CookieUtils.serialise jar)
  = Some (Some "dark") /\
  exists cookies,
    CookieUtils.getAllCookies Some (CookieUtils.serialise jar) = Some cookies /\
    CookieUtils.prop "theme" cookies = Some "light".
Proof.
  intro jar.
  destruct (cookies_read_back Some jar "theme" eq_refl
              ltac:(repeat constructor) eq_refl) as (Hfirst & Hall).
  split; [exact Hfirst |].
  exact (Hall ltac:(discriminate) ltac:(discriminate)).
Defined.
